(** * Scientific-loop core of the black-box web intelligence backend

    A shallow embedding of the parts of [src/backend] that the specification's
    testable statements are about: the confidence calculator and hypothesis
    store ([memory/hypothesis_store.py]), the supervisor
    ([agents/supervisor.py]), the interceptor's traffic filter
    ([agents/interceptor.py], with its sibling in [browser/manager.py]), the
    schema merger ([inference/schema_merger.py]), the verifier
    ([agents/verifier.py]), the FSM store ([memory/fsm_store.py]), the
    critic ([agents/critic.py]) and the duplicate check of the analyst phase
    ([api/routes/control.py]).

    Conventions of the embedding.
    - Python [float]s are modelled by exact rationals [Q]; every comparison the
      source makes on them is the corresponding comparison on [Q]. The
      rounding of float arithmetic is not modelled: a sum or product that the
      source computes can differ from the model's in its last binary digits
      ([0.5 - 3 * 0.1] is [0.19999999999999996] there and [0.2] here), and
      the mean of the confidence summary, a quotient, is a parameter.
    - Python [str] is [string], one [ascii] per character; [lower] acts on
      the ASCII letters. Where the source cuts or lowers free text (the
      duplicate check of the analyst phase, the critic's prompt), the
      operation is a parameter.
    - Python [dict]s keyed by hypothesis id are [gmap string _]; JSON-like
      dictionaries, whose key order the source relies on, are association
      lists inside [pyval].
    - A Python exception is the [Raise] case of [result].
    - [uuid4()] and the HTTP peer are inputs of the functions that use them.
    - Wall-clock fields ([timestamp], [created_at], [updated_at]) are left
      out of the records: no function below reads them. *)

From Stdlib Require Import QArith Lqa ZArith String Ascii List DecimalString.
From Stdlib Require Import Sorted.
From stdpp Require Import gmap strings list fin_maps.

Local Open Scope string_scope.
Set Warnings "-register-all,-abstract-large-number".

(* ===================================================================== *)
(** * Part I. Definitions                                                 *)
(* ===================================================================== *)

(** ** Python run-time values used by the source *)

Module Py.

Inductive exn : Set :=
| ValueError | TypeError | AttributeError | ValidationError | IntegrityError
| RecursionError.

Inductive result (A : Type) : Type :=
| Ok (a : A)
| Raise (e : exn).

Arguments Ok {A} a.
Arguments Raise {A} e.

Definition bind {A B : Type} (c : result A) (k : A -> result B) : result B :=
  match c with
  | Ok a => k a
  | Raise e => Raise e
  end.

Definition is_ok {A : Type} (c : result A) : bool :=
  match c with Ok _ => true | Raise _ => false end.

(** *** Strings *)

Definition lower_ascii (c : ascii) : ascii :=
  let n := nat_of_ascii c in
  if (65 <=? n)%nat && (n <=? 90)%nat then ascii_of_nat (n + 32) else c.

Fixpoint lower (s : string) : string :=
  match s with
  | EmptyString => EmptyString
  | String c r => String (lower_ascii c) (lower r)
  end.

(** [s.startswith(p)], with the arguments in the order of [p in s]. *)
Fixpoint is_prefix (p s : string) : bool :=
  match p with
  | EmptyString => true
  | String a p' =>
      match s with
      | EmptyString => false
      | String b s' => Ascii.eqb a b && is_prefix p' s'
      end
  end.

(** [p in s] on strings. *)
Fixpoint str_in (p s : string) : bool :=
  is_prefix p s ||
  match s with
  | EmptyString => false
  | String _ r => str_in p r
  end.

Definition startswith (s p : string) : bool := is_prefix p s.

Fixpoint str_rev_app (s acc : string) : string :=
  match s with
  | EmptyString => acc
  | String c r => str_rev_app r (String c acc)
  end.

Definition str_rev (s : string) : string := str_rev_app s EmptyString.

Definition endswith (s suffix : string) : bool :=
  is_prefix (str_rev suffix) (str_rev s).

(** [s.replace(pat, rep)] for a non-empty [pat]: leftmost, non-overlapping. *)
Fixpoint replace_from (pat rep : string) (skip : nat) (s : string) : string :=
  match s with
  | EmptyString => EmptyString
  | String c r =>
      match skip with
      | S k => replace_from pat rep k r
      | O =>
          if is_prefix pat s
          then rep +:+ replace_from pat rep (String.length pat - 1) r
          else String c (replace_from pat rep 0 r)
      end
  end.

Definition replace (s pat rep : string) : string := replace_from pat rep 0 s.

Definition str_of_Z (z : Z) : string := NilZero.string_of_int (Z.to_int z).
Definition str_of_nat (n : nat) : string := NilZero.string_of_uint (Nat.to_uint n).

(** The line feed of a Python string literal. *)
Definition nl : string := String (ascii_of_nat 10) EmptyString.

Fixpoint str_repeat (c : ascii) (n : nat) : string :=
  match n with
  | O => EmptyString
  | S k => String c (str_repeat c k)
  end.

(** *** Numbers: [float] as [Q] *)

Definition Qltb (x y : Q) : bool := negb (Qle_bool y x).

(** [min(a, b)] returns [a] unless [b < a]; [max(a, b)] returns [a] unless
    [b > a]. *)
Definition py_min (a b : Q) : Q := if Qltb b a then b else a.
Definition py_max (a b : Q) : Q := if Qltb a b then b else a.

(** *** JSON-like values: [None], [bool], [int], [float], [str], [list],
    [dict] with string keys in insertion order. *)

Inductive pyval : Type :=
| PNone
| PBool (b : bool)
| PInt (z : Z)
| PFloat (q : Q)
| PStr (s : string)
| PList (l : list pyval)
| PDict (d : list (string * pyval)).

Definition dict : Type := list (string * pyval).

Fixpoint dict_get (k : string) (d : dict) : option pyval :=
  match d with
  | [] => None
  | (k', v) :: r => if String.eqb k k' then Some v else dict_get k r
  end.

(** [d.get(k, default)] *)
Definition get_or (k : string) (default : pyval) (d : dict) : pyval :=
  match dict_get k d with Some v => v | None => default end.

(** [d[k] = v]: overwrite in place, or append a new key. *)
Fixpoint dict_set (k : string) (v : pyval) (d : dict) : dict :=
  match d with
  | [] => [(k, v)]
  | (k', w) :: r =>
      if String.eqb k k' then (k', v) :: r else (k', w) :: dict_set k v r
  end.

Definition num_of (v : pyval) : option Q :=
  match v with
  | PBool b => Some (if b then 1 else 0)%Q
  | PInt z => Some (inject_Z z)
  | PFloat q => Some q
  | _ => None
  end.

(** [a == b]: numbers compare by value ([True == 1 == 1.0]), lists
    pointwise, dictionaries key by key regardless of order. *)
Fixpoint py_eq (a b : pyval) {struct a} : bool :=
  match a, b with
  | PNone, PNone => true
  | PStr s, PStr t => String.eqb s t
  | PList xs, PList ys =>
      (fix go (xs ys : list pyval) {struct xs} : bool :=
         match xs, ys with
         | [], [] => true
         | x :: xs', y :: ys' => py_eq x y && go xs' ys'
         | _, _ => false
         end) xs ys
  | PDict xs, PDict ys =>
      Nat.eqb (length xs) (length ys) &&
      (fix go (xs : list (string * pyval)) {struct xs} : bool :=
         match xs with
         | [] => true
         | kv :: xs' =>
             match dict_get (fst kv) ys with
             | Some w => py_eq (snd kv) w
             | None => false
             end && go xs'
         end) xs
  | _, _ =>
      match num_of a, num_of b with
      | Some p, Some q => Qeq_bool p q
      | _, _ => false
      end
  end.

(** Truth value of [if v:]. *)
Definition truthy (v : pyval) : bool :=
  match v with
  | PNone => false
  | PBool b => b
  | PInt z => negb (z =? 0)%Z
  | PFloat q => negb (Qeq_bool q 0)
  | PStr s => negb (String.eqb s "")
  | PList l => match l with [] => false | _ => true end
  | PDict d => match d with [] => false | _ => true end
  end.

Definition truthy_opt (o : option pyval) : bool :=
  match o with Some v => truthy v | None => false end.

(** The value of [d.get(k)]: [None] for a missing key. *)
Definition of_opt (o : option pyval) : pyval :=
  match o with Some v => v | None => PNone end.

(** [x == y] for two results of [d.get(k)]. *)
Definition opt_eq (x y : option pyval) : bool :=
  py_eq (of_opt x) (of_opt y).

End Py.

Import Py.

#[global] Instance result_ret : MRet result := @Ok.
#[global] Instance result_bind : MBind result :=
  fun A B k c => Py.bind c k.

(** ** [core/models.py] *)

Module HypothesisType.
Inductive t : Set :=
| ENDPOINT_SCHEMA | BUSINESS_RULE | STATE_TRANSITION
| PERMISSION_GATE | RATE_LIMIT | FIELD_CONSTRAINT.

Definition value (x : t) : string :=
  match x with
  | ENDPOINT_SCHEMA => "endpoint_schema"
  | BUSINESS_RULE => "business_rule"
  | STATE_TRANSITION => "state_transition"
  | PERMISSION_GATE => "permission_gate"
  | RATE_LIMIT => "rate_limit"
  | FIELD_CONSTRAINT => "field_constraint"
  end.

(** [HypothesisType(s)]: the member with that value, or [ValueError]. *)
Definition of_value (s : string) : result t :=
  if String.eqb s "endpoint_schema" then Ok ENDPOINT_SCHEMA
  else if String.eqb s "business_rule" then Ok BUSINESS_RULE
  else if String.eqb s "state_transition" then Ok STATE_TRANSITION
  else if String.eqb s "permission_gate" then Ok PERMISSION_GATE
  else if String.eqb s "rate_limit" then Ok RATE_LIMIT
  else if String.eqb s "field_constraint" then Ok FIELD_CONSTRAINT
  else Raise ValueError.

#[global] Instance eq_dec : EqDecision t.
Proof. solve_decision. Defined.
End HypothesisType.

Module HypothesisStatus.
Inductive t : Set :=
| ACTIVE | CHALLENGED | CONFIRMED | FALSIFIED | NEEDS_REVISION.

Definition value (x : t) : string :=
  match x with
  | ACTIVE => "active"
  | CHALLENGED => "challenged"
  | CONFIRMED => "confirmed"
  | FALSIFIED => "falsified"
  | NEEDS_REVISION => "needs_revision"
  end.

Definition of_value (s : string) : result t :=
  if String.eqb s "active" then Ok ACTIVE
  else if String.eqb s "challenged" then Ok CHALLENGED
  else if String.eqb s "confirmed" then Ok CONFIRMED
  else if String.eqb s "falsified" then Ok FALSIFIED
  else if String.eqb s "needs_revision" then Ok NEEDS_REVISION
  else Raise ValueError.

#[global] Instance eq_dec : EqDecision t.
Proof. solve_decision. Defined.
End HypothesisStatus.

Module ProbeType.
Inductive t : Set :=
| REPLAY_EXACT | MUTATE_FIELD | OMIT_FIELD | ADD_FIELD
| CHANGE_TYPE | BOUNDARY_VALUE | SEQUENCE_BREAK | AUTH_VARIATION.

Definition value (x : t) : string :=
  match x with
  | REPLAY_EXACT => "replay_exact"
  | MUTATE_FIELD => "mutate_field"
  | OMIT_FIELD => "omit_field"
  | ADD_FIELD => "add_field"
  | CHANGE_TYPE => "change_type"
  | BOUNDARY_VALUE => "boundary_value"
  | SEQUENCE_BREAK => "sequence_break"
  | AUTH_VARIATION => "auth_variation"
  end.
End ProbeType.

Module ProbeOutcome.
Inductive t : Set := CONFIRMED | FALSIFIED | INCONCLUSIVE.

Definition value (x : t) : string :=
  match x with
  | CONFIRMED => "confirmed"
  | FALSIFIED => "falsified"
  | INCONCLUSIVE => "inconclusive"
  end.

#[global] Instance eq_dec : EqDecision t.
Proof. solve_decision. Defined.
End ProbeOutcome.

Module CriticVerdict.
Inductive t : Set := ACCEPT | CHALLENGE | REJECT.

Definition value (x : t) : string :=
  match x with
  | ACCEPT => "accept"
  | CHALLENGE => "challenge"
  | REJECT => "reject"
  end.
End CriticVerdict.

Module ConfidenceEventType.
Inductive t : Set :=
| INITIAL_INFERENCE | EVIDENCE_ADDED | CRITIC_CHALLENGE
| PROBE_CONFIRMED | PROBE_FALSIFIED | PROBE_INCONCLUSIVE | MANUAL_OVERRIDE.
End ConfidenceEventType.

Module EnforcementRuleType.
Inductive t : Set :=
| REQUIRED_SEQUENCE | PERMISSION_GATE | RATE_LIMIT | FIELD_CONSTRAINT
| IDEMPOTENCY.
End EnforcementRuleType.

Module EvidenceRef.
Record t : Type := mk {
  observation_id : string;
  summary : string;
  strength : string
}.
End EvidenceRef.

Module CompetingExplanation.
Record t : Type := mk {
  description : string;
  plausibility : Q;
  distinguishing_test : string
}.
End CompetingExplanation.

Module ConfidenceEvent.
Record t : Type := mk {
  event_type : ConfidenceEventType.t;
  old_confidence : Q;
  new_confidence : Q;
  reason : string;
  agent : string
}.
End ConfidenceEvent.

Module Hypothesis_.
Record t : Type := mk {
  id : string;
  type : HypothesisType.t;
  description : string;
  endpoint_pattern : option string;
  method : option string;
  request_schema : pyval;
  response_schema : pyval;
  rule_type : option EnforcementRuleType.t;
  supporting_evidence : list EvidenceRef.t;
  contradicting_evidence : list EvidenceRef.t;
  competing_explanations : list CompetingExplanation.t;
  untested_assumptions : list string;
  confidence : Q;
  confidence_history : list ConfidenceEvent.t;
  status : HypothesisStatus.t;
  revision : Z;
  created_by : string;
  last_modified_by : string
}.

(** The field constraint [confidence: float = Field(ge=0.0, le=1.0)],
    checked when a [Hypothesis] is constructed. *)
Definition confidence_in_bounds (c : Q) : bool :=
  Qle_bool 0 c && Qle_bool c 1.
End Hypothesis_.

Module ProbeResult.
Record t : Type := mk {
  id : string;
  probe_id : string;
  hypothesis_id : string;
  response_status : Z;
  outcome : ProbeOutcome.t;
  confidence_delta : Q;
  notes : string
}.
End ProbeResult.

Module CriticEvaluation.
Record t : Type := mk {
  hypothesis_id : string;
  verdict : CriticVerdict.t;
  alternative_explanations : list string;
  untested_assumptions : list string;
  missing_evidence : list string;
  contradictions : list string;
  original_confidence : Q;
  recommended_confidence : Q;
  adjustment_reason : string;
  required_exploration : list string
}.
End CriticEvaluation.

(** ** [memory/hypothesis_store.py] *)

Module ConfidenceCalculator.
Local Open Scope Q_scope.

Definition MIN_CONFIDENCE_FOR_EXPORT : Q := 0.7.
Definition MIN_CONFIDENCE_TO_STOP : Q := 0.85.
Definition REVISION_THRESHOLD : Q := 0.2.

Definition initial_confidence
    (evidence_count competing_count untested_count : Z) : Q :=
  let base : Q :=
    if (evidence_count =? 1)%Z then 0.2
    else if (evidence_count =? 2)%Z then 0.35
    else if (evidence_count <=? 5)%Z then 0.5
    else 0.6 in
  let competing_penalty := (inject_Z competing_count * 0.1)%Q in
  let assumption_penalty := (inject_Z untested_count * 0.05)%Q in
  py_max 0.1 (py_min 1.0 (base - competing_penalty - assumption_penalty)%Q).

Definition apply_critic_review (current : Q) (review : CriticEvaluation.t) : Q :=
  match CriticEvaluation.verdict review with
  | CriticVerdict.REJECT => (current * 0.3)%Q
  | CriticVerdict.CHALLENGE =>
      py_min current (CriticEvaluation.recommended_confidence review)
  | CriticVerdict.ACCEPT => py_min 1.0 (current * 1.1)%Q
  end.

Definition apply_probe_result (current : Q) (outcome : ProbeOutcome.t) : Q :=
  match outcome with
  | ProbeOutcome.CONFIRMED => (current + (1.0 - current) * 0.2)%Q
  | ProbeOutcome.FALSIFIED => (current * 0.5)%Q
  | ProbeOutcome.INCONCLUSIVE => (current * 0.95)%Q
  end.

End ConfidenceCalculator.

Module HypothesisStore.
Local Open Scope Q_scope.

(** [self.hypotheses: dict[str, Hypothesis]]. The store is modelled without a
    database connection ([self.db] is [None], the constructor's default);
    with one, [_persist] only mirrors the in-memory record and swallows its
    own errors. *)
Abbreviation store := (gmap string Hypothesis_.t).

(** One element of the [supporting_evidence] keyword list. *)
Inductive evidence_item : Type :=
| EvStr (s : string)
| EvRef (e : EvidenceRef.t)
| EvOther (v : pyval).

(** The keyword arguments [**kwargs] of [create] that the callers in the
    repository pass. *)
Record kwargs : Type := mk_kwargs {
  kw_status : option (HypothesisStatus.t + string);
  kw_confidence : option Q;
  kw_supporting_evidence : list evidence_item;
  kw_competing_explanations : option (list CompetingExplanation.t);
  kw_untested_assumptions : option (list string);
  kw_endpoint_pattern : option string;
  kw_method : option string;
  kw_request_schema : option pyval;
  kw_response_schema : option pyval;
  kw_rule_type : option EnforcementRuleType.t
}.

Definition no_kwargs : kwargs :=
  mk_kwargs None None [] None None None None None None None.

(** The loop [for e in supporting_evidence] of [create]. *)
Definition evidence_of_item (e : evidence_item) : list EvidenceRef.t :=
  match e with
  | EvStr s => [EvidenceRef.mk "" s "moderate"]
  | EvRef r => [r]
  | EvOther _ => []
  end.

Definition is_dict (v : pyval) : bool :=
  match v with PDict _ => true | _ => false end.

Definition schemas_are_dicts (kw : kwargs) : bool :=
  is_dict (default (PDict []) (kw_request_schema kw)) &&
  is_dict (default (PDict []) (kw_response_schema kw)).

(** [Hypothesis(...)] as [create] calls it: the model's validation of the
    bounded [confidence] field and of the two [dict] fields. *)
Definition new_hypothesis
    (id : string) (type : HypothesisType.t) (status : HypothesisStatus.t)
    (description : string) (evidence : list EvidenceRef.t) (initial_conf : Q)
    (history : list ConfidenceEvent.t) (created_by : string) (kw : kwargs)
  : result Hypothesis_.t :=
  let request_schema := default (PDict []) (kw_request_schema kw) in
  let response_schema := default (PDict []) (kw_response_schema kw) in
  if negb (schemas_are_dicts kw)
  then Raise ValidationError
  else if negb (Hypothesis_.confidence_in_bounds initial_conf)
  then Raise ValidationError
  else Ok {|
    Hypothesis_.id := id;
    Hypothesis_.type := type;
    Hypothesis_.description := description;
    Hypothesis_.endpoint_pattern := kw_endpoint_pattern kw;
    Hypothesis_.method := kw_method kw;
    Hypothesis_.request_schema := request_schema;
    Hypothesis_.response_schema := response_schema;
    Hypothesis_.rule_type := kw_rule_type kw;
    Hypothesis_.supporting_evidence := evidence;
    Hypothesis_.contradicting_evidence := [];
    Hypothesis_.competing_explanations := [];
    Hypothesis_.untested_assumptions := [];
    Hypothesis_.confidence := initial_conf;
    Hypothesis_.confidence_history := history;
    Hypothesis_.status := status;
    Hypothesis_.revision := 1;
    Hypothesis_.created_by := created_by;
    Hypothesis_.last_modified_by := created_by
  |}.

(** [if isinstance(type, str): type = HypothesisType(type)] *)
Definition resolve_type (type : HypothesisType.t + string)
  : result HypothesisType.t :=
  match type with
  | inl t => Ok t
  | inr s => HypothesisType.of_value s
  end.

(** [status = kwargs.pop("status", HypothesisStatus.ACTIVE)], converted when
    it is a string. *)
Definition resolve_status (status : option (HypothesisStatus.t + string))
  : result HypothesisStatus.t :=
  match status with
  | None => Ok HypothesisStatus.ACTIVE
  | Some (inl st) => Ok st
  | Some (inr s) => HypothesisStatus.of_value s
  end.

(** The list [evidence] of [create] after the conversion loop. *)
Definition created_evidence (evidence : option (list EvidenceRef.t))
    (kw : kwargs) : list EvidenceRef.t :=
  (default [] evidence ++
   flat_map evidence_of_item (kw_supporting_evidence kw))%list.

(** [initial_conf] of [create]: the override when one is given, the
    calculator's rule otherwise. *)
Definition created_confidence (evidence : option (list EvidenceRef.t))
    (kw : kwargs) : Q :=
  let confidence_override := kw_confidence kw in
  let competing := default [] (kw_competing_explanations kw) in
  let untested := default [] (kw_untested_assumptions kw) in
  match confidence_override with
  | Some c => c
  | None =>
      ConfidenceCalculator.initial_confidence
        (Z.of_nat (length (created_evidence evidence kw)))
        (Z.of_nat (length competing))
        (Z.of_nat (length untested))
  end.

(** [HypothesisStore.create]; [uuid] is the value drawn by [uuid4()]. *)
Definition create
    (self : store) (uuid : string)
    (type : HypothesisType.t + string) (description created_by : string)
    (evidence0 : option (list EvidenceRef.t)) (kw : kwargs)
  : result (store * Hypothesis_.t) :=
  type ← resolve_type type;
  status ← resolve_status (kw_status kw);
  let evidence := created_evidence evidence0 kw in
  let initial_conf := created_confidence evidence0 kw in
  hypothesis ← new_hypothesis uuid type status description evidence
                 initial_conf
                 [ConfidenceEvent.mk ConfidenceEventType.INITIAL_INFERENCE
                    0.0 initial_conf
                    ("Initial inference with " +:+
                     str_of_nat (length evidence) +:+ " observations")
                    created_by]
                 created_by kw;
  Ok (<[Hypothesis_.id hypothesis := hypothesis]> self, hypothesis).

(** [any(ce.description == alt for ce in competing_explanations)] *)
Definition has_description (alt : string) (ces : list CompetingExplanation.t)
  : bool :=
  existsb (fun ce => String.eqb (CompetingExplanation.description ce) alt) ces.

(** The loop over [evaluation.alternative_explanations]. *)
Fixpoint add_alternatives
    (alts : list string) (ces : list CompetingExplanation.t)
  : list CompetingExplanation.t :=
  match alts with
  | [] => ces
  | alt :: rest =>
      add_alternatives rest
        (if has_description alt ces
         then ces
         else (ces ++
               [CompetingExplanation.mk alt 0.5
                  "Requires further investigation"])%list)
  end.

(** [untested_assumptions.extend([a for a in ... if a not in ...])]: the
    comprehension is evaluated against the list as it was before the call. *)
Definition extend_untested (new old : list string) : list string :=
  (old ++ List.filter (fun a => negb (existsb (String.eqb a) old)) new)%list.

(** The in-place update that [apply_critic_evaluation] makes to the
    hypothesis it has found. *)
Definition critic_update (hypothesis : Hypothesis_.t)
    (evaluation : CriticEvaluation.t) : Hypothesis_.t :=
  let old_conf := Hypothesis_.confidence hypothesis in
  let new_conf :=
    ConfidenceCalculator.apply_critic_review old_conf evaluation in
  {|
    Hypothesis_.id := Hypothesis_.id hypothesis;
    Hypothesis_.type := Hypothesis_.type hypothesis;
    Hypothesis_.description := Hypothesis_.description hypothesis;
    Hypothesis_.endpoint_pattern := Hypothesis_.endpoint_pattern hypothesis;
    Hypothesis_.method := Hypothesis_.method hypothesis;
    Hypothesis_.request_schema := Hypothesis_.request_schema hypothesis;
    Hypothesis_.response_schema := Hypothesis_.response_schema hypothesis;
    Hypothesis_.rule_type := Hypothesis_.rule_type hypothesis;
    Hypothesis_.supporting_evidence :=
      Hypothesis_.supporting_evidence hypothesis;
    Hypothesis_.contradicting_evidence :=
      Hypothesis_.contradicting_evidence hypothesis;
    Hypothesis_.competing_explanations :=
      add_alternatives
        (CriticEvaluation.alternative_explanations evaluation)
        (Hypothesis_.competing_explanations hypothesis);
    Hypothesis_.untested_assumptions :=
      extend_untested
        (CriticEvaluation.untested_assumptions evaluation)
        (Hypothesis_.untested_assumptions hypothesis);
    Hypothesis_.confidence := new_conf;
    Hypothesis_.confidence_history :=
      (Hypothesis_.confidence_history hypothesis ++
       [ConfidenceEvent.mk ConfidenceEventType.CRITIC_CHALLENGE
          old_conf new_conf
          (CriticEvaluation.adjustment_reason evaluation) "critic"])%list;
    Hypothesis_.status :=
      if Qltb new_conf ConfidenceCalculator.REVISION_THRESHOLD
      then HypothesisStatus.NEEDS_REVISION
      else Hypothesis_.status hypothesis;
    Hypothesis_.revision := (Hypothesis_.revision hypothesis + 1)%Z;
    Hypothesis_.created_by := Hypothesis_.created_by hypothesis;
    Hypothesis_.last_modified_by := "critic"
  |}.

(** [HypothesisStore.apply_critic_evaluation] *)
Definition apply_critic_evaluation
    (self : store) (hypothesis_id : string) (evaluation : CriticEvaluation.t)
  : store * option Hypothesis_.t :=
  match self !! hypothesis_id with
  | None => (self, None)
  | Some hypothesis =>
      let hypothesis' := critic_update hypothesis evaluation in
      (<[hypothesis_id := hypothesis']> self, Some hypothesis')
  end.

Definition probe_event_type (o : ProbeOutcome.t) : ConfidenceEventType.t :=
  match o with
  | ProbeOutcome.CONFIRMED => ConfidenceEventType.PROBE_CONFIRMED
  | ProbeOutcome.FALSIFIED => ConfidenceEventType.PROBE_FALSIFIED
  | ProbeOutcome.INCONCLUSIVE => ConfidenceEventType.PROBE_INCONCLUSIVE
  end.

(** The in-place update that [apply_probe_result] makes to the hypothesis it
    has found. *)
Definition probe_update (hypothesis : Hypothesis_.t)
    (result : ProbeResult.t) : Hypothesis_.t :=
  let old_conf := Hypothesis_.confidence hypothesis in
  let outcome := ProbeResult.outcome result in
  let new_conf :=
    ConfidenceCalculator.apply_probe_result old_conf outcome in
  let falsified := bool_decide (outcome = ProbeOutcome.FALSIFIED) in
  let confirmed := bool_decide (outcome = ProbeOutcome.CONFIRMED) in
  {|
    Hypothesis_.id := Hypothesis_.id hypothesis;
    Hypothesis_.type := Hypothesis_.type hypothesis;
    Hypothesis_.description := Hypothesis_.description hypothesis;
    Hypothesis_.endpoint_pattern := Hypothesis_.endpoint_pattern hypothesis;
    Hypothesis_.method := Hypothesis_.method hypothesis;
    Hypothesis_.request_schema := Hypothesis_.request_schema hypothesis;
    Hypothesis_.response_schema := Hypothesis_.response_schema hypothesis;
    Hypothesis_.rule_type := Hypothesis_.rule_type hypothesis;
    Hypothesis_.supporting_evidence :=
      Hypothesis_.supporting_evidence hypothesis;
    Hypothesis_.contradicting_evidence :=
      if falsified
      then (Hypothesis_.contradicting_evidence hypothesis ++
            [EvidenceRef.mk (ProbeResult.id result)
               ("Probe falsified: " +:+ ProbeResult.notes result)
               "strong"])%list
      else Hypothesis_.contradicting_evidence hypothesis;
    Hypothesis_.competing_explanations :=
      Hypothesis_.competing_explanations hypothesis;
    Hypothesis_.untested_assumptions :=
      Hypothesis_.untested_assumptions hypothesis;
    Hypothesis_.confidence := new_conf;
    Hypothesis_.confidence_history :=
      (Hypothesis_.confidence_history hypothesis ++
       [ConfidenceEvent.mk (probe_event_type outcome) old_conf new_conf
          (if String.eqb (ProbeResult.notes result) ""
           then "Probe " +:+ ProbeOutcome.value outcome
           else ProbeResult.notes result)
          "verifier"])%list;
    Hypothesis_.status :=
      if falsified && Qltb new_conf 0.2
      then HypothesisStatus.FALSIFIED
      else if confirmed && Qle_bool 0.85 new_conf
      then HypothesisStatus.CONFIRMED
      else if Qltb new_conf ConfidenceCalculator.REVISION_THRESHOLD
      then HypothesisStatus.NEEDS_REVISION
      else Hypothesis_.status hypothesis;
    Hypothesis_.revision := (Hypothesis_.revision hypothesis + 1)%Z;
    Hypothesis_.created_by := Hypothesis_.created_by hypothesis;
    Hypothesis_.last_modified_by := "verifier"
  |}.

(** [HypothesisStore.apply_probe_result] *)
Definition apply_probe_result
    (self : store) (hypothesis_id : string) (result : ProbeResult.t)
  : store * option Hypothesis_.t :=
  match self !! hypothesis_id with
  | None => (self, None)
  | Some hypothesis =>
      let hypothesis' := probe_update hypothesis result in
      (<[hypothesis_id := hypothesis']> self, Some hypothesis')
  end.

(** [HypothesisStore.get] *)
Definition get (self : store) (hypothesis_id : string)
  : option Hypothesis_.t :=
  self !! hypothesis_id.

(** [HypothesisStore.get_all] and [HypothesisStore.list]: the stored
    hypotheses. *)
Definition get_all (self : store) : list Hypothesis_.t :=
  (map_to_list self).*2.

(** The in-place update that [add_evidence] makes to the hypothesis it has
    found. *)
Definition evidence_update (hypothesis : Hypothesis_.t)
    (evidence : EvidenceRef.t) (agent : string) : Hypothesis_.t :=
  let supporting :=
    (Hypothesis_.supporting_evidence hypothesis ++ [evidence])%list in
  let old_conf := Hypothesis_.confidence hypothesis in
  let new_conf :=
    ConfidenceCalculator.initial_confidence
      (Z.of_nat (length supporting))
      (Z.of_nat (length (Hypothesis_.competing_explanations hypothesis)))
      (Z.of_nat (length (Hypothesis_.untested_assumptions hypothesis))) in
  let new_conf := py_max old_conf new_conf in
  {|
    Hypothesis_.id := Hypothesis_.id hypothesis;
    Hypothesis_.type := Hypothesis_.type hypothesis;
    Hypothesis_.description := Hypothesis_.description hypothesis;
    Hypothesis_.endpoint_pattern := Hypothesis_.endpoint_pattern hypothesis;
    Hypothesis_.method := Hypothesis_.method hypothesis;
    Hypothesis_.request_schema := Hypothesis_.request_schema hypothesis;
    Hypothesis_.response_schema := Hypothesis_.response_schema hypothesis;
    Hypothesis_.rule_type := Hypothesis_.rule_type hypothesis;
    Hypothesis_.supporting_evidence := supporting;
    Hypothesis_.contradicting_evidence :=
      Hypothesis_.contradicting_evidence hypothesis;
    Hypothesis_.competing_explanations :=
      Hypothesis_.competing_explanations hypothesis;
    Hypothesis_.untested_assumptions :=
      Hypothesis_.untested_assumptions hypothesis;
    Hypothesis_.confidence := new_conf;
    Hypothesis_.confidence_history :=
      (Hypothesis_.confidence_history hypothesis ++
       [ConfidenceEvent.mk ConfidenceEventType.EVIDENCE_ADDED
          old_conf new_conf
          ("Added evidence: " +:+ EvidenceRef.summary evidence) agent])%list;
    Hypothesis_.status := Hypothesis_.status hypothesis;
    Hypothesis_.revision := (Hypothesis_.revision hypothesis + 1)%Z;
    Hypothesis_.created_by := Hypothesis_.created_by hypothesis;
    Hypothesis_.last_modified_by := agent
  |}.

(** [HypothesisStore.add_evidence] *)
Definition add_evidence
    (self : store) (hypothesis_id : string) (evidence : EvidenceRef.t)
    (agent : string) : store * option Hypothesis_.t :=
  match self !! hypothesis_id with
  | None => (self, None)
  | Some hypothesis =>
      let hypothesis' := evidence_update hypothesis evidence agent in
      (<[hypothesis_id := hypothesis']> self, Some hypothesis')
  end.

(** The in-place update of [update_status]. *)
Definition status_update (hypothesis : Hypothesis_.t)
    (status : HypothesisStatus.t) (agent : string) : Hypothesis_.t :=
  {|
    Hypothesis_.id := Hypothesis_.id hypothesis;
    Hypothesis_.type := Hypothesis_.type hypothesis;
    Hypothesis_.description := Hypothesis_.description hypothesis;
    Hypothesis_.endpoint_pattern := Hypothesis_.endpoint_pattern hypothesis;
    Hypothesis_.method := Hypothesis_.method hypothesis;
    Hypothesis_.request_schema := Hypothesis_.request_schema hypothesis;
    Hypothesis_.response_schema := Hypothesis_.response_schema hypothesis;
    Hypothesis_.rule_type := Hypothesis_.rule_type hypothesis;
    Hypothesis_.supporting_evidence :=
      Hypothesis_.supporting_evidence hypothesis;
    Hypothesis_.contradicting_evidence :=
      Hypothesis_.contradicting_evidence hypothesis;
    Hypothesis_.competing_explanations :=
      Hypothesis_.competing_explanations hypothesis;
    Hypothesis_.untested_assumptions :=
      Hypothesis_.untested_assumptions hypothesis;
    Hypothesis_.confidence := Hypothesis_.confidence hypothesis;
    Hypothesis_.confidence_history :=
      Hypothesis_.confidence_history hypothesis;
    Hypothesis_.status := status;
    Hypothesis_.revision := (Hypothesis_.revision hypothesis + 1)%Z;
    Hypothesis_.created_by := Hypothesis_.created_by hypothesis;
    Hypothesis_.last_modified_by := agent
  |}.

(** [HypothesisStore.update_status] *)
Definition update_status
    (self : store) (hypothesis_id : string) (status : HypothesisStatus.t)
    (agent : string) : store * option Hypothesis_.t :=
  match self !! hypothesis_id with
  | None => (self, None)
  | Some hypothesis =>
      let hypothesis' := status_update hypothesis status agent in
      (<[hypothesis_id := hypothesis']> self, Some hypothesis')
  end.

(** [HypothesisStore.delete] *)
Definition delete (self : store) (hypothesis_id : string) : store * bool :=
  match self !! hypothesis_id with
  | Some _ => (base.delete hypothesis_id self, true)
  | None => (self, false)
  end.

(** The dictionary returned by [get_confidence_summary]; the branch for an
    empty store has no ["by_type"] key. *)
Record summary : Type := mk_summary {
  total : nat;
  mean_confidence : Q;
  high_confidence : nat;
  low_confidence : nat;
  needs_revision : nat;
  by_type : option (list (string * nat))
}.

(** The members of [HypothesisType], in declaration order. *)
Definition all_types : list HypothesisType.t :=
  [HypothesisType.ENDPOINT_SCHEMA; HypothesisType.BUSINESS_RULE;
   HypothesisType.STATE_TRANSITION; HypothesisType.PERMISSION_GATE;
   HypothesisType.RATE_LIMIT; HypothesisType.FIELD_CONSTRAINT].

Definition count_type (all_hypos : list Hypothesis_.t) (t : HypothesisType.t)
  : nat :=
  length (List.filter (fun h => bool_decide (Hypothesis_.type h = t)) all_hypos).

Section Mean.

(** [sum(confidences) / len(confidences)] on a non-empty list: a sum and a
    quotient of [float]s, rounded at every step. The rationals do not
    follow that rounding (three confidences of 0.7 have the float mean
    0.6999999999999998), so the mean is a parameter of the summary. *)
Variable float_mean : list Q -> Q.

(** The body of [get_confidence_summary] on the list of stored
    hypotheses. *)
Definition summary_of (all_hypos : list Hypothesis_.t) : summary :=
  match all_hypos with
  | [] => mk_summary 0 0 0 0 0 None
  | _ =>
      let confidences := map Hypothesis_.confidence all_hypos in
      mk_summary
        (length all_hypos)
        (float_mean confidences)
        (length (List.filter (fun c => Qle_bool 0.7 c) confidences))
        (length (List.filter (fun c => Qltb c 0.5) confidences))
        (length (List.filter
           (fun h => bool_decide
              (Hypothesis_.status h = HypothesisStatus.NEEDS_REVISION))
           all_hypos))
        (Some (map (fun t => (HypothesisType.value t, count_type all_hypos t))
                 all_types))
  end.

(** [HypothesisStore.get_confidence_summary] *)
Definition get_confidence_summary (self : store) : summary :=
  summary_of (get_all self).

End Mean.

(** *** A hypothesis under a sequence of store operations *)

(** The mutators of one hypothesis, with their arguments. *)
Inductive mutation : Type :=
| AddEvidence (evidence : EvidenceRef.t) (agent : string)
| ApplyCritic (evaluation : CriticEvaluation.t)
| ApplyProbe (result : ProbeResult.t)
| UpdateStatus (status : HypothesisStatus.t) (agent : string).

Definition apply_mutation (self : store) (hypothesis_id : string)
    (m : mutation) : store * option Hypothesis_.t :=
  match m with
  | AddEvidence evidence agent =>
      add_evidence self hypothesis_id evidence agent
  | ApplyCritic evaluation =>
      apply_critic_evaluation self hypothesis_id evaluation
  | ApplyProbe result => apply_probe_result self hypothesis_id result
  | UpdateStatus status agent => update_status self hypothesis_id status agent
  end.

Definition apply_mutations (self : store) (hypothesis_id : string)
    (ms : list mutation) : store :=
  fold_left (fun s m => (apply_mutation s hypothesis_id m).1) ms self.

(** The effect of one mutator on the hypothesis it finds. *)
Definition mutate (hypothesis : Hypothesis_.t) (m : mutation)
  : Hypothesis_.t :=
  match m with
  | AddEvidence evidence agent => evidence_update hypothesis evidence agent
  | ApplyCritic evaluation => critic_update hypothesis evaluation
  | ApplyProbe result => probe_update hypothesis result
  | UpdateStatus status agent => status_update hypothesis status agent
  end.

(** The mutators that log a [ConfidenceEvent]. *)
Definition logs_event (m : mutation) : bool :=
  match m with UpdateStatus _ _ => false | _ => true end.

(** A [challenge] review whose recommended confidence is negative is the
    one input that takes a confidence below zero. *)
Definition recommends_in_range (m : mutation) : Prop :=
  match m with
  | ApplyCritic evaluation =>
      CriticEvaluation.verdict evaluation = CriticVerdict.CHALLENGE ->
      0 <= CriticEvaluation.recommended_confidence evaluation
  | _ => True
  end.

(** Each event starts from the confidence the previous one ended with. *)
Fixpoint linked_from (c : Q) (events : list ConfidenceEvent.t) : Prop :=
  match events with
  | [] => True
  | e :: rest =>
      ConfidenceEvent.old_confidence e = c /\
      linked_from (ConfidenceEvent.new_confidence e) rest
  end.

Definition last_new (c : Q) (events : list ConfidenceEvent.t) : Q :=
  fold_left (fun _ e => ConfidenceEvent.new_confidence e) events c.

(** The history is a chain of events from 0.0 to the current confidence. *)
Definition audit_trail_ok (h : Hypothesis_.t) : Prop :=
  linked_from 0.0 (Hypothesis_.confidence_history h) /\
  last_new 0.0 (Hypothesis_.confidence_history h) = Hypothesis_.confidence h.

End HypothesisStore.

(** ** [api/routes/control.py]: the analyst phase's use of the store *)

Module Control.
Import HypothesisStore.

(** [existing_hypo.endpoint_pattern == new_pattern], an optional field
    against a string. *)
Definition field_is (field : option string) (value : string) : bool :=
  match field with
  | Some s => String.eqb s value
  | None => false
  end.

Section Text.

(** [s[:50].lower()]: the first fifty characters of a [str], lowered by
    the rules of Unicode (built-in). *)
Variable head_lower : string -> string.

(** [is_duplicate_hypothesis(new_hypo, existing)], on the description and
    the [endpoint_pattern] and [method] entries of [new_hypo] (an absent
    entry reads as the empty string). *)
Definition is_duplicate_hypothesis (description : string) (kw : kwargs)
    (existing : list Hypothesis_.t) : bool :=
  let new_pattern := default "" (kw_endpoint_pattern kw) in
  let new_method := default "" (kw_method kw) in
  existsb (fun existing_hypo =>
    (field_is (Hypothesis_.endpoint_pattern existing_hypo) new_pattern &&
     field_is (Hypothesis_.method existing_hypo) new_method) ||
    (let new_desc := head_lower description in
     let existing_desc := head_lower (Hypothesis_.description existing_hypo) in
     negb (String.eqb new_desc "") && negb (String.eqb existing_desc "") &&
     String.eqb new_desc existing_desc))
    existing.

(** "Store hypothesis (with deduplication)": [create] is called only when
    [is_duplicate_hypothesis] finds nothing in [hypo_store.list()], and a
    failure of the store is caught and logged. *)
Definition store_hypothesis (self : store) (uuid : string)
    (type : HypothesisType.t + string) (description created_by : string)
    (kw : kwargs) : store :=
  if is_duplicate_hypothesis description kw (get_all self) then self
  else
    match create self uuid type description created_by None kw with
    | Ok (self', _) => self'
    | Raise _ => self
    end.

(** One hypothesis of the analyst phase, with the id that [uuid4()] draws
    for it if it is created. *)
Record inferred : Type := mk_inferred {
  inf_uuid : string;
  inf_type : HypothesisType.t + string;
  inf_description : string;
  inf_created_by : string;
  inf_kw : kwargs
}.

(** The loop [for pattern, urls_in_cluster in clusters.items()] as far as
    the store is concerned. *)
Definition store_hypotheses (self : store) (found : list inferred) : store :=
  fold_left
    (fun s i => store_hypothesis s (inf_uuid i) (inf_type i)
                  (inf_description i) (inf_created_by i) (inf_kw i))
    found self.

End Text.

(** No two stored hypotheses have the same endpoint pattern and the same
    method. *)
Definition unique_endpoints (self : store) : Prop :=
  forall i j hi hj pattern method,
    self !! i = Some hi -> self !! j = Some hj ->
    Hypothesis_.endpoint_pattern hi = Some pattern ->
    Hypothesis_.method hi = Some method ->
    Hypothesis_.endpoint_pattern hj = Some pattern ->
    Hypothesis_.method hj = Some method ->
    i = j.

End Control.

(** ** [core/state.py], [core/config.py] *)

Module Settings.
Record t : Type := mk {
  max_loop_iterations : Z
}.
Definition default : t := mk 1000.
End Settings.

Module AgentState.
(** The [TypedDict] passed through the loop. [create_initial_state] sets
    every key, so the [state.get(key, default)] reads of the agents always
    find the key. A message is its [(name, content)] pair. *)
Record t : Type := mk {
  session_id : string;
  messages : list (string * string);
  current_url : string;
  loop_phase : string;
  loop_iteration : Z;
  new_observations : list dict;
  pending_hypotheses : list dict;
  critic_reviews : list dict;
  probe_results : list dict;
  exploration_gaps : list string;
  should_continue : bool;
  termination_reason : option string;
  error_count : Z;
  last_error : option string
}.

End AgentState.

(** ** [agents/supervisor.py] *)

Module Supervisor.
Import AgentState.

(** [route_by_phase] *)
Definition route_by_phase (settings : Settings.t) (state : AgentState.t)
  : string :=
  if negb (should_continue state) then "terminate"
  else if (10 <? error_count state)%Z then "terminate"
  else if (Settings.max_loop_iterations settings <=? loop_iteration state)%Z
  then "terminate"
  else loop_phase state.

(** [any(r.get(key) for r in reviews)] *)
Definition any_truthy (key : string) (reviews : list dict) : bool :=
  existsb (fun r => truthy_opt (dict_get key r)) reviews.

(** [critic_routing] *)
Definition critic_routing (state : AgentState.t) : string :=
  if any_truthy "required_probes" (critic_reviews state) then "probe_needed"
  else if any_truthy "required_exploration" (critic_reviews state)
  then "more_exploration"
  else "accept".

(** [check_termination] *)
Definition check_termination (state : AgentState.t) : string :=
  if negb (should_continue state) then "stop" else "continue".

(** [Supervisor._check_termination]: the reason, or [None] to continue. *)
Definition _check_termination (settings : Settings.t) (state : AgentState.t)
  : option string :=
  let iteration := loop_iteration state in
  let error_count := error_count state in
  if (Settings.max_loop_iterations settings <=? iteration)%Z
  then Some ("Maximum iterations (" +:+
             str_of_Z (Settings.max_loop_iterations settings) +:+
             ") reached")
  else if (10 <? error_count)%Z
  then Some ("Too many errors (" +:+ str_of_Z error_count +:+ ")")
  else None.

(** The state after merging a node's returned update: [messages] is
    appended to, every other returned key is overwritten. *)
Definition set_phase (state : AgentState.t) (next_phase : string)
    (message : string) : AgentState.t :=
  mk (session_id state)
     (messages state ++ [("supervisor", message)])%list
     (current_url state) next_phase (loop_iteration state + 1)%Z
     (new_observations state) (pending_hypotheses state)
     (critic_reviews state) (probe_results state) (exploration_gaps state)
     (should_continue state) (termination_reason state) (error_count state)
     (last_error state).

Definition set_stop (state : AgentState.t) (reason : option string)
    (msgs : list (string * string)) : AgentState.t :=
  mk (session_id state) (messages state ++ msgs)%list
     (current_url state) (loop_phase state) (loop_iteration state)
     (new_observations state) (pending_hypotheses state)
     (critic_reviews state) (probe_results state) (exploration_gaps state)
     false reason (error_count state) (last_error state).

Definition set_continue (state : AgentState.t) : AgentState.t :=
  mk (session_id state) (messages state)
     (current_url state) (loop_phase state) (loop_iteration state)
     (new_observations state) (pending_hypotheses state)
     (critic_reviews state) (probe_results state) (exploration_gaps state)
     true (termination_reason state) (error_count state) (last_error state).

Definition nonempty {A : Type} (l : list A) : bool :=
  match l with [] => false | _ => true end.

(** The phase that [Supervisor.execute] selects when it does not stop. *)
Definition next_phase (state : AgentState.t) : string :=
  let current_phase := loop_phase state in
  if String.eqb current_phase "explore" then "observe"
  else if String.eqb current_phase "observe" then
    if nonempty (new_observations state) then "infer" else "explore"
  else if String.eqb current_phase "infer" then
    if nonempty (pending_hypotheses state) then "critique" else "explore"
  else if String.eqb current_phase "critique" then
    if any_truthy "required_probes" (critic_reviews state)
    then "probe" else "update"
  else if String.eqb current_phase "probe" then "update"
  else "explore".

(** [Supervisor.execute] *)
Definition execute (settings : Settings.t) (state : AgentState.t)
  : AgentState.t :=
  let current_phase := loop_phase state in
  let iteration := loop_iteration state in
  match (if String.eqb current_phase "update"
         then _check_termination settings state else None) with
  | Some should_stop =>
      set_stop state (Some should_stop)
        [("supervisor", "Terminating: " +:+ should_stop)]
  | None =>
      set_phase state (next_phase state)
        ("Iteration " +:+ str_of_Z (iteration + 1) +:+ ": " +:+
         current_phase +:+ " → " +:+ next_phase state)
  end.

(** [_memory_update_node] *)
Definition _memory_update_node (state : AgentState.t) : AgentState.t :=
  mk (session_id state)
     (messages state ++
      [("memory_update", "Memory updated, iteration complete")])%list
     (current_url state) (loop_phase state) (loop_iteration state)
     [] [] [] [] (exploration_gaps state)
     (should_continue state) (termination_reason state) (error_count state)
     (last_error state).

(** [_termination_check_node] *)
Definition _termination_check_node (settings : Settings.t)
    (state : AgentState.t) : AgentState.t :=
  let iteration := loop_iteration state in
  let error_count := error_count state in
  let '(should_stop, reason) :=
    if (Settings.max_loop_iterations settings <=? iteration)%Z
    then (true, Some "Maximum iterations reached")
    else (false, None) in
  let '(should_stop, reason) :=
    if (10 <? error_count)%Z
    then (true, Some "Too many errors")
    else (should_stop, reason) in
  if should_stop then set_stop state reason [] else set_continue state.

(** The path of [build_scientific_loop_graph] that follows the [update]
    node: the edge to [termination_check], its conditional edge
    [check_termination] and, on ["continue"], the [supervisor] node with its
    conditional edge [route_by_phase]. [inl] is the state at [END], [inr]
    the state that enters the next phase node. *)
Definition after_update (settings : Settings.t) (state : AgentState.t)
  : AgentState.t + AgentState.t :=
  let state := _termination_check_node settings (_memory_update_node state) in
  if String.eqb (check_termination state) "stop" then inl state
  else
    let state := execute settings state in
    if String.eqb (route_by_phase settings state) "terminate"
    then inl state else inr state.

(** Does the session end after the update phase, before another phase
    node runs? *)
Definition terminates_after_update (settings : Settings.t)
    (state : AgentState.t) : bool :=
  match after_update settings state with
  | inl _ => true
  | inr _ => false
  end.

(** *** The compiled graph of [build_scientific_loop_graph] *)

Section Graph.

(** The agent nodes [explore], [observe], [infer], [critique] and [probe],
    each as the state it leaves after its returned update is merged. *)
Variable agents : string -> AgentState.t -> AgentState.t.




End Graph.

(** The phase names of [AgentState.loop_phase]. *)
Definition phases : list string :=
  ["explore"; "observe"; "infer"; "critique"; "probe"; "update"].

End Supervisor.

(** ** [agents/interceptor.py] and its sibling in [browser/manager.py] *)

Module NetworkObservation.
Record t : Type := mk {
  id : string;
  session_id : string;
  interaction_id : string;
  method : string;
  url : string;
  request_headers : list (string * string);
  request_body : option string;
  status_code : Z;
  response_headers : list (string * string);
  response_body : option string;
  page_url : string
}.
End NetworkObservation.

(** [headers.get(key, "")] on a [dict[str, str]]. *)
Fixpoint header_get (key : string) (headers : list (string * string))
  : string :=
  match headers with
  | [] => ""
  | (k, v) :: r => if String.eqb key k then v else header_get key r
  end.

(** [any(p in url for p in patterns)] *)
Definition any_in (patterns : list string) (url : string) : bool :=
  existsb (fun p => str_in p url) patterns.

Module InterceptorAgent.
Import NetworkObservation.

Definition static_patterns : list string :=
  [".js"; ".css"; ".png"; ".jpg"; ".gif"; ".svg";
   ".woff"; ".ico"; ".webp"; ".mp4"; ".mp3"].

Definition trackers : list string :=
  ["google-analytics"; "googletagmanager"; "facebook";
   "hotjar"; "mixpanel"; "segment"; "doubleclick"].

Definition api_patterns : list string :=
  ["/api/"; "/v1/"; "/v2/"; "/graphql"; "/rest/"; "/data/"].

(** [InterceptorAgent._is_relevant_api_call] *)
Definition _is_relevant_api_call (obs : NetworkObservation.t) : bool :=
  let url := lower (url obs) in
  if (status_code obs =? 0)%Z then false
  else if any_in static_patterns url then false
  else if any_in trackers url then false
  else if any_in api_patterns url then true
  else
    let content_type := lower (header_get "content-type" (response_headers obs)) in
    if str_in "application/json" content_type then true
    else if str_in "application/xml" content_type then true
    else false.

(** [InterceptorAgent.execute]: the observations kept for the loop. *)
Definition execute (pending_observations : list NetworkObservation.t)
  : list NetworkObservation.t :=
  List.filter (fun obs => _is_relevant_api_call obs) pending_observations.

End InterceptorAgent.

Module BrowserManager.

Definition static_extensions : list string :=
  [".css"; ".png"; ".jpg"; ".jpeg"; ".gif"; ".svg";
   ".woff"; ".woff2"; ".ttf"; ".eot"; ".ico"; ".webp";
   ".mp4"; ".mp3"; ".wav"; ".pdf"; ".zip"].

Definition cdn_patterns : list string :=
  ["cloudflareinsights.com"; "cloudflare-static"; "/cdn-cgi/";
   "swagger-ui"; "beacon.min.js"; "rocket-loader";
   "google-analytics"; "googletagmanager"; "facebook.com";
   "doubleclick"; "googlesyndication"; "/rum?";
   "stripe.com"; "stripe.js"; "tailwindcss.com";
   "unpkg.com"; "jsdelivr.net"; "cdnjs.cloudflare";
   "bootstrapcdn"; "fontawesome"; "jquery";
   "fundingchoicesmessages.google"; "adtrafficquality.google";
   "pagead2.googlesyndication"; "tpc.googlesyndication";
   "google.com/recaptcha"; "gstatic.com"; "googleads";
   "youtube.com"; "twitter.com"; "facebook.net";
   "e.visitors.now"; "carbonads.net"; "srv.carbonads";
   "clarity.ms"; "matomo.php"; "analytics."].

(** [BrowserManager._is_api_request], on the request's URL and method and
    the response's headers. *)
Definition _is_api_request (request_url request_method : string)
    (response_headers : list (string * string)) : bool :=
  let url := lower request_url in
  if existsb (fun ext => endswith url ext || str_in (ext +:+ "?") url)
       static_extensions
  then false
  else if any_in cdn_patterns url then false
  else if (endswith url ".js" && negb (str_in ".json" url)) &&
          (str_in "static." url || str_in "cdn." url || str_in "assets." url)
  then false
  else
    let content_type := lower (header_get "content-type" response_headers) in
    if str_in "application/json" content_type then true
    else if str_in "xml" content_type then true
    else if any_in ["/api/"; "/v1/"; "/v2/"; "/v3/"; "/graphql"; "/rest/"] url
    then true
    else if str_in ".json" url then true
    else if existsb (String.eqb request_method) ["POST"; "PUT"; "DELETE"; "PATCH"]
            && (negb (str_in "/rum" url) && negb (str_in "/beacon" url))
    then true
    else false.

End BrowserManager.

(** ** [inference/schema_merger.py] *)

Module SchemaMerger.

(** A value that can be a [set] element. *)
Definition hashable (v : pyval) : bool :=
  match v with PList _ | PDict _ => false | _ => true end.

Definition py_mem (v : pyval) (l : list pyval) : bool :=
  existsb (fun w => py_eq w v) l.

(** Distinct elements in first-occurrence order. *)
Fixpoint dedup_py (seen l : list pyval) : list pyval :=
  match l with
  | [] => []
  | v :: r => if py_mem v seen then dedup_py seen r
              else v :: dedup_py (v :: seen) r
  end.

Fixpoint chars_of (s : string) : list pyval :=
  match s with
  | EmptyString => []
  | String c r => PStr (String c EmptyString) :: chars_of r
  end.

(** [set(v)]: the elements of a list, the characters of a string or the keys
    of a dictionary; [TypeError] for a value that is not iterable or has an
    unhashable element. *)
Definition py_set (v : pyval) : result (list pyval) :=
  match v with
  | PList l => if forallb hashable l then Ok (dedup_py [] l) else Raise TypeError
  | PStr s => Ok (dedup_py [] (chars_of s))
  | PDict d => Ok (dedup_py [] (map (fun kv => PStr (fst kv)) d))
  | _ => Raise TypeError
  end.

(** [a & b] on sets: the elements of the smaller operand (of [b] on a tie)
    that are in the other one. *)
Definition set_inter (a b : list pyval) : list pyval :=
  if (length a <? length b)%nat
  then List.filter (fun v => py_mem v b) a
  else List.filter (fun v => py_mem v a) b.

Fixpoint insert_sorted {A : Type} (le : A -> A -> bool) (x : A) (l : list A)
  : list A :=
  match l with
  | [] => [x]
  | y :: r => if le x y then x :: l else y :: insert_sorted le x r
  end.

Definition isort {A : Type} (le : A -> A -> bool) (l : list A) : list A :=
  fold_right (insert_sorted le) [] l.

Definition is_str (v : pyval) : bool :=
  match v with PStr _ => true | _ => false end.

Definition is_num (v : pyval) : bool :=
  match num_of v with Some _ => true | None => false end.

Definition str_le (a b : pyval) : bool :=
  match a, b with
  | PStr s, PStr t => String.leb s t
  | _, _ => false
  end.

Definition num_le (a b : pyval) : bool :=
  match num_of a, num_of b with
  | Some p, Some q => Qle_bool p q
  | _, _ => false
  end.

(** [sorted(l)] for pairwise distinct elements: strings by code point,
    numbers by value; [TypeError] when two elements cannot be ordered. *)
Definition py_sorted (l : list pyval) : result (list pyval) :=
  match l with
  | [] | [_] => Ok l
  | _ =>
      if forallb is_str l then Ok (isort str_le l)
      else if forallb is_num l then Ok (isort num_le l)
      else Raise TypeError
  end.

(** The loop [for key, value in props2.items()] of [_merge_object_schemas]. *)
Fixpoint merge_props (merge : pyval -> pyval -> result pyval)
    (props2 merged_props : dict) : result dict :=
  match props2 with
  | [] => Ok merged_props
  | (key, value) :: rest =>
      match dict_get key merged_props with
      | Some existing =>
          m ← merge existing value;
          merge_props merge rest (dict_set key m merged_props)
      | None => merge_props merge rest (dict_set key value merged_props)
      end
  end.

(** [SchemaMerger._merge_object_schemas], with the recursive call to
    [_merge_schemas] as [merge]. *)
Definition _merge_object_schemas (merge : pyval -> pyval -> result pyval)
    (schema1 schema2 : dict) : result pyval :=
  let props1 := get_or "properties" (PDict []) schema1 in
  let props2 := get_or "properties" (PDict []) schema2 in
  req1 ← py_set (get_or "required" (PList []) schema1);
  req2 ← py_set (get_or "required" (PList []) schema2);
  merged_props ←
    match props2 with
    | PDict [] => Ok props1
    | PDict items2 =>
        match props1 with
        | PDict merged =>
            m ← merge_props merge items2 merged; Ok (PDict m)
        | _ => Raise TypeError
        end
    | _ => Raise AttributeError
    end;
  let merged_required := set_inter req1 req2 in
  let result := [("type", PStr "object"); ("properties", merged_props)] in
  match merged_required with
  | [] => Ok (PDict result)
  | _ =>
      sorted ← py_sorted merged_required;
      Ok (PDict (dict_set "required" (PList sorted) result))
  end.

(** [SchemaMerger._merge_array_schemas] *)
Definition _merge_array_schemas (merge : pyval -> pyval -> result pyval)
    (schema1 schema2 : dict) : result pyval :=
  let items1 := get_or "items" (PDict []) schema1 in
  let items2 := get_or "items" (PDict []) schema2 in
  merged_items ← merge items1 items2;
  Ok (PDict [("type", PStr "array"); ("items", merged_items)]).

(** [SchemaMerger._merge_schemas]. [depth] is the interpreter's remaining
    recursion depth; exhausting it is Python's [RecursionError]. A schema
    that is not a [dict] has no [get]. *)
Fixpoint _merge_schemas (depth : nat) (schema1 schema2 : pyval)
  : result pyval :=
  match depth with
  | O => Raise RecursionError
  | S depth' =>
      match schema1, schema2 with
      | PDict d1, PDict d2 =>
          let type1 := dict_get "type" d1 in
          let type2 := dict_get "type" d2 in
          if opt_eq type1 type2 then
            if opt_eq type1 (Some (PStr "object"))
            then _merge_object_schemas (_merge_schemas depth') d1 d2
            else if opt_eq type1 (Some (PStr "array"))
            then _merge_array_schemas (_merge_schemas depth') d1 d2
            else Ok schema1
          else if truthy_opt type1 && truthy_opt type2
          then Ok (PDict [("anyOf", PList [schema1; schema2])])
          else if opt_eq type1 (Some (PStr "null"))
          then Ok (PDict (dict_set "nullable" (PBool true) d2))
          else if opt_eq type2 (Some (PStr "null"))
          then Ok (PDict (dict_set "nullable" (PBool true) d1))
          else Ok (if truthy schema1 then schema1 else schema2)
      | _, _ => Raise AttributeError
      end
  end.

(** The JSON schema type name that [_infer_schema] gives a value. *)
Definition type_name (data : pyval) : string :=
  match data with
  | PNone => "null"
  | PBool _ => "boolean"
  | PInt _ => "integer"
  | PFloat _ => "number"
  | PStr _ => "string"
  | PList _ => "array"
  | PDict _ => "object"
  end.

(** The loop [for key, value in data.items()] of [_infer_schema], with the
    recursive call as [infer]: [properties[key] = infer(value)] and
    [required.append(key)]. *)
Definition infer_fields (infer : pyval -> pyval)
  : list (string * pyval) -> dict -> list pyval -> dict * list pyval :=
  fix go (d : list (string * pyval)) (properties : dict)
         (required : list pyval) {struct d} : dict * list pyval :=
    match d with
    | [] => (properties, required)
    | kv :: rest =>
        go rest
           (dict_set (fst kv) (infer (snd kv)) properties)
           (required ++ [PStr (fst kv)])%list
    end.

Section Infer.

(** The format tests [_is_email], [_is_date], [_is_datetime], [_is_uri] and
    [_is_uuid] in the order [_infer_schema] tries them: the name of the
    first format whose regular expression matches, if any. *)
Variable string_format : string -> option string.

(** [SchemaMerger._infer_schema] *)
Fixpoint _infer_schema (data : pyval) : pyval :=
  match data with
  | PStr s =>
      PDict (("type", PStr "string") ::
             match string_format s with
             | Some f => [("format", PStr f)]
             | None => []
             end)
  | PList l =>
      match l with
      | [] => PDict [("type", PStr "array"); ("items", PDict [])]
      | first :: _ =>
          PDict [("type", PStr "array"); ("items", _infer_schema first)]
      end
  | PDict d =>
      let fields := infer_fields _infer_schema d [] [] in
      PDict [("type", PStr "object");
             ("properties", PDict fields.1);
             ("required", PList fields.2)]
  | _ => PDict [("type", PStr (type_name data))]
  end.

End Infer.


End SchemaMerger.

(** ** [agents/verifier.py] *)

Module VerifierAgent.

(** The agent's authentication state: [self.auth_headers], [self.cookies]. *)
Record t : Type := mk {
  auth_headers : list (string * string);
  cookies : list (string * string)
}.

(** The dictionary returned by [_build_probe_request]. *)
Record request : Type := mk_request {
  req_method : pyval;
  req_url : string;
  req_headers : list (string * string);
  req_body : option dict
}.

(** The arguments of [client.request(...)] in [_execute_probe]: what is put
    on the wire. *)
Record http_call : Type := mk_http_call {
  call_method : pyval;
  call_url : string;
  call_headers : list (string * string);
  call_json : option dict;
  call_cookies : list (string * string)
}.

Record response : Type := mk_response {
  resp_status_code : Z;
  resp_text : string
}.

(** The keys of a probe result that depend on the probe and the response
    (the fresh ids and the echoed request are left out). *)
Record probe_result : Type := mk_probe_result {
  pr_hypothesis_id : pyval;
  pr_probe_type : pyval;
  pr_response_status : Z;
  pr_response_body : option string;
  pr_outcome : string;
  pr_confidence_delta : Q;
  pr_notes : string
}.

(** [d[k] = v] on a [dict[str, str]]. *)
Fixpoint header_set (k v : string) (d : list (string * string))
  : list (string * string) :=
  match d with
  | [] => [(k, v)]
  | (k', w) :: r =>
      if String.eqb k k' then (k', v) :: r else (k', w) :: header_set k v r
  end.

(** [{**base, **extra}] *)
Definition header_update (base extra : list (string * string))
  : list (string * string) :=
  fold_left (fun acc kv => header_set (fst kv) (snd kv) acc) extra base.

(** [re.sub(r'\{[^}]+\}', 'test', s)]: [pending] holds the characters read
    since an opening brace that has not been closed yet. *)
Fixpoint sub_placeholders (pending : option string) (s : string) : string :=
  match s with
  | EmptyString =>
      match pending with
      | None => ""
      | Some buf => "{" +:+ buf
      end
  | String c r =>
      match pending with
      | None =>
          if Ascii.eqb c "{" then sub_placeholders (Some "") r
          else String c (sub_placeholders None r)
      | Some buf =>
          if Ascii.eqb c "}" then
            (if String.eqb buf "" then "{}" else "test") +:+
            sub_placeholders None r
          else sub_placeholders (Some (buf +:+ String c "")) r
      end
  end.

(** [VerifierAgent._fill_path_params] *)
Definition _fill_path_params (endpoint : string) : string :=
  let filled := replace endpoint "{id}" "1" in
  sub_placeholders None filled.

(** One iteration of the loop of [_generate_test_body]. *)
Definition test_value (field : string) (field_schema : pyval)
  : result (option pyval) :=
  match field_schema with
  | PDict fs =>
      let field_type := get_or "type" (PStr "string") fs in
      if py_eq field_type (PStr "string") then
        if str_in "email" (lower field) then Ok (Some (PStr "test@example.com"))
        else if str_in "date" (lower field) then Ok (Some (PStr "2024-01-15"))
        else Ok (Some (PStr ("test_" +:+ field)))
      else if py_eq field_type (PStr "integer") then Ok (Some (PInt 1))
      else if py_eq field_type (PStr "number") then Ok (Some (PFloat 1.0))
      else if py_eq field_type (PStr "boolean") then Ok (Some (PBool true))
      else if py_eq field_type (PStr "array") then Ok (Some (PList []))
      else if py_eq field_type (PStr "object") then Ok (Some (PDict []))
      else Ok None
  | _ => Raise AttributeError
  end.

Fixpoint fill_body (properties body : dict) : result dict :=
  match properties with
  | [] => Ok body
  | (field, field_schema) :: rest =>
      v ← test_value field field_schema;
      fill_body rest
        (match v with Some x => dict_set field x body | None => body end)
  end.

(** [VerifierAgent._generate_test_body] *)
Definition _generate_test_body (schema : pyval) : result dict :=
  match schema with
  | PDict s =>
      match get_or "properties" (PDict []) s with
      | PDict properties => fill_body properties []
      | _ => Raise AttributeError
      end
  | _ => Raise AttributeError
  end.

(** [isinstance(v, int)] holds for [bool] too. *)
Definition boundary_value (v : pyval) : pyval :=
  match v with
  | PInt _ | PBool _ => PInt 2147483647
  | PStr _ => PStr (str_repeat "x" 10000)
  | _ => v
  end.

Definition change_type (v : pyval) : pyval :=
  match v with
  | PInt z => PStr (str_of_Z z)
  | PBool b => PStr (if b then "True" else "False")
  | PStr _ => PInt 12345
  | _ => v
  end.

Definition map_values (f : pyval -> pyval) (body : dict) : dict :=
  map (fun kv => (fst kv, f (snd kv))) body.

Definition is_write_method (method : pyval) : bool :=
  existsb (py_eq method) [PStr "POST"; PStr "PUT"; PStr "PATCH"].

Definition is_probe (probe_type : pyval) (p : ProbeType.t) : bool :=
  py_eq probe_type (PStr (ProbeType.value p)).

Section Probes.

(** [urlparse(current_url)], rendered as [f"{scheme}://{netloc}"]
    (standard library). *)
Variable origin_of : string -> string.

(** [VerifierAgent._build_probe_request] *)
Definition _build_probe_request (self : t) (probe : dict)
    (state : AgentState.t) : result (option request) :=
  let probe_type := get_or "probe_type" (PStr "") probe in
  let hypothesis :=
    List.find (fun h => opt_eq (dict_get "id" h) (dict_get "hypothesis_id" probe))
      (AgentState.pending_hypotheses state) in
  match hypothesis with
  | None | Some [] => Ok None
  | Some hypothesis =>
      let endpoint := get_or "endpoint_pattern" (PStr "") hypothesis in
      let method := get_or "method" (PStr "GET") hypothesis in
      let current_url := AgentState.current_url state in
      if String.eqb current_url "" then Ok None
      else
        let base_url := origin_of current_url in
        match endpoint with
        | PStr endpoint =>
            let url := base_url +:+ _fill_path_params endpoint in
            let headers :=
              header_update
                [("Content-Type", "application/json");
                 ("Accept", "application/json")]
                (auth_headers self) in
            body ← (if is_write_method method
                    then b ← _generate_test_body
                               (get_or "request_schema" (PDict []) hypothesis);
                         Ok (Some b)
                    else Ok None);
            if is_probe probe_type ProbeType.AUTH_VARIATION then
              Ok (Some (mk_request method url
                (List.filter (fun kv =>
                   negb (existsb (String.eqb (lower (fst kv)))
                           ["authorization"; "cookie"])) headers)
                body))
            else if is_probe probe_type ProbeType.OMIT_FIELD then
              Ok (Some (mk_request method url headers
                (match body with
                 | Some (_ :: rest) => Some rest
                 | _ => body
                 end)))
            else if is_probe probe_type ProbeType.BOUNDARY_VALUE then
              Ok (Some (mk_request method url headers
                (map_values boundary_value <$> body)))
            else if is_probe probe_type ProbeType.CHANGE_TYPE then
              Ok (Some (mk_request method url headers
                (map_values change_type <$> body)))
            else Ok (Some (mk_request method url headers body))
        | _ => Raise TypeError
        end
  end.

(** [VerifierAgent._evaluate_outcome] *)
Definition _evaluate_outcome (probe_type : pyval) (status : Z)
  : string * Q * string :=
  let ok := ((200 <=? status) && (status <? 300))%Z in
  let confirmed := ProbeOutcome.value ProbeOutcome.CONFIRMED in
  let falsified := ProbeOutcome.value ProbeOutcome.FALSIFIED in
  let inconclusive := ProbeOutcome.value ProbeOutcome.INCONCLUSIVE in
  let dflt := (inconclusive, 0.0%Q, "") in
  if is_probe probe_type ProbeType.REPLAY_EXACT then
    if ok then (confirmed, 0.15%Q, "Replay successful - endpoint consistent")
    else if (400 <=? status)%Z
    then (inconclusive, (-0.05)%Q,
          "Replay returned " +:+ str_of_Z status +:+ " - may be state-dependent")
    else dflt
  else if is_probe probe_type ProbeType.AUTH_VARIATION then
    if (status =? 401)%Z
    then (confirmed, 0.1%Q, "Confirmed: endpoint requires authentication")
    else if (status =? 403)%Z
    then (confirmed, 0.1%Q, "Confirmed: endpoint requires authorization")
    else if ok
    then (confirmed, 0.1%Q, "Confirmed: endpoint allows unauthenticated access")
    else dflt
  else if is_probe probe_type ProbeType.OMIT_FIELD then
    if (status =? 400)%Z then (confirmed, 0.1%Q, "Confirmed: field is required")
    else if ok then (confirmed, 0.1%Q, "Confirmed: field is optional")
    else dflt
  else if is_probe probe_type ProbeType.SEQUENCE_BREAK then
    if (400 <=? status)%Z
    then (confirmed, 0.15%Q, "Confirmed: sequence is enforced")
    else if ok then (falsified, (-0.3)%Q, "Falsified: sequence not enforced")
    else dflt
  else if is_probe probe_type ProbeType.BOUNDARY_VALUE then
    if (status =? 400)%Z
    then (confirmed, 0.1%Q, "Confirmed: validation rejects boundary values")
    else if ok
    then (inconclusive, 0.0%Q,
          "Boundary values accepted - may need further testing")
    else dflt
  else dflt.

(** [VerifierAgent._create_error_result] *)
Definition _create_error_result (probe : dict) (error : string)
  : probe_result :=
  mk_probe_result
    (get_or "hypothesis_id" (PStr "") probe)
    (get_or "probe_type" (PStr "") probe)
    0 None
    (ProbeOutcome.value ProbeOutcome.INCONCLUSIVE)
    (-0.05)%Q
    ("Probe error: " +:+ error).

(** The call [client.request(...)] that [_execute_probe] makes for a built
    request: the stored cookies are passed whatever the probe type. *)
Definition http_call_of (self : t) (r : request) : http_call :=
  mk_http_call (req_method r) (req_url r) (req_headers r)
    (match req_body r with
     | Some [] | None => None
     | Some b => Some b
     end)
    (cookies self).

(** The HTTP request that [_execute_probe] sends for [probe], if any. *)
Definition sent_request (self : t) (probe : dict) (state : AgentState.t)
  : result (option http_call) :=
  r ← _build_probe_request self probe state;
  match r with
  | Some r => Ok (Some (http_call_of self r))
  | None => Ok None
  end.

(** [VerifierAgent._execute_probe]; [peer] answers the HTTP call, [inl e]
    standing for an [httpx.RequestError] with message [e]. *)
Definition _execute_probe (peer : http_call -> string + response)
    (self : t) (probe : dict) (state : AgentState.t) : result probe_result :=
  let probe_type := get_or "probe_type" (PStr "") probe in
  let hypothesis_id := get_or "hypothesis_id" (PStr "") probe in
  r ← _build_probe_request self probe state;
  match r with
  | None => Ok (_create_error_result probe "Could not build request")
  | Some r =>
      match peer (http_call_of self r) with
      | inl e => Ok (_create_error_result probe ("Request failed: " +:+ e))
      | inr resp =>
          let '(outcome, confidence_delta, notes) :=
            _evaluate_outcome probe_type (resp_status_code resp) in
          Ok (mk_probe_result hypothesis_id probe_type
                (resp_status_code resp)
                (if String.eqb (resp_text resp) "" then None
                 else Some (String.substring 0 500 (resp_text resp)))
                outcome confidence_delta notes)
      end
  end.

(** [str(e)] for the exception that [_execute_probe] raised. *)
Variable exn_text : exn -> string.

(** The loops of [execute] that collect the probes of the reviews: each
    probe is a dictionary and gets the review's [hypothesis_id]. *)
Definition review_probes (review : dict) : result (list dict) :=
  let hypothesis_id := of_opt (dict_get "hypothesis_id" review) in
  match get_or "required_probes" (PList []) review with
  | PList probes =>
      fold_right (fun probe acc =>
        rest ← acc;
        match probe with
        | PDict p => Ok (dict_set "hypothesis_id" hypothesis_id p :: rest)
        | _ => Raise TypeError
        end) (Ok []) probes
  | PDict [] | PStr "" => Ok []
  | _ => Raise TypeError
  end.

Fixpoint collect_probes (reviews : list dict) : result (list dict) :=
  match reviews with
  | [] => Ok []
  | review :: rest =>
      probes ← review_probes review;
      others ← collect_probes rest;
      Ok (probes ++ others)%list
  end.

(** [self.max_requests_per_run], set to 10 by the constructor and never
    changed. *)
Definition max_requests_per_run : nat := 10.

(** [VerifierAgent.execute]: the probe results it returns. A probe whose
    execution raises gets an error result. *)
Definition execute (peer : http_call -> string + response) (self : t)
    (state : AgentState.t) : result (list probe_result) :=
  probes ← collect_probes (AgentState.critic_reviews state);
  Ok (map (fun probe =>
             match _execute_probe peer self probe state with
             | Ok r => r
             | Raise e => _create_error_result probe (exn_text e)
             end)
          (firstn max_requests_per_run probes)).

End Probes.

(** [VerifierAgent.clear_auth] *)
Definition clear_auth (self : t) : t := mk [] [].

End VerifierAgent.

(** ** [memory/fsm_store.py] *)

Module FSMStore.

(** A row of [page_states], keyed by its [state_hash] (the primary key). *)
Record page_state : Type := mk_page_state {
  ps_session_id : string;
  ps_url : string;
  ps_page_title : string;
  ps_visit_count : Z;
  ps_is_dead_end : bool
}.

(** A row of [transitions]. *)
Record transition : Type := mk_transition {
  tr_id : Z;
  tr_session_id : string;
  from_state_hash : string;
  to_state_hash : string;
  action_type : string;
  action_target : string;
  triggered_apis : option string;
  success : bool
}.

(** The open connection [self.db]: the tables the store writes, the
    [AUTOINCREMENT] counter of [transitions], and the connection's
    [foreign_keys] setting, which decides whether SQLite checks the
    [REFERENCES] clauses of the schema. *)
Record t : Type := mk {
  foreign_keys : bool;
  sessions : gset string;
  page_states : gmap string page_state;
  transitions : list transition;
  last_transition_id : Z
}.

(** [FSMStore.initialize] on a new database file: [aiosqlite.connect]
    opens the connection with SQLite's default [foreign_keys = OFF], and the
    script creates the empty tables; no statement of the repository changes
    the setting. *)
Definition initialize : t := mk false ∅ ∅ [] 0.

(** [FSMStore.create_session] *)
Definition create_session (self : t) (session_id : string) : result t :=
  if bool_decide (session_id ∈ sessions self) then Raise IntegrityError
  else Ok (mk (foreign_keys self) ({[session_id]} ∪ sessions self)
              (page_states self) (transitions self) (last_transition_id self)).

Definition bump_visit (p : page_state) : page_state :=
  mk_page_state (ps_session_id p) (ps_url p) (ps_page_title p)
    (ps_visit_count p + 1) (ps_is_dead_end p).

(** [FSMStore.add_state]: [True] iff the insert went through. *)
Definition add_state (self : t) (state_hash session_id url page_title : string)
  : t * bool :=
  let unique := bool_decide (page_states self !! state_hash = None) in
  let fk_ok :=
    negb (foreign_keys self) || bool_decide (session_id ∈ sessions self) in
  if unique && fk_ok then
    (mk (foreign_keys self) (sessions self)
        (<[state_hash := mk_page_state session_id url page_title 1 false]>
           (page_states self))
        (transitions self) (last_transition_id self), true)
  else
    (mk (foreign_keys self) (sessions self)
        (alter bump_visit state_hash (page_states self))
        (transitions self) (last_transition_id self), false).

(** [",".join(l)] *)
Fixpoint join_comma (l : list string) : string :=
  match l with
  | [] => ""
  | [x] => x
  | x :: r => x +:+ "," +:+ join_comma r
  end.

(** [FSMStore.add_transition]: a plain [INSERT]; the only check is the one
    SQLite itself makes when [foreign_keys] is on. Returns the new row id. *)
Definition add_transition (self : t)
    (session_id from_state_hash to_state_hash action_type action_target : string)
    (triggered_apis : option (list string)) (success : bool)
  : result (t * Z) :=
  let fk_ok :=
    negb (foreign_keys self) ||
    (bool_decide (session_id ∈ sessions self) &&
     bool_decide (is_Some (page_states self !! from_state_hash)) &&
     bool_decide (is_Some (page_states self !! to_state_hash))) in
  if fk_ok then
    let rowid := (last_transition_id self + 1)%Z in
    Ok (mk (foreign_keys self) (sessions self) (page_states self)
           (transitions self ++
            [mk_transition rowid session_id from_state_hash to_state_hash
               action_type action_target
               (match triggered_apis with
                | Some (_ :: _ as l) => Some (join_comma l)
                | _ => None
                end)
               success])%list
           rowid,
        rowid)
  else Raise IntegrityError.

(** [FSMStore.has_transition] *)
Definition has_transition (self : t)
    (from_hash action_type' action_target' : string) : bool :=
  existsb (fun tr =>
    String.eqb (from_state_hash tr) from_hash &&
    String.eqb (action_type tr) action_type' &&
    String.eqb (action_target tr) action_target') (transitions self).

(** [FSMStore.get_unexplored_actions] *)
Definition get_unexplored_actions (self : t) (state_hash : string)
    (available_actions : list (string * string)) : list (string * string) :=
  List.filter
    (fun action => negb (has_transition self state_hash action.1 action.2))
    available_actions.

(** [add_state] for each visit [(session_id, url, page_title)] of a list, on
    the same [state_hash]. *)
Definition add_states (self : t) (state_hash : string)
    (visits : list (string * string * string)) : t :=
  fold_left (fun s v => (add_state s state_hash v.1.1 v.1.2 v.2).1)
    visits self.

End FSMStore.

(** ** [agents/critic.py] *)

Module CriticAgent.

(** [len(v)] *)
Definition py_len (v : pyval) : result nat :=
  match v with
  | PList l => Ok (length l)
  | PStr s => Ok (String.length s)
  | PDict d => Ok (length d)
  | _ => Raise TypeError
  end.

(** [min(a, b)] and [max(a, b)] on numbers; the result is one of the two
    arguments. Ordering a non-number against a [float] is a [TypeError]. *)
Definition num_min (a b : pyval) : result pyval :=
  match num_of a, num_of b with
  | Some p, Some q => Ok (if Qltb q p then b else a)
  | _, _ => Raise TypeError
  end.

Definition num_max (a b : pyval) : result pyval :=
  match num_of a, num_of b with
  | Some p, Some q => Ok (if Qltb p q then b else a)
  | _, _ => Raise TypeError
  end.

Definition strs (l : list string) : pyval := PList (map PStr l).

Section Formatting.

(** [str(v)] as an f-string renders it (built-in). *)
Variable py_str : pyval -> string.

(** [CriticAgent._generate_default_probes] *)
Definition _generate_default_probes (hypothesis : dict) : list pyval :=
  let hyp_type := get_or "type" (PStr "") hypothesis in
  if py_eq hyp_type (PStr "endpoint_schema") then
    let endpoint := get_or "endpoint_pattern" (PStr "") hypothesis in
    let method := get_or "method" (PStr "GET") hypothesis in
    ([PDict [("probe_type", PStr (ProbeType.value ProbeType.REPLAY_EXACT));
             ("description",
              PStr ("Replay " +:+ py_str method +:+ " " +:+ py_str endpoint +:+
                    " to confirm consistency"));
             ("expected_outcome", PStr "Same response structure")]] ++
     (if existsb (py_eq method) [PStr "POST"; PStr "PUT"; PStr "PATCH"]
      then [PDict [("probe_type", PStr (ProbeType.value ProbeType.OMIT_FIELD));
                   ("description", PStr "Test with missing optional fields");
                   ("expected_outcome",
                    PStr "Success with defaults or validation error")]]
      else []) ++
     [PDict [("probe_type", PStr (ProbeType.value ProbeType.AUTH_VARIATION));
             ("description", PStr "Test without authentication");
             ("expected_outcome",
              PStr "401 if auth required, else same response")]])%list
  else if existsb (py_eq hyp_type) [PStr "business_rule"; PStr "state_transition"]
  then
    [PDict [("probe_type", PStr (ProbeType.value ProbeType.SEQUENCE_BREAK));
            ("description", PStr "Test by skipping prerequisite steps");
            ("expected_outcome", PStr "Error if sequence is enforced")]]
  else if py_eq hyp_type (PStr "permission_gate") then
    [PDict [("probe_type", PStr (ProbeType.value ProbeType.AUTH_VARIATION));
            ("description", PStr "Test with different auth levels");
            ("expected_outcome",
             PStr "Different responses based on permission")]]
  else [].

(** [CriticAgent._fallback_evaluation] *)
Definition _fallback_evaluation (hypothesis : dict) : result dict :=
  evidence_count ← py_len (get_or "supporting_evidence" (PList []) hypothesis);
  let current_conf := get_or "confidence" (PFloat 0.5) hypothesis in
  '(recommended, verdict) ←
    (if (evidence_count <=? 1)%nat then
       r ← num_min current_conf (PFloat 0.3); Ok (r, "challenge")
     else if (evidence_count <=? 3)%nat then
       r ← num_min current_conf (PFloat 0.5); Ok (r, "challenge")
     else
       r ← num_min current_conf (PFloat 0.7);
       Ok (r, match num_of current_conf with
              | Some c => if Qle_bool 0.6 c then "accept" else "challenge"
              | None => "challenge"
              end));
  Ok [("verdict", PStr verdict);
      ("alternative_explanations",
       strs ["Evidence may be coincidental";
             "Observed behavior may be context-dependent"]);
      ("untested_assumptions",
       strs ["Assumes consistent API behavior";
             "Limited observation sample"]);
      ("missing_evidence",
       strs ["Need more diverse test cases";
             "Need negative test cases"]);
      ("contradictions", PList []);
      ("recommended_confidence", recommended);
      ("adjustment_reason",
       PStr ("Conservative evaluation: " +:+ str_of_nat evidence_count +:+
             " observations supporting"));
      ("required_probes", PList (_generate_default_probes hypothesis));
      ("required_exploration", PList [])].

(** Built-ins that shape the prompt text: the characters of a [str], each
    a [str] of length one; [json.dumps(v, indent=indent)]; and the exception
    that slicing a [dict] raises (a [TypeError] before Python 3.12, a
    [KeyError] since). *)
Variable chars : string -> list string.
Variable json_dumps : option nat -> pyval -> string.
Variable dict_slice_error : exn.

(** [s[:n]] on a [str] *)
Definition str_head (n : nat) (s : string) : string :=
  String.concat "" (firstn n (chars s)).

(** The items of [v[:n]] *)
Definition slice_head (n : nat) (v : pyval) : result (list pyval) :=
  match v with
  | PList l => Ok (firstn n l)
  | PStr s => Ok (map PStr (firstn n (chars s)))
  | PDict _ => Raise dict_slice_error
  | PNone | PBool _ | PInt _ | PFloat _ => Raise TypeError
  end.

(** [CriticAgent._build_evaluation_prompt] *)
Definition _build_evaluation_prompt (hypothesis : dict) : result string :=
  let hyp_type := get_or "type" (PStr "unknown") hypothesis in
  let description := get_or "description" (PStr "No description") hypothesis in
  let confidence := get_or "confidence" (PFloat 0.5) hypothesis in
  let evidence := get_or "supporting_evidence" (PList []) hypothesis in
  evidence_str ←
    (if truthy evidence then
       items ← slice_head 5 evidence;
       Ok (String.concat nl
             (map (fun e =>
                     match e with
                     | PDict d =>
                         "  - " +:+
                         py_str (get_or "summary" (PStr "No summary") d)
                     | _ => "  - " +:+ str_head 100 (py_str e)
                     end) items))
     else Ok "  (no evidence provided)");
  let schema_str :=
    if truthy_opt (dict_get "response_schema" hypothesis) then
      nl +:+ "RESPONSE SCHEMA:" +:+ nl +:+ "```json" +:+ nl +:+
      str_head 500
        (json_dumps (Some 2%nat)
           (of_opt (dict_get "response_schema" hypothesis))) +:+
      nl +:+ "```"
    else "" in
  let rule_str :=
    if truthy_opt (dict_get "rule_type" hypothesis) then
      nl +:+ "RULE TYPE: " +:+
      py_str (of_opt (dict_get "rule_type" hypothesis)) +:+
      (if truthy_opt (dict_get "trigger_conditions" hypothesis) then
         nl +:+ "TRIGGER: " +:+
         str_head 200
           (json_dumps None (of_opt (dict_get "trigger_conditions" hypothesis)))
       else "")
    else "" in
  Ok ("HYPOTHESIS UNDER REVIEW:" +:+ nl +:+
      nl +:+
      "TYPE: " +:+ py_str hyp_type +:+ nl +:+
      "DESCRIPTION: " +:+ py_str description +:+ nl +:+
      "CURRENT CONFIDENCE: " +:+ py_str confidence +:+ nl +:+
      rule_str +:+ nl +:+
      schema_str +:+ nl +:+
      nl +:+
      "SUPPORTING EVIDENCE:" +:+ nl +:+
      evidence_str +:+ nl +:+
      nl +:+
      "EXISTING COMPETING EXPLANATIONS:" +:+ nl +:+
      str_head 300
        (json_dumps (Some 2%nat)
           (get_or "competing_explanations" (PList []) hypothesis)) +:+ nl +:+
      nl +:+
      "UNTESTED ASSUMPTIONS NOTED:" +:+ nl +:+
      str_head 300
        (json_dumps (Some 2%nat)
           (get_or "untested_assumptions" (PList []) hypothesis)) +:+ nl +:+
      nl +:+
      "---" +:+ nl +:+
      nl +:+
      "Your task: CRITICALLY evaluate this hypothesis. Find weaknesses, " +:+
      "alternative explanations, and missing evidence." +:+ nl +:+
      "Remember to apply the scoring rules strictly. Be skeptical.").

(** [CriticAgent._evaluate_hypothesis]. [llm] is [None] when the agent has
    no provider; otherwise it gives the outcome of the structured call on a
    prompt, an evaluation dictionary or an exception. *)
Definition _evaluate_hypothesis (llm : option (string -> result dict))
    (hypothesis : dict) : result dict :=
  prompt ← _build_evaluation_prompt hypothesis;
  evaluation ← match llm with
                | Some invoke =>
                    match invoke prompt with
                    | Ok e => Ok e
                    | Raise _ => _fallback_evaluation hypothesis
                    end
                | None => _fallback_evaluation hypothesis
                end;
  let evaluation :=
    dict_set "hypothesis_id" (get_or "id" (PStr "unknown") hypothesis)
      evaluation in
  let evaluation :=
    dict_set "original_confidence"
      (get_or "confidence" (PFloat 0.5) hypothesis) evaluation in
  let evaluation :=
    if existsb (opt_eq (dict_get "verdict" evaluation))
         [Some (PStr "accept"); Some (PStr "challenge"); Some (PStr "reject")]
    then evaluation
    else dict_set "verdict" (PStr "challenge") evaluation in
  capped ← num_min (PFloat 1.0)
             (get_or "recommended_confidence" (PFloat 0.3) evaluation);
  bounded ← num_max (PFloat 0.0) capped;
  let evaluation := dict_set "recommended_confidence" bounded evaluation in
  if existsb (opt_eq (dict_get "verdict" evaluation))
       [Some (PStr "challenge"); Some (PStr "reject")]
     && negb (truthy_opt (dict_get "required_probes" evaluation))
  then Ok (dict_set "required_probes"
             (PList (_generate_default_probes hypothesis)) evaluation)
  else Ok evaluation.

(** [str(e)] for the exception that an evaluation raised. *)
Variable exn_text : exn -> string.

(** [CriticAgent._create_error_review] *)
Definition _create_error_review (hypothesis : dict) (error : string) : dict :=
  [("hypothesis_id", get_or "id" (PStr "unknown") hypothesis);
   ("verdict", PStr "challenge");
   ("alternative_explanations",
    strs ["Unable to fully evaluate - treat with caution"]);
   ("untested_assumptions", strs ["Evaluation incomplete due to error"]);
   ("missing_evidence", strs ["Need manual review"]);
   ("contradictions", PList []);
   ("original_confidence", get_or "confidence" (PFloat 0.5) hypothesis);
   ("recommended_confidence", PFloat 0.3);
   ("adjustment_reason", PStr ("Evaluation error: " +:+ error));
   ("required_probes", PList []);
   ("required_exploration", PList [])].

(** [CriticAgent.execute]: the reviews it returns. [llm] is [None] when the
    agent has no provider; otherwise it gives the outcome of the structured
    call on a prompt. *)
Definition execute (llm : option (string -> result dict))
    (state : AgentState.t) : list dict :=
  map (fun hypothesis =>
         match _evaluate_hypothesis llm hypothesis with
         | Ok review => review
         | Raise e => _create_error_review hypothesis (exn_text e)
         end)
      (AgentState.pending_hypotheses state).

(** [verdicts.count(v)] for [verdicts = [r.get("verdict", "unknown") ...]] *)
Definition verdict_count (v : string) (reviews : list dict) : nat :=
  length (List.filter
            (fun r => py_eq (get_or "verdict" (PStr "unknown") r) (PStr v))
            reviews).

(** The state after the graph's [critique] node, which is [execute]: the
    returned reviews replace [critic_reviews] and the message is appended. *)
Definition critique_node (llm : option (string -> result dict))
    (state : AgentState.t) : AgentState.t :=
  let hypotheses := AgentState.pending_hypotheses state in
  let reviews := execute llm state in
  AgentState.mk (AgentState.session_id state)
    (AgentState.messages state ++
     [("critic",
       match hypotheses with
       | [] => "No hypotheses to review"
       | _ =>
           "Reviewed " +:+ str_of_nat (length hypotheses) +:+
           " hypotheses: " +:+
           str_of_nat (verdict_count "accept" reviews) +:+ " accepted, " +:+
           str_of_nat (verdict_count "challenge" reviews) +:+
           " challenged, " +:+
           str_of_nat (verdict_count "reject" reviews) +:+ " rejected"
       end)])%list
    (AgentState.current_url state) (AgentState.loop_phase state)
    (AgentState.loop_iteration state) (AgentState.new_observations state)
    hypotheses reviews (AgentState.probe_results state)
    (AgentState.exploration_gaps state) (AgentState.should_continue state)
    (AgentState.termination_reason state) (AgentState.error_count state)
    (AgentState.last_error state).

End Formatting.

(** What the store and the supervisor read in a review of [hypothesis]: its
    id, one of the three verdicts, and a recommended confidence that is a
    number between 0 and 1. *)
Definition review_of (hypothesis review : dict) : Prop :=
  dict_get "hypothesis_id" review
    = Some (get_or "id" (PStr "unknown") hypothesis) /\
  (exists v, dict_get "verdict" review = Some (PStr v) /\
             In v ["accept"; "challenge"; "reject"]) /\
  (exists c q, dict_get "recommended_confidence" review = Some c /\
               num_of c = Some q /\ (0 <= q <= 1)%Q).

End CriticAgent.

(** ** The specification's wording, for comparison with the source *)

Module Spec.
Local Open Scope Q_scope.

(** Section 4.11: "Termination predicate is the disjunction of: iteration
    counter >= configured max; consecutive error count > 10;
    confirmed-hypothesis count > 5 and mean confidence > 0.8; fifteen
    consecutive explore steps with no new observation." The hypotheses are
    those of the store ([list()]); [idle_explore_steps] counts the
    consecutive explore steps without a new observation. *)
Definition confirmed_count (hypotheses : list Hypothesis_.t) : Z :=
  Z.of_nat (length (List.filter
    (fun h => bool_decide (Hypothesis_.status h = HypothesisStatus.CONFIRMED))
    hypotheses)).

Definition mean_confidence (hypotheses : list Hypothesis_.t) : Q :=
  match hypotheses with
  | [] => 0
  | _ => fold_right Qplus 0 (map Hypothesis_.confidence hypotheses) /
         inject_Z (Z.of_nat (length hypotheses))
  end.

Definition termination_predicate (settings : Settings.t)
    (state : AgentState.t) (hypotheses : list Hypothesis_.t)
    (idle_explore_steps : Z) : bool :=
  (Settings.max_loop_iterations settings <=? AgentState.loop_iteration state)%Z
  || (10 <? AgentState.error_count state)%Z
  || ((5 <? confirmed_count hypotheses)%Z &&
      Qltb 0.8 (mean_confidence hypotheses))
  || (15 <=? idle_explore_steps)%Z.

(** Section 4.9: the fallback review "sets confidence from evidence count
    alone (<=1 -> 0.3, <=3 -> 0.5, >3 -> 0.7)". *)
Definition fallback_confidence (evidence_count : nat) : Q :=
  if (evidence_count <=? 1)%nat then 0.3
  else if (evidence_count <=? 3)%nat then 0.5
  else 0.7.

End Spec.

(** ** Concrete inputs used by the examples below *)

Module Scenarios.
Local Open Scope Q_scope.

(** The keyword arguments with which the analyst phase of
    [api/routes/control.py] stores an endpoint hypothesis. *)
Definition users_endpoint : HypothesisStore.kwargs :=
  HypothesisStore.mk_kwargs
    (Some (inl HypothesisStatus.ACTIVE)) (Some 0.6) [] None None
    (Some "/api/users/{id}") (Some "GET") None (Some (PDict [])) None.

(** The hypothesis that [create] builds from them under the id [uuid]. *)
Definition users_hypothesis (uuid : string) : Hypothesis_.t :=
  Hypothesis_.mk uuid HypothesisType.ENDPOINT_SCHEMA
    "API endpoint discovered: GET /api/users/{id}"
    (Some "/api/users/{id}") (Some "GET") (PDict []) (PDict []) None
    [] [] [] [] 0.6
    [ConfidenceEvent.mk ConfidenceEventType.INITIAL_INFERENCE 0.0 0.6
       "Initial inference with 0 observations" "analyst"]
    HypothesisStatus.ACTIVE 1 "analyst" "analyst".

(** The store after the first such hypothesis has been created. *)
Definition users_store : gmap string Hypothesis_.t :=
  <["id-1" := users_hypothesis "id-1"]> ∅.

(** The fields of the permission-gate hypothesis that
    [BusinessLogicAgent._detect_permissions] builds for a 401 response, as
    keyword arguments of [create]. *)
Definition unauthorized_gate : HypothesisStore.kwargs :=
  HypothesisStore.mk_kwargs
    None (Some 0.7)
    [HypothesisStore.EvOther
       (PDict [("observation_id", PStr "obs-1");
               ("summary",
                PStr "401 Unauthorized on https://shop.example/api/orders");
               ("strength", PStr "strong")])]
    None
    (Some ["May accept different auth methods"; "Role requirements unknown"])
    None None None None
    (Some EnforcementRuleType.PERMISSION_GATE).

(** A rejecting review of the hypothesis ["id-1"] above. *)
Definition rejecting_review : CriticEvaluation.t :=
  CriticEvaluation.mk "id-1" CriticVerdict.REJECT
    ["Evidence may be coincidental"] ["Limited observation sample"] [] []
    0.6 0.1 "Single observation only" [].

(** The hypothesis ["id-1"] after the review has been applied once and
    twice. *)
Definition rejected_once : Hypothesis_.t :=
  HypothesisStore.critic_update (users_hypothesis "id-1") rejecting_review.

Definition rejected_twice : Hypothesis_.t :=
  HypothesisStore.critic_update rejected_once rejecting_review.

(** A confirmed hypothesis with confidence 0.9. *)
Definition confirmed_hypothesis (uuid : string) : Hypothesis_.t :=
  Hypothesis_.mk uuid HypothesisType.ENDPOINT_SCHEMA "confirmed endpoint"
    (Some ("/api/" +:+ uuid)) (Some "GET") (PDict []) (PDict []) None
    [] [] [] [] 0.9 [] HypothesisStatus.CONFIRMED 3 "analyst" "verifier".

Definition six_confirmed : list Hypothesis_.t :=
  map confirmed_hypothesis ["a"; "b"; "c"; "d"; "e"; "f"].

(** The loop state at the end of an update phase, at iteration 42, without
    errors. *)
Definition quiet_update_state : AgentState.t :=
  AgentState.mk "session-1" [] "https://shop.example/" "update" 42
    [] [] [] [] [] true None 0 None.

(** A captured JSON document: it has a response, names no tracker, its
    path ends in [.json] and its content type is [application/json]. *)
Definition products_json : NetworkObservation.t :=
  NetworkObservation.mk "obs-1" "session-1" "interaction-1" "GET"
    "https://shop.example/catalog/products.json" [] None 200
    [("content-type", "application/json; charset=utf-8")]
    (Some "[]") "https://shop.example/catalog".

(** A captured call under a [/v3/] path with an HTML answer. *)
Definition v3_items : NetworkObservation.t :=
  NetworkObservation.mk "obs-2" "session-1" "interaction-1" "GET"
    "https://shop.example/v3/items" [] None 200
    [("content-type", "text/html")] (Some "<html></html>")
    "https://shop.example/catalog".

(** The schemas inferred from [None] and from a string. *)
Definition null_schema : dict := [("type", PStr "null")].
Definition string_schema : dict := [("type", PStr "string")].

(** A verifier holding a bearer token and a session cookie, and an
    [auth_variation] probe of a pending endpoint hypothesis. *)
Definition logged_in_verifier : VerifierAgent.t :=
  VerifierAgent.mk [("Authorization", "Bearer token-1")]
                   [("session", "abc123")].

Definition orders_hypothesis : dict :=
  [("id", PStr "hyp-1"); ("type", PStr "endpoint_schema");
   ("endpoint_pattern", PStr "/api/orders/{id}"); ("method", PStr "GET")].

Definition probing_state : AgentState.t :=
  AgentState.mk "session-1" [] "https://shop.example/cart" "probe" 7
    [] [orders_hypothesis] [] [] [] true None 0 None.

Definition auth_probe : dict :=
  [("probe_type", PStr "auth_variation");
   ("description", PStr "Test without authentication");
   ("expected_outcome", PStr "401 if auth required, else same response");
   ("hypothesis_id", PStr "hyp-1")].

Definition shop_origin (current_url : string) : string :=
  "https://shop.example".

(** The call that the probe above leads to. *)
Definition auth_probe_call : VerifierAgent.http_call :=
  VerifierAgent.mk_http_call (PStr "GET")
    "https://shop.example/api/orders/1"
    [("Content-Type", "application/json"); ("Accept", "application/json")]
    None [("session", "abc123")].

(** A pending endpoint hypothesis with one supporting observation and the
    initial confidence 0.2 that the store's rule gives it. *)
Definition single_observation_hypothesis : dict :=
  [("id", PStr "hyp-2"); ("type", PStr "endpoint_schema");
   ("description", PStr "API endpoint discovered: GET /api/users/{id}");
   ("endpoint_pattern", PStr "/api/users/{id}"); ("method", PStr "GET");
   ("supporting_evidence",
    PList [PDict [("observation_id", PStr "obs-1");
                  ("summary", PStr "GET /api/users/42 -> 200");
                  ("strength", PStr "moderate")]]);
   ("confidence", PFloat 0.2)].

(** [str()] on the values that occur in the scenarios. *)
Definition plain_str (v : pyval) : string :=
  match v with
  | PStr s => s
  | PNone => "None"
  | PBool b => if b then "True" else "False"
  | PInt z => str_of_Z z
  | _ => "..."
  end.

(** The characters of a [str] of ASCII letters, and [json.dumps] on the
    values that occur in the scenarios. *)
Definition ascii_chars (s : string) : list string :=
  map (fun c => String c EmptyString) (list_ascii_of_string s).

Definition plain_json (indent : option nat) (v : pyval) : string :=
  match v with
  | PNone => "null"
  | PBool b => if b then "true" else "false"
  | PInt z => str_of_Z z
  | PList [] => "[]"
  | PDict [] => "{}"
  | _ => "..."
  end.

(** A second sighting of the users endpoint, a confirming probe of it, and
    a sequence of store operations on the hypothesis ["id-1"]. *)
Definition second_sighting : EvidenceRef.t :=
  EvidenceRef.mk "obs-2" "GET /api/users/7 -> 200" "moderate".

Definition confirming_probe : ProbeResult.t :=
  ProbeResult.mk "res-1" "probe-1" "id-1" 200 ProbeOutcome.CONFIRMED 0.15
    "Replay successful - endpoint consistent".

Definition users_history : list HypothesisStore.mutation :=
  [HypothesisStore.AddEvidence second_sighting "interceptor";
   HypothesisStore.ApplyCritic rejecting_review;
   HypothesisStore.UpdateStatus HypothesisStatus.NEEDS_REVISION "critic";
   HypothesisStore.ApplyProbe confirming_probe].

(** A challenge whose recommended confidence is negative. *)
Definition negative_challenge : CriticEvaluation.t :=
  CriticEvaluation.mk "id-1" CriticVerdict.CHALLENGE [] [] [] []
    0.6 (-0.5) "Contradicted by every observation" [].

(** [s[:50].lower()] on ASCII text. *)
Definition ascii_head_lower (s : string) : string :=
  lower (String.substring 0 50 s).

(** The analyst phase finding the users endpoint twice and the orders
    endpoint once. *)
Definition orders_endpoint : HypothesisStore.kwargs :=
  HypothesisStore.mk_kwargs
    (Some (inl HypothesisStatus.ACTIVE)) (Some 0.6) [] None None
    (Some "/api/orders/{id}") (Some "GET") None (Some (PDict [])) None.

Definition analyst_findings : list Control.inferred :=
  [Control.mk_inferred "id-1" (inl HypothesisType.ENDPOINT_SCHEMA)
     "API endpoint discovered: GET /api/users/{id}" "analyst" users_endpoint;
   Control.mk_inferred "id-2" (inl HypothesisType.ENDPOINT_SCHEMA)
     "API endpoint discovered: GET /api/users/{id}" "analyst" users_endpoint;
   Control.mk_inferred "id-3" (inl HypothesisType.ENDPOINT_SCHEMA)
     "API endpoint discovered: GET /api/orders/{id}" "analyst" orders_endpoint].



(** The loop state after a critique that asks for the probe above, a peer
    that answers every call with 401, and the names of the exceptions. *)
Definition probing_review : dict :=
  [("hypothesis_id", PStr "hyp-1"); ("verdict", PStr "challenge");
   ("required_probes",
    PList [PDict [("probe_type", PStr "auth_variation");
                  ("description", PStr "Test without authentication");
                  ("expected_outcome",
                   PStr "401 if auth required, else same response")]])].

Definition reviewed_state : AgentState.t :=
  AgentState.mk "session-1" [] "https://shop.example/cart" "probe" 7
    [] [orders_hypothesis] [probing_review] [] [] true None 0 None.

(** Four reviews that each ask for three probes, twelve in all, two more
    than one run executes; only the hypothesis of the first is pending. *)
Definition thorough_review (hypothesis_id : string) : dict :=
  [("hypothesis_id", PStr hypothesis_id); ("verdict", PStr "challenge");
   ("required_probes",
    PList [PDict [("probe_type", PStr "replay_exact")];
           PDict [("probe_type", PStr "omit_field")];
           PDict [("probe_type", PStr "auth_variation")]])].

Definition crowded_state : AgentState.t :=
  AgentState.mk "session-1" [] "https://shop.example/cart" "probe" 7
    [] [orders_hypothesis]
    (map thorough_review ["hyp-1"; "hyp-2"; "hyp-3"; "hyp-4"])
    [] [] true None 0 None.

Definition unauthorized_peer (call : VerifierAgent.http_call)
  : string + VerifierAgent.response :=
  inr (VerifierAgent.mk_response 401 "unauthorized").

Definition exn_name (e : exn) : string :=
  match e with
  | ValueError => "ValueError"
  | TypeError => "TypeError"
  | AttributeError => "AttributeError"
  | ValidationError => "ValidationError"
  | IntegrityError => "IntegrityError"
  | RecursionError => "RecursionError"
  end.

(** The call that the probe leads to once the verifier's credentials have
    been cleared. *)
Definition anonymous_probe_call : VerifierAgent.http_call :=
  VerifierAgent.mk_http_call (PStr "GET")
    "https://shop.example/api/orders/1"
    [("Content-Type", "application/json"); ("Accept", "application/json")]
    None [].

(** The loop state when the critique phase starts on the hypothesis with a
    single observation. *)
Definition critique_state : AgentState.t :=
  AgentState.mk "session-1" [] "https://shop.example/cart" "critique" 5
    [] [single_observation_hypothesis] [] [] [] true None 0 None.




(** A format test that recognises nothing. *)
Definition no_format (s : string) : option string := None.

End Scenarios.

(* ===================================================================== *)
(** * Part II. Properties                                                 *)
(* ===================================================================== *)

(** ** Arithmetic of the modelled [float] operations *)

Section FloatFacts.
Local Open Scope Q_scope.

Lemma Qltb_true (x y : Q) : Qltb x y = true <-> x < y.
Proof.
  unfold Qltb. rewrite negb_true_iff.
  split.
  - intros H. apply Qnot_le_lt. intros Hle.
    apply Qle_bool_iff in Hle. congruence.
  - intros H. destruct (Qle_bool y x) eqn:E; [|reflexivity].
    apply Qle_bool_iff in E. exfalso. apply (Qlt_not_le _ _ H E).
Qed.

Lemma Qltb_false (x y : Q) : Qltb x y = false <-> y <= x.
Proof.
  unfold Qltb. rewrite negb_false_iff. apply Qle_bool_iff.
Qed.

Lemma py_min_spec (a b : Q) :
  (b < a /\ py_min a b = b) \/ (a <= b /\ py_min a b = a).
Proof.
  unfold py_min. destruct (Qltb b a) eqn:E.
  - left. split; [by apply Qltb_true|reflexivity].
  - right. split; [by apply Qltb_false|reflexivity].
Qed.

Lemma py_max_spec (a b : Q) :
  (a < b /\ py_max a b = b) \/ (b <= a /\ py_max a b = a).
Proof.
  unfold py_max. destruct (Qltb a b) eqn:E.
  - left. split; [by apply Qltb_true|reflexivity].
  - right. split; [by apply Qltb_false|reflexivity].
Qed.

Lemma py_min_idem (a b : Q) : py_min (py_min a b) b = py_min a b.
Proof.
  destruct (py_min_spec a b) as [[H ->]|[H ->]].
  - unfold py_min. destruct (Qltb b b) eqn:E; [|reflexivity].
    apply Qltb_true in E. exfalso. apply (Qlt_irrefl _ E).
  - unfold py_min. destruct (Qltb b a) eqn:E; [|reflexivity].
    apply Qltb_true in E. exfalso. apply (Qlt_not_le _ _ E H).
Qed.

End FloatFacts.

(** ** The probe rule (C3) *)

Section ProbeRule.
Local Open Scope Q_scope.
Import ConfidenceCalculator.

(** The store writes the calculator's value into the hypothesis and logs it. *)
Lemma store_apply_probe_confidence
    (self : gmap string Hypothesis_.t) (hid : string) (h : Hypothesis_.t)
    (r : ProbeResult.t) :
  self !! hid = Some h ->
  exists h',
    HypothesisStore.apply_probe_result self hid r
      = (<[hid := h']> self, Some h') /\
    Hypothesis_.confidence h'
      = apply_probe_result (Hypothesis_.confidence h) (ProbeResult.outcome r) /\
    exists e,
      Hypothesis_.confidence_history h'
        = (Hypothesis_.confidence_history h ++ [e])%list /\
      ConfidenceEvent.old_confidence e = Hypothesis_.confidence h /\
      ConfidenceEvent.new_confidence e = Hypothesis_.confidence h'.
Proof.
  intros Hh. unfold HypothesisStore.apply_probe_result. rewrite Hh.
  eexists. split; [reflexivity|]. split; [reflexivity|].
  eexists. split; [reflexivity|]. split; reflexivity.
Qed.

(** C3, as stated, fails at the lower end of the range: a falsified probe on
    confidence 0 leaves it at 0, which is not strictly less. *)
Lemma probe_falsified_not_strict_at_zero :
  0 <= 0 /\ 0 <= 1 /\
  ~ (apply_probe_result 0 ProbeOutcome.FALSIFIED < 0).
Proof.
  split; [lra|]. split; [lra|].
  unfold apply_probe_result. lra.
Qed.

(** C3 (amended): for every confidence [c] in [0,1], a confirmed probe yields
    [c + 0.2*(1-c)], which is at least [c]; a falsified probe yields
    [0.5*c], which is at most [c] and strictly less than [c] whenever
    [c > 0]. *)
Theorem probe_rule_monotone (c : Q) :
  0 <= c -> c <= 1 ->
  apply_probe_result c ProbeOutcome.CONFIRMED == c + 0.2 * (1 - c) /\
  c <= apply_probe_result c ProbeOutcome.CONFIRMED /\
  apply_probe_result c ProbeOutcome.FALSIFIED == 0.5 * c /\
  apply_probe_result c ProbeOutcome.FALSIFIED <= c /\
  (0 < c -> apply_probe_result c ProbeOutcome.FALSIFIED < c).
Proof.
  intros H0 H1. unfold apply_probe_result.
  repeat split; try lra.
Qed.

(** The theorem at confidence 0.5. *)
Lemma probe_rule_monotone_witness :
  0 <= 0.5 /\ 0.5 <= 1 /\
  apply_probe_result 0.5 ProbeOutcome.CONFIRMED == 0.5 + 0.2 * (1 - 0.5) /\
  0.5 <= apply_probe_result 0.5 ProbeOutcome.CONFIRMED /\
  apply_probe_result 0.5 ProbeOutcome.FALSIFIED == 0.5 * 0.5 /\
  apply_probe_result 0.5 ProbeOutcome.FALSIFIED <= 0.5 /\
  (0 < 0.5 -> apply_probe_result 0.5 ProbeOutcome.FALSIFIED < 0.5).
Proof.
  split; [lra|]. split; [lra|].
  apply (probe_rule_monotone 0.5); lra.
Defined.

(** The same bounds read off the store: a confirmed probe never lowers the
    stored confidence, a falsified one lowers it unless it is 0. *)
Lemma store_probe_monotone
    (self : gmap string Hypothesis_.t) (hid : string) (h : Hypothesis_.t)
    (r : ProbeResult.t) :
  self !! hid = Some h ->
  0 <= Hypothesis_.confidence h -> Hypothesis_.confidence h <= 1 ->
  exists h',
    (HypothesisStore.apply_probe_result self hid r).1 !! hid = Some h' /\
    (ProbeResult.outcome r = ProbeOutcome.CONFIRMED ->
     Hypothesis_.confidence h <= Hypothesis_.confidence h') /\
    (ProbeResult.outcome r = ProbeOutcome.FALSIFIED ->
     Hypothesis_.confidence h' <= Hypothesis_.confidence h /\
     (0 < Hypothesis_.confidence h ->
      Hypothesis_.confidence h' < Hypothesis_.confidence h)).
Proof.
  intros Hh H0 H1.
  destruct (store_apply_probe_confidence self hid h r Hh)
    as (h' & -> & Hc & _).
  exists h'. split; [apply lookup_insert_eq|]. rewrite Hc.
  split; intros ->; unfold apply_probe_result; [lra|split; [lra|intros; lra]].
Qed.

(** Scenarios S3 and S4 of the specification: 0.28 goes to 0.424 and then
    to 0.5392 under two confirmed probes, 0.7 goes to 0.76. *)
Example confirmed_probe_scenarios :
  apply_probe_result 0.28 ProbeOutcome.CONFIRMED == 0.424 /\
  apply_probe_result 0.424 ProbeOutcome.CONFIRMED == 0.5392 /\
  apply_probe_result 0.7 ProbeOutcome.CONFIRMED == 0.76.
Proof. repeat split. Qed.

End ProbeRule.

(** ** [HypothesisStore.create] (C1, C10) *)

Section Create.
Local Open Scope Q_scope.
Import HypothesisStore.

Lemma initial_confidence_bounds (e c u : Z) :
  0.1 <= ConfidenceCalculator.initial_confidence e c u /\
  ConfidenceCalculator.initial_confidence e c u <= 1.
Proof.
  unfold ConfidenceCalculator.initial_confidence.
  set (x := (_ - _ - _)).
  destruct (py_min_spec 1.0 x) as [[Hm ->]|[Hm ->]];
    [destruct (py_max_spec 0.1 x) as [[HM ->]|[HM ->]]
    |destruct (py_max_spec 0.1 1.0) as [[HM ->]|[HM ->]]];
    split; lra.
Qed.

Lemma initial_confidence_valid (e c u : Z) :
  Hypothesis_.confidence_in_bounds
    (ConfidenceCalculator.initial_confidence e c u) = true.
Proof.
  destruct (initial_confidence_bounds e c u) as [Hl Hu].
  unfold Hypothesis_.confidence_in_bounds.
  apply andb_true_iff. split; apply Qle_bool_iff; lra.
Qed.

(** What a successful [create] stores and returns. *)
Lemma create_ok (self : gmap string Hypothesis_.t) (uuid : string)
    (type : HypothesisType.t + string) (description created_by : string)
    (evidence : option (list EvidenceRef.t)) (kw : kwargs)
    (ty : HypothesisType.t) (st : HypothesisStatus.t) :
  resolve_type type = Ok ty ->
  resolve_status (kw_status kw) = Ok st ->
  schemas_are_dicts kw = true ->
  Hypothesis_.confidence_in_bounds (created_confidence evidence kw) = true ->
  exists h,
    create self uuid type description created_by evidence kw
      = Ok (<[uuid := h]> self, h) /\
    Hypothesis_.id h = uuid /\
    Hypothesis_.type h = ty /\
    Hypothesis_.status h = st /\
    Hypothesis_.endpoint_pattern h = kw_endpoint_pattern kw /\
    Hypothesis_.method h = kw_method kw /\
    Hypothesis_.supporting_evidence h = created_evidence evidence kw /\
    Hypothesis_.confidence h = created_confidence evidence kw /\
    Hypothesis_.confidence_history h =
      [ConfidenceEvent.mk ConfidenceEventType.INITIAL_INFERENCE
         0.0 (created_confidence evidence kw)
         ("Initial inference with " +:+
          str_of_nat (length (created_evidence evidence kw)) +:+
          " observations")
         created_by].
Proof.
  intros Hty Hst Hsch Hc.
  unfold create. rewrite Hty, Hst. cbn [mbind result_bind Py.bind].
  unfold new_hypothesis. rewrite Hsch. cbn [negb].
  rewrite Hc. cbn [negb mbind result_bind Py.bind Hypothesis_.id].
  eexists. split; [reflexivity|].
  cbn. repeat split; reflexivity.
Qed.

(** Outside the field bounds the model's validation fails and nothing is
    stored. *)
Lemma create_confidence_out_of_bounds
    (self : gmap string Hypothesis_.t) (uuid : string)
    (ty : HypothesisType.t) (description created_by : string)
    (evidence : option (list EvidenceRef.t)) (kw : kwargs) (c : Q) :
  kw_confidence kw = Some c ->
  kw_status kw = None ->
  Hypothesis_.confidence_in_bounds c = false ->
  create self uuid (inl ty) description created_by evidence kw
    = Raise ValidationError.
Proof.
  intros Hc Hst Hb. unfold create, created_confidence. rewrite Hst, Hc.
  cbn [resolve_type resolve_status mbind result_bind Py.bind].
  unfold new_hypothesis. destruct (schemas_are_dicts kw); [|reflexivity].
  cbn [negb]. rewrite Hb. reflexivity.
Qed.

(** C1, as stated, fails: a second [create] with the same kind, pattern and
    method is accepted, and both hypotheses are in the store afterwards. *)
Lemma create_accepts_duplicate_key :
  create ∅ "id-1" (inl HypothesisType.ENDPOINT_SCHEMA)
    "API endpoint discovered: GET /api/users/{id}" "analyst" None
    Scenarios.users_endpoint
    = Ok (Scenarios.users_store, Scenarios.users_hypothesis "id-1") /\
  create Scenarios.users_store "id-2" (inl HypothesisType.ENDPOINT_SCHEMA)
    "API endpoint discovered: GET /api/users/{id}" "analyst" None
    Scenarios.users_endpoint
    = Ok (<["id-2" := Scenarios.users_hypothesis "id-2"]>
            Scenarios.users_store,
          Scenarios.users_hypothesis "id-2") /\
  (<["id-2" := Scenarios.users_hypothesis "id-2"]> Scenarios.users_store)
    !! "id-1" = Some (Scenarios.users_hypothesis "id-1") /\
  (<["id-2" := Scenarios.users_hypothesis "id-2"]> Scenarios.users_store)
    !! "id-2" = Some (Scenarios.users_hypothesis "id-2") /\
  Hypothesis_.type (Scenarios.users_hypothesis "id-1")
    = HypothesisType.ENDPOINT_SCHEMA /\
  Hypothesis_.type (Scenarios.users_hypothesis "id-2")
    = HypothesisType.ENDPOINT_SCHEMA /\
  Hypothesis_.endpoint_pattern (Scenarios.users_hypothesis "id-1")
    = Hypothesis_.endpoint_pattern (Scenarios.users_hypothesis "id-2") /\
  Hypothesis_.method (Scenarios.users_hypothesis "id-1")
    = Hypothesis_.method (Scenarios.users_hypothesis "id-2").
Proof.
  split; [reflexivity|].
  split; [reflexivity|].
  split.
  { unfold Scenarios.users_store.
    rewrite lookup_insert_ne by discriminate. apply lookup_insert_eq. }
  split; [apply lookup_insert_eq|].
  repeat split.
Qed.

(** C1 (amended): [create] makes no duplicate check. Whenever its arguments
    pass validation (the type and status name enum members, the schemas are
    dictionaries, an explicit confidence lies in [0,1]), the call succeeds
    whatever the store holds: the new hypothesis, carrying the given kind,
    pattern and method, is stored under the fresh id and every other entry
    of the store is kept. *)
Theorem create_never_rejects
    (self : gmap string Hypothesis_.t) (uuid : string)
    (type : HypothesisType.t + string) (description created_by : string)
    (evidence : option (list EvidenceRef.t)) (kw : kwargs)
    (ty : HypothesisType.t) (st : HypothesisStatus.t) :
  resolve_type type = Ok ty ->
  resolve_status (kw_status kw) = Ok st ->
  schemas_are_dicts kw = true ->
  (forall c, kw_confidence kw = Some c ->
             Hypothesis_.confidence_in_bounds c = true) ->
  exists self' h,
    create self uuid type description created_by evidence kw = Ok (self', h) /\
    self' !! uuid = Some h /\
    Hypothesis_.type h = ty /\
    Hypothesis_.endpoint_pattern h = kw_endpoint_pattern kw /\
    Hypothesis_.method h = kw_method kw /\
    forall other, other <> uuid -> self' !! other = self !! other.
Proof.
  intros Hty Hst Hsch Hc.
  assert (Hb : Hypothesis_.confidence_in_bounds
                 (created_confidence evidence kw) = true).
  { unfold created_confidence. destruct (kw_confidence kw) as [c|] eqn:E.
    - by apply Hc.
    - apply initial_confidence_valid. }
  destruct (create_ok self uuid type description created_by evidence kw
              ty st Hty Hst Hsch Hb)
    as (h & Hcreate & _ & Hty' & _ & Hp & Hm & _).
  exists (<[uuid := h]> self), h.
  split; [exact Hcreate|].
  split; [apply lookup_insert_eq|].
  split; [exact Hty'|]. split; [exact Hp|]. split; [exact Hm|].
  intros other Hne. by apply lookup_insert_ne.
Qed.

(** The theorem at the store that already holds the same endpoint. *)
Lemma create_never_rejects_witness :
  resolve_type (inl HypothesisType.ENDPOINT_SCHEMA)
    = Ok HypothesisType.ENDPOINT_SCHEMA /\
  resolve_status (kw_status Scenarios.users_endpoint)
    = Ok HypothesisStatus.ACTIVE /\
  schemas_are_dicts Scenarios.users_endpoint = true /\
  exists self' h,
    create Scenarios.users_store "id-2"
      (inl HypothesisType.ENDPOINT_SCHEMA)
      "API endpoint discovered: GET /api/users/{id}" "analyst" None
      Scenarios.users_endpoint = Ok (self', h) /\
    self' !! "id-2" = Some h /\
    Hypothesis_.type h = HypothesisType.ENDPOINT_SCHEMA /\
    Hypothesis_.endpoint_pattern h = Some "/api/users/{id}" /\
    Hypothesis_.method h = Some "GET" /\
    forall other, other <> "id-2" ->
      self' !! other = Scenarios.users_store !! other.
Proof.
  split; [reflexivity|]. split; [reflexivity|]. split; [reflexivity|].
  apply (create_never_rejects Scenarios.users_store "id-2"
           (inl HypothesisType.ENDPOINT_SCHEMA)
           "API endpoint discovered: GET /api/users/{id}" "analyst" None
           Scenarios.users_endpoint
           HypothesisType.ENDPOINT_SCHEMA HypothesisStatus.ACTIVE).
  - reflexivity.
  - reflexivity.
  - reflexivity.
  - intros c [= <-]. reflexivity.
Defined.

(** C10, as stated, fails: an explicit confidence is not used whatever its
    value. With 1.5, and with -0.01, the field bounds of [Hypothesis]
    ([ge=0.0, le=1.0]) make the constructor raise: [create] stores no
    hypothesis and records no event. *)
Lemma create_rejects_confidence_outside_bounds :
  create ∅ "id-1" (inr "permission_gate")
    "Endpoint https://shop.example/api/orders requires authentication"
    "business_logic" None
    (mk_kwargs None (Some 1.5)
       (kw_supporting_evidence Scenarios.unauthorized_gate) None
       (kw_untested_assumptions Scenarios.unauthorized_gate)
       None None None None (kw_rule_type Scenarios.unauthorized_gate))
    = Raise ValidationError /\
  create ∅ "id-1" (inr "permission_gate")
    "Endpoint https://shop.example/api/orders requires authentication"
    "business_logic" None
    (mk_kwargs None (Some (-0.01))
       (kw_supporting_evidence Scenarios.unauthorized_gate) None
       (kw_untested_assumptions Scenarios.unauthorized_gate)
       None None None None (kw_rule_type Scenarios.unauthorized_gate))
    = Raise ValidationError /\
  ~ (exists h,
       create ∅ "id-1" (inr "permission_gate")
         "Endpoint https://shop.example/api/orders requires authentication"
         "business_logic" None
         (mk_kwargs None (Some 1.5)
            (kw_supporting_evidence Scenarios.unauthorized_gate) None
            (kw_untested_assumptions Scenarios.unauthorized_gate)
            None None None None (kw_rule_type Scenarios.unauthorized_gate))
         = Ok (<["id-1" := h]> ∅, h) /\
       Hypothesis_.confidence h = 1.5).
Proof.
  split; [reflexivity|]. split; [reflexivity|].
  intros (h & Hcreate & _). discriminate Hcreate.
Qed.

(** C10 (amended): an explicit [confidence] keyword that lies in [0,1], the
    range the data model admits, is used verbatim as the initial confidence,
    in place of the initial-confidence rule and its clamp to [0.1, 1.0], and
    the initial confidence event records it as the new confidence. *)
Theorem create_confidence_override
    (self : gmap string Hypothesis_.t) (uuid : string)
    (type : HypothesisType.t + string) (description created_by : string)
    (evidence : option (list EvidenceRef.t)) (kw : kwargs)
    (ty : HypothesisType.t) (st : HypothesisStatus.t) (c : Q) :
  resolve_type type = Ok ty ->
  resolve_status (kw_status kw) = Ok st ->
  schemas_are_dicts kw = true ->
  kw_confidence kw = Some c ->
  0 <= c -> c <= 1 ->
  exists h,
    create self uuid type description created_by evidence kw
      = Ok (<[uuid := h]> self, h) /\
    Hypothesis_.confidence h = c /\
    Hypothesis_.confidence_history h =
      [ConfidenceEvent.mk ConfidenceEventType.INITIAL_INFERENCE 0.0 c
         ("Initial inference with " +:+
          str_of_nat (length (created_evidence evidence kw)) +:+
          " observations")
         created_by].
Proof.
  intros Hty Hst Hsch Hkw H0 H1.
  assert (Hcc : created_confidence evidence kw = c).
  { unfold created_confidence. by rewrite Hkw. }
  assert (Hb : Hypothesis_.confidence_in_bounds
                 (created_confidence evidence kw) = true).
  { rewrite Hcc. unfold Hypothesis_.confidence_in_bounds.
    apply andb_true_iff. split; by apply Qle_bool_iff. }
  destruct (create_ok self uuid type description created_by evidence kw
              ty st Hty Hst Hsch Hb)
    as (h & Hcreate & _ & _ & _ & _ & _ & _ & Hconf & Hhist).
  exists h. rewrite Hcc in Hconf, Hhist. auto.
Qed.

(** The theorem at the 401 permission-gate arguments, confidence 0.7. *)
Lemma create_confidence_override_witness :
  resolve_type (inr "permission_gate") = Ok HypothesisType.PERMISSION_GATE /\
  resolve_status (kw_status Scenarios.unauthorized_gate)
    = Ok HypothesisStatus.ACTIVE /\
  schemas_are_dicts Scenarios.unauthorized_gate = true /\
  kw_confidence Scenarios.unauthorized_gate = Some 0.7 /\
  0 <= 0.7 /\ 0.7 <= 1 /\
  exists h,
    create ∅ "id-1" (inr "permission_gate")
      "Endpoint https://shop.example/api/orders requires authentication"
      "business_logic" None Scenarios.unauthorized_gate
      = Ok (<["id-1" := h]> ∅, h) /\
    Hypothesis_.confidence h = 0.7 /\
    Hypothesis_.confidence_history h =
      [ConfidenceEvent.mk ConfidenceEventType.INITIAL_INFERENCE 0.0 0.7
         ("Initial inference with " +:+
          str_of_nat (length
            (created_evidence None Scenarios.unauthorized_gate)) +:+
          " observations")
         "business_logic"].
Proof.
  split; [reflexivity|]. split; [reflexivity|]. split; [reflexivity|].
  split; [reflexivity|]. split; [lra|]. split; [lra|].
  apply (create_confidence_override ∅ "id-1" (inr "permission_gate")
           "Endpoint https://shop.example/api/orders requires authentication"
           "business_logic" None Scenarios.unauthorized_gate
           HypothesisType.PERMISSION_GATE HypothesisStatus.ACTIVE 0.7).
  - reflexivity.
  - reflexivity.
  - reflexivity.
  - reflexivity.
  - lra.
  - lra.
Defined.

(** Without the keyword the same arguments get the rule's value: no counted
    evidence (a dictionary item is skipped) and two untested assumptions give
    0.5 - 2 * 0.05 = 0.4, not 0.7. *)
Example create_rule_value_for_unauthorized_gate :
  created_confidence None
    (mk_kwargs None None
       (kw_supporting_evidence Scenarios.unauthorized_gate) None
       (kw_untested_assumptions Scenarios.unauthorized_gate)
       None None None None None) == 0.4.
Proof. vm_compute. reflexivity. Qed.

(** The clamp to [0.1, 1.0] is not applied to an explicit value. *)
Example create_override_below_clamp :
  exists h,
    create ∅ "id-1" (inl HypothesisType.RATE_LIMIT) "d" "a" None
      (mk_kwargs None (Some 0.05) [] None None None None None None None)
      = Ok (<["id-1" := h]> ∅, h) /\
    Hypothesis_.confidence h = 0.05.
Proof. eexists. split; reflexivity. Qed.

End Create.

(** ** [HypothesisStore.apply_critic_evaluation] (C2) *)

Section CriticEvaluationTwice.
Local Open Scope Q_scope.
Import HypothesisStore.

Lemma has_description_app (alt : string) (l1 l2 : list CompetingExplanation.t) :
  has_description alt (l1 ++ l2) = has_description alt l1 || has_description alt l2.
Proof. apply existsb_app. Qed.

Lemma add_alternatives_keeps (alts : list string)
    (ces : list CompetingExplanation.t) (alt : string) :
  has_description alt ces = true ->
  has_description alt (add_alternatives alts ces) = true.
Proof.
  revert ces. induction alts as [|a alts IH]; intros ces H; [exact H|].
  cbn [add_alternatives]. apply IH.
  destruct (has_description a ces); [exact H|].
  rewrite has_description_app, H. reflexivity.
Qed.

Lemma add_alternatives_covers (alts : list string)
    (ces : list CompetingExplanation.t) (alt : string) :
  In alt alts -> has_description alt (add_alternatives alts ces) = true.
Proof.
  revert ces. induction alts as [|a alts IH]; intros ces Hin; [destruct Hin|].
  cbn [add_alternatives].
  destruct Hin as [->|Hin]; [|by apply IH].
  apply add_alternatives_keeps.
  destruct (has_description alt ces) eqn:E; [exact E|].
  rewrite has_description_app. cbn. rewrite String.eqb_refl.
  by rewrite orb_true_r.
Qed.

Lemma add_alternatives_fixed (alts : list string)
    (ces : list CompetingExplanation.t) :
  (forall alt, In alt alts -> has_description alt ces = true) ->
  add_alternatives alts ces = ces.
Proof.
  revert ces. induction alts as [|a alts IH]; intros ces H; [reflexivity|].
  cbn [add_alternatives].
  rewrite (H a) by (left; reflexivity).
  apply IH. intros alt Hin. apply H. by right.
Qed.

(** A second pass over the same alternatives adds nothing. *)
Lemma add_alternatives_idem (alts : list string)
    (ces : list CompetingExplanation.t) :
  add_alternatives alts (add_alternatives alts ces) = add_alternatives alts ces.
Proof.
  apply add_alternatives_fixed. intros alt Hin.
  by apply add_alternatives_covers.
Qed.

Lemma extend_untested_idem (new old : list string) :
  extend_untested new (extend_untested new old) = extend_untested new old.
Proof.
  unfold extend_untested at 1.
  set (ext := extend_untested new old).
  assert (Hall : forall a, In a new -> existsb (String.eqb a) ext = true).
  { intros a Hin. unfold ext, extend_untested. rewrite existsb_app.
    destruct (existsb (String.eqb a) old) eqn:E; [reflexivity|].
    cbn [orb]. apply existsb_exists. exists a. split; [|apply String.eqb_refl].
    apply filter_In. split; [exact Hin|]. by rewrite E. }
  assert (Hnil : forall l, (forall a, In a l -> In a new) ->
            List.filter (fun a => negb (existsb (String.eqb a) ext)) l = []).
  { induction l as [|x l IH]; intros Hl; [reflexivity|].
    cbn [List.filter]. rewrite (Hall x) by (apply Hl; by left).
    cbn [negb]. apply IH. intros a Ha. apply Hl. by right. }
  rewrite (Hnil new) by auto. apply app_nil_r.
Qed.

(** C2, as stated, fails: a rejecting review applied twice lowers the
    confidence twice (0.6 -> 0.18 -> 0.054) and appends two events. *)
Lemma critic_double_apply_differs :
  apply_critic_evaluation Scenarios.users_store "id-1"
    Scenarios.rejecting_review
    = (<["id-1" := Scenarios.rejected_once]> Scenarios.users_store,
       Some Scenarios.rejected_once) /\
  apply_critic_evaluation
    (<["id-1" := Scenarios.rejected_once]> Scenarios.users_store) "id-1"
    Scenarios.rejecting_review
    = (<["id-1" := Scenarios.rejected_twice]>
         (<["id-1" := Scenarios.rejected_once]> Scenarios.users_store),
       Some Scenarios.rejected_twice) /\
  Hypothesis_.confidence Scenarios.rejected_once == 0.18 /\
  Hypothesis_.confidence Scenarios.rejected_twice == 0.054 /\
  ~ Hypothesis_.confidence Scenarios.rejected_twice
      == Hypothesis_.confidence Scenarios.rejected_once /\
  length (Hypothesis_.confidence_history Scenarios.rejected_twice) =
    (length (Hypothesis_.confidence_history
               (Scenarios.users_hypothesis "id-1")) + 2)%nat.
Proof.
  split.
  { unfold apply_critic_evaluation, Scenarios.users_store.
    by rewrite lookup_insert_eq. }
  split.
  { unfold apply_critic_evaluation. by rewrite lookup_insert_eq. }
  split; [reflexivity|]. split; [reflexivity|].
  split; [|reflexivity].
  intros H. vm_compute in H. discriminate H.
Qed.

(** C2 (amended): the mutator keeps no record of the reviews it has applied.
    Each application appends exactly one [critic_challenge] event and
    increments the revision, so a double application appends two events, and
    the critic rule is applied again to the already adjusted confidence.
    The final confidence equals that of a single application when the
    verdict is [challenge]; the alternative explanations and untested
    assumptions, which are deduplicated by description, are those of a
    single application. *)
Theorem critic_double_apply
    (self : gmap string Hypothesis_.t) (hid : string) (h : Hypothesis_.t)
    (r : CriticEvaluation.t) :
  self !! hid = Some h ->
  exists s1 h1 s2 h2,
    apply_critic_evaluation self hid r = (s1, Some h1) /\
    apply_critic_evaluation s1 hid r = (s2, Some h2) /\
    s2 !! hid = Some h2 /\
    Hypothesis_.confidence h1 =
      ConfidenceCalculator.apply_critic_review (Hypothesis_.confidence h) r /\
    Hypothesis_.confidence h2 =
      ConfidenceCalculator.apply_critic_review (Hypothesis_.confidence h1) r /\
    Hypothesis_.confidence_history h2 =
      (Hypothesis_.confidence_history h ++
       [ConfidenceEvent.mk ConfidenceEventType.CRITIC_CHALLENGE
          (Hypothesis_.confidence h) (Hypothesis_.confidence h1)
          (CriticEvaluation.adjustment_reason r) "critic";
        ConfidenceEvent.mk ConfidenceEventType.CRITIC_CHALLENGE
          (Hypothesis_.confidence h1) (Hypothesis_.confidence h2)
          (CriticEvaluation.adjustment_reason r) "critic"])%list /\
    Hypothesis_.revision h2 = (Hypothesis_.revision h + 2)%Z /\
    (CriticEvaluation.verdict r = CriticVerdict.CHALLENGE ->
     Hypothesis_.confidence h2 = Hypothesis_.confidence h1) /\
    Hypothesis_.competing_explanations h2 =
      Hypothesis_.competing_explanations h1 /\
    Hypothesis_.untested_assumptions h2 = Hypothesis_.untested_assumptions h1.
Proof.
  intros Hh.
  exists (<[hid := critic_update h r]> self), (critic_update h r).
  exists (<[hid := critic_update (critic_update h r) r]>
            (<[hid := critic_update h r]> self)),
         (critic_update (critic_update h r) r).
  split; [unfold apply_critic_evaluation; by rewrite Hh|].
  split; [unfold apply_critic_evaluation; by rewrite lookup_insert_eq|].
  split; [apply lookup_insert_eq|].
  cbn [critic_update Hypothesis_.confidence Hypothesis_.confidence_history
       Hypothesis_.revision Hypothesis_.competing_explanations
       Hypothesis_.untested_assumptions].
  split; [reflexivity|]. split; [reflexivity|].
  split; [by rewrite <- app_assoc|].
  split; [lia|].
  split.
  - intros Hv. unfold ConfidenceCalculator.apply_critic_review. rewrite Hv.
    apply py_min_idem.
  - split; [apply add_alternatives_idem|apply extend_untested_idem].
Qed.

(** The theorem at the rejecting review of the stored endpoint. *)
Lemma critic_double_apply_witness :
  Scenarios.users_store !! "id-1" = Some (Scenarios.users_hypothesis "id-1") /\
  exists s1 h1 s2 h2,
    apply_critic_evaluation Scenarios.users_store "id-1"
      Scenarios.rejecting_review = (s1, Some h1) /\
    apply_critic_evaluation s1 "id-1" Scenarios.rejecting_review
      = (s2, Some h2) /\
    s2 !! "id-1" = Some h2 /\
    Hypothesis_.confidence h1 =
      ConfidenceCalculator.apply_critic_review
        (Hypothesis_.confidence (Scenarios.users_hypothesis "id-1"))
        Scenarios.rejecting_review /\
    Hypothesis_.confidence h2 =
      ConfidenceCalculator.apply_critic_review (Hypothesis_.confidence h1)
        Scenarios.rejecting_review /\
    Hypothesis_.confidence_history h2 =
      (Hypothesis_.confidence_history (Scenarios.users_hypothesis "id-1") ++
       [ConfidenceEvent.mk ConfidenceEventType.CRITIC_CHALLENGE
          (Hypothesis_.confidence (Scenarios.users_hypothesis "id-1"))
          (Hypothesis_.confidence h1)
          (CriticEvaluation.adjustment_reason Scenarios.rejecting_review)
          "critic";
        ConfidenceEvent.mk ConfidenceEventType.CRITIC_CHALLENGE
          (Hypothesis_.confidence h1) (Hypothesis_.confidence h2)
          (CriticEvaluation.adjustment_reason Scenarios.rejecting_review)
          "critic"])%list /\
    Hypothesis_.revision h2 =
      (Hypothesis_.revision (Scenarios.users_hypothesis "id-1") + 2)%Z /\
    (CriticEvaluation.verdict Scenarios.rejecting_review
       = CriticVerdict.CHALLENGE ->
     Hypothesis_.confidence h2 = Hypothesis_.confidence h1) /\
    Hypothesis_.competing_explanations h2 =
      Hypothesis_.competing_explanations h1 /\
    Hypothesis_.untested_assumptions h2 = Hypothesis_.untested_assumptions h1.
Proof.
  split; [apply lookup_insert_eq|].
  apply (critic_double_apply Scenarios.users_store "id-1"
           (Scenarios.users_hypothesis "id-1") Scenarios.rejecting_review).
  apply lookup_insert_eq.
Defined.

End CriticEvaluationTwice.

(** ** Termination of the loop (C4) *)

Section Termination.
Import Supervisor.

Lemma next_phase_is_not_terminate (state : AgentState.t) :
  (next_phase state =? "terminate")%string = false.
Proof.
  unfold next_phase.
  repeat match goal with
         | |- context [if ?b then _ else _] => destruct b
         end; reflexivity.
Qed.

Lemma execute_below_limits (settings : Settings.t) (state : AgentState.t) :
  (AgentState.loop_iteration state < Settings.max_loop_iterations settings)%Z ->
  (AgentState.error_count state <= 10)%Z ->
  exists message,
    execute settings state = set_phase state (next_phase state) message.
Proof.
  intros Hi He. unfold execute, _check_termination.
  destruct (Z.leb_spec (Settings.max_loop_iterations settings)
              (AgentState.loop_iteration state)) as [Hi'|_]; [lia|].
  destruct (Z.ltb_spec 10 (AgentState.error_count state)) as [He'|_]; [lia|].
  destruct (AgentState.loop_phase state =? "update")%string; eexists;
    reflexivity.
Qed.

(** What the code does after the update phase, for every state: the
    session ends before another phase node runs if and only if the
    supervisor's next pass brings the iteration counter to the configured
    maximum, or the error count exceeds 10. The [termination_check] node
    tests the counter as the update phase left it; the [supervisor] node
    then adds one and [route_by_phase] tests it again. The same two tests,
    and no other, decide [_check_termination]. *)
Lemma supervisor_termination_iff (settings : Settings.t)
    (state : AgentState.t) :
  (terminates_after_update settings state = true <->
   (Settings.max_loop_iterations settings
      <= AgentState.loop_iteration state + 1
    \/ 10 < AgentState.error_count state)%Z) /\
  (_check_termination settings state <> None <->
   (Settings.max_loop_iterations settings <= AgentState.loop_iteration state
    \/ 10 < AgentState.error_count state)%Z).
Proof.
  split.
  - unfold terminates_after_update, after_update, check_termination,
      _termination_check_node.
    remember (_memory_update_node state) as cleared eqn:Hc.
    assert (Hit : AgentState.loop_iteration cleared
                  = AgentState.loop_iteration state) by (by subst).
    assert (Her : AgentState.error_count cleared
                  = AgentState.error_count state) by (by subst).
    rewrite Hit, Her. clear Hc.
    destruct (Z.leb_spec (Settings.max_loop_iterations settings)
                (AgentState.loop_iteration state)) as [Hi|Hi];
    destruct (Z.ltb_spec 10 (AgentState.error_count state)) as [He|He];
    cbn [set_stop AgentState.should_continue negb String.eqb
         Ascii.eqb Bool.eqb];
    try (split; [lia|reflexivity]).
    remember (set_continue cleared) as checked eqn:Hc.
    assert (Hit' : AgentState.loop_iteration checked
                   = AgentState.loop_iteration state) by (by subst).
    assert (Her' : AgentState.error_count checked
                   = AgentState.error_count state) by (by subst).
    assert (Hsc : AgentState.should_continue checked = true) by (by subst).
    rewrite Hsc.
    cbn [negb String.eqb Ascii.eqb Bool.eqb].
    destruct (execute_below_limits settings checked) as [message ->];
      [lia|lia|].
    unfold route_by_phase.
    cbn [set_phase AgentState.loop_iteration AgentState.error_count
         AgentState.loop_phase AgentState.should_continue].
    rewrite Hsc, Hit', Her'. cbn [negb].
    destruct (Z.ltb_spec 10 (AgentState.error_count state)) as [He'|_];
      [lia|].
    destruct (Z.leb_spec (Settings.max_loop_iterations settings)
                (AgentState.loop_iteration state + 1)) as [Hn|Hn].
    + cbn. split; [lia|reflexivity].
    + rewrite next_phase_is_not_terminate. split; [discriminate|lia].
  - unfold _check_termination.
    destruct (Z.leb_spec (Settings.max_loop_iterations settings)
                (AgentState.loop_iteration state)) as [Hi|Hi];
    destruct (Z.ltb_spec 10 (AgentState.error_count state)) as [He|He];
    split; intros H; try lia; try discriminate; exfalso; by apply H.
Qed.

(** C4: the code falls short of the claim. At the end of an update phase
    at iteration 42 of 1000, without errors, the specification's predicate
    holds for a store of six confirmed hypotheses of mean confidence 0.9,
    and it holds after fifteen explore steps without a new observation;
    the graph nevertheless passes through [termination_check] and
    [supervisor] and enters the explore phase at iteration 43, and
    [_check_termination], whose last test is a comment, returns no
    reason. *)
Theorem supervisor_ignores_confidence_and_idle_steps :
  Spec.termination_predicate Settings.default Scenarios.quiet_update_state
    Scenarios.six_confirmed 0 = true /\
  Spec.termination_predicate Settings.default Scenarios.quiet_update_state
    [] 15 = true /\
  terminates_after_update Settings.default Scenarios.quiet_update_state
    = false /\
  (exists next,
     after_update Settings.default Scenarios.quiet_update_state = inr next /\
     AgentState.loop_phase next = "explore" /\
     AgentState.loop_iteration next = 43%Z /\
     AgentState.should_continue next = true /\
     AgentState.termination_reason next = None) /\
  _check_termination Settings.default Scenarios.quiet_update_state = None.
Proof.
  split; [vm_compute; reflexivity|].
  split; [vm_compute; reflexivity|].
  split; [vm_compute; reflexivity|].
  split; [|vm_compute; reflexivity].
  eexists. split; [vm_compute; reflexivity|].
  repeat split.
Qed.

End Termination.

(** ** Classification of captured traffic (C5) *)

Section Classification.
Import NetworkObservation.

Lemma prefix_json_js (s : string) :
  is_prefix ".json" s = true -> is_prefix ".js" s = true.
Proof.
  destruct s as [|c1 [|c2 [|c3 s]]]; cbn [is_prefix]; try discriminate.
  - rewrite andb_false_r. discriminate.
  - rewrite !andb_false_r. discriminate.
  - intros H. apply andb_true_iff in H as [-> H].
    apply andb_true_iff in H as [-> H].
    apply andb_true_iff in H as [-> _]. reflexivity.
Qed.

Lemma str_in_json_js (s : string) :
  str_in ".json" s = true -> str_in ".js" s = true.
Proof.
  induction s as [|c s IH]; [cbn; discriminate|].
  cbn [str_in]. intros H. apply orb_true_iff in H. apply orb_true_iff.
  destruct H as [H|H]; [left; by apply prefix_json_js|right; by apply IH].
Qed.

(** The interceptor keeps every pair that has a response, names no static
    asset and no tracker, and either lies under one of its API path patterns
    or answers with a JSON or [application/xml] content type. *)
Lemma interceptor_accepts_api_traffic (obs : NetworkObservation.t) :
  status_code obs <> 0%Z ->
  any_in InterceptorAgent.static_patterns (lower (url obs)) = false ->
  any_in InterceptorAgent.trackers (lower (url obs)) = false ->
  any_in InterceptorAgent.api_patterns (lower (url obs)) = true \/
  str_in "application/json"
    (lower (header_get "content-type" (response_headers obs))) = true \/
  str_in "application/xml"
    (lower (header_get "content-type" (response_headers obs))) = true ->
  InterceptorAgent._is_relevant_api_call obs = true.
Proof.
  intros Hst Hstatic Htr Hapi. unfold InterceptorAgent._is_relevant_api_call.
  destruct (Z.eqb_spec (status_code obs) 0) as [E|_]; [contradiction|].
  rewrite Hstatic, Htr.
  destruct (any_in InterceptorAgent.api_patterns _); [reflexivity|].
  destruct Hapi as [H|[H|H]]; [discriminate| |].
  - by rewrite H.
  - rewrite H. by destruct (str_in "application/json" _).
Qed.

(** C5: the interceptor's static-asset test is a substring test for [.js],
    which every URL containing [.json] passes; such a pair is rejected
    whatever its status, content type and path. *)
Theorem interceptor_rejects_json_urls (obs : NetworkObservation.t) :
  str_in ".json" (lower (url obs)) = true ->
  InterceptorAgent._is_relevant_api_call obs = false.
Proof.
  intros H. unfold InterceptorAgent._is_relevant_api_call.
  destruct (status_code obs =? 0)%Z; [reflexivity|].
  unfold any_in at 1. cbn [InterceptorAgent.static_patterns existsb].
  by rewrite (str_in_json_js _ H).
Qed.

(** The theorem at a JSON document that has a response, names no tracker,
    ends in [.json] and is served as [application/json]. *)
Lemma interceptor_rejects_json_urls_witness :
  str_in ".json" (lower (url Scenarios.products_json)) = true /\
  endswith (lower (url Scenarios.products_json)) ".json" = true /\
  status_code Scenarios.products_json = 200%Z /\
  any_in InterceptorAgent.trackers (lower (url Scenarios.products_json))
    = false /\
  str_in "application/json"
    (lower (header_get "content-type"
              (response_headers Scenarios.products_json))) = true /\
  InterceptorAgent._is_relevant_api_call Scenarios.products_json = false.
Proof.
  split; [reflexivity|]. split; [reflexivity|]. split; [reflexivity|].
  split; [reflexivity|]. split; [reflexivity|].
  apply (interceptor_rejects_json_urls Scenarios.products_json).
  reflexivity.
Defined.

(** The sibling filter in [browser/manager.py] keeps the same pair; it
    excludes [.js] files "but not .json". *)
Example manager_accepts_json_endpoint :
  BrowserManager._is_api_request (url Scenarios.products_json)
    (method Scenarios.products_json)
    (response_headers Scenarios.products_json) = true /\
  BrowserManager._is_api_request (url Scenarios.products_json)
    (method Scenarios.products_json) [] = true.
Proof. split; vm_compute; reflexivity. Qed.

(** The interceptor's pattern list has no [/v3/] entry, which the sibling
    has. *)
Example interceptor_rejects_v3_path :
  InterceptorAgent._is_relevant_api_call Scenarios.v3_items = false /\
  BrowserManager._is_api_request (url Scenarios.v3_items)
    (method Scenarios.v3_items) (response_headers Scenarios.v3_items) = true.
Proof. split; vm_compute; reflexivity. Qed.

End Classification.

(** ** Merging a [null] schema (C6) *)

Section NullMerge.
Import SchemaMerger.

Lemma py_eq_str_l (s : string) (b : pyval) :
  py_eq (PStr s) b = true <-> b = PStr s.
Proof.
  destruct b; cbn; try (split; [discriminate|intros [=]]).
  rewrite String.eqb_eq. split; [by intros ->|by intros [= ->]].
Qed.

Lemma py_eq_str_r (a : pyval) (s : string) :
  py_eq a (PStr s) = true <-> a = PStr s.
Proof.
  destruct a as [| | | |s'| |]; cbn;
    try (split; [discriminate|intros [=]]).
  rewrite String.eqb_eq. split; [by intros ->|by intros [= ->]].
Qed.

Lemma py_eq_str_neq_l (s : string) (b : pyval) :
  b <> PStr s -> py_eq (PStr s) b = false.
Proof.
  intros H. destruct (py_eq (PStr s) b) eqn:E; [|reflexivity].
  apply py_eq_str_l in E. contradiction.
Qed.

Lemma py_eq_str_neq_r (a : pyval) (s : string) :
  a <> PStr s -> py_eq a (PStr s) = false.
Proof.
  intros H. destruct (py_eq a (PStr s)) eqn:E; [|reflexivity].
  apply py_eq_str_r in E. contradiction.
Qed.

(** The "make nullable" branch is reached only when the other schema has no
    (truthy) type: then the result is that schema with [nullable] set. *)
Lemma merge_null_with_untyped (depth : nat) (d1 d2 : dict) :
  dict_get "type" d1 = Some (PStr "null") ->
  dict_get "type" d2 = None ->
  _merge_schemas (S depth) (PDict d1) (PDict d2)
    = Ok (PDict (dict_set "nullable" (PBool true) d2)) /\
  _merge_schemas (S depth) (PDict d2) (PDict d1)
    = Ok (PDict (dict_set "nullable" (PBool true) d2)).
Proof.
  intros H1 H2. cbn [_merge_schemas]. rewrite H1, H2.
  split; reflexivity.
Qed.

(** C6: when one schema has type [null] and the other a different, non-empty
    type, the "different types" test comes first and the merge is
    [{"anyOf": [schema1, schema2]}], in the order of the arguments; the
    "make nullable" branch below it is not reached, so the result is not the
    typed schema marked nullable. The typed schema is kept whole, as a
    branch of the [anyOf]. *)
Theorem merge_null_with_typed_is_anyOf (depth : nat) (d1 d2 : dict)
    (t2 : pyval) :
  dict_get "type" d1 = Some (PStr "null") ->
  dict_get "type" d2 = Some t2 ->
  truthy t2 = true ->
  t2 <> PStr "null" ->
  _merge_schemas (S depth) (PDict d1) (PDict d2)
    = Ok (PDict [("anyOf", PList [PDict d1; PDict d2])]) /\
  _merge_schemas (S depth) (PDict d2) (PDict d1)
    = Ok (PDict [("anyOf", PList [PDict d2; PDict d1])]) /\
  _merge_schemas (S depth) (PDict d1) (PDict d2)
    <> Ok (PDict (dict_set "nullable" (PBool true) d2)).
Proof.
  intros H1 H2 Ht Hne.
  assert (E1 : _merge_schemas (S depth) (PDict d1) (PDict d2)
                 = Ok (PDict [("anyOf", PList [PDict d1; PDict d2])])).
  { cbn [_merge_schemas]. rewrite H1, H2. unfold opt_eq.
    cbn [of_opt truthy_opt]. rewrite (py_eq_str_neq_l _ _ Hne), Ht.
    reflexivity. }
  split; [exact E1|]. split.
  - cbn [_merge_schemas]. rewrite H1, H2. unfold opt_eq.
    cbn [of_opt truthy_opt]. rewrite (py_eq_str_neq_r _ _ Hne), Ht.
    reflexivity.
  - rewrite E1. intros [= E]. destruct d2 as [|[k v] d2]; [discriminate|].
    cbn [dict_set] in E.
    destruct (String.eqb "nullable" k) eqn:Ek.
    + injection E as Ek' _. subst k. discriminate.
    + injection E as _ _ E. destruct d2 as [|[k' v'] d2]; [discriminate|].
      cbn [dict_set] in E. by destruct (String.eqb "nullable" k').
Qed.

(** The theorem at the schemas of [None] and of a string. *)
Lemma merge_null_with_typed_is_anyOf_witness :
  dict_get "type" Scenarios.null_schema = Some (PStr "null") /\
  dict_get "type" Scenarios.string_schema = Some (PStr "string") /\
  truthy (PStr "string") = true /\
  _merge_schemas 1 (PDict Scenarios.null_schema)
    (PDict Scenarios.string_schema)
    = Ok (PDict [("anyOf", PList [PDict Scenarios.null_schema;
                                  PDict Scenarios.string_schema])]) /\
  _merge_schemas 1 (PDict Scenarios.string_schema)
    (PDict Scenarios.null_schema)
    = Ok (PDict [("anyOf", PList [PDict Scenarios.string_schema;
                                  PDict Scenarios.null_schema])]) /\
  _merge_schemas 1 (PDict Scenarios.null_schema)
    (PDict Scenarios.string_schema)
    <> Ok (PDict (dict_set "nullable" (PBool true) Scenarios.string_schema)).
Proof.
  split; [reflexivity|]. split; [reflexivity|]. split; [reflexivity|].
  apply (merge_null_with_typed_is_anyOf 0 Scenarios.null_schema
           Scenarios.string_schema (PStr "string")).
  - reflexivity.
  - reflexivity.
  - reflexivity.
  - discriminate.
Defined.

(** What the claim expects at the same input, and what the code returns. *)
Example merge_null_string_evaluated :
  _merge_schemas 1 (PDict Scenarios.null_schema)
    (PDict Scenarios.string_schema)
    = Ok (PDict [("anyOf", PList [PDict [("type", PStr "null")];
                                  PDict [("type", PStr "string")]])]) /\
  dict_set "nullable" (PBool true) Scenarios.string_schema
    = [("type", PStr "string"); ("nullable", PBool true)].
Proof. split; reflexivity. Qed.

End NullMerge.

(** ** The request of an [auth_variation] probe (C7) *)

Section AuthVariation.
Import VerifierAgent.
Variable origin_of : string -> string.

(** Whatever the probe, the call is made with the stored cookies. *)
Lemma sent_request_cookies (self : VerifierAgent.t) (probe : dict)
    (state : AgentState.t) (call : http_call) :
  sent_request origin_of self probe state = Ok (Some call) ->
  call_cookies call = cookies self /\
  exists r, _build_probe_request origin_of self probe state = Ok (Some r) /\
            call_headers call = req_headers r.
Proof.
  unfold sent_request.
  destruct (_build_probe_request origin_of self probe state) as [[r|]|e];
    cbn; intros [= <-]; eauto.
Qed.

(** The header filter of the [auth_variation] branch. *)
Lemma auth_variation_headers (self : VerifierAgent.t) (probe : dict)
    (state : AgentState.t) (r : request) :
  is_probe (get_or "probe_type" (PStr "") probe) ProbeType.AUTH_VARIATION
    = true ->
  _build_probe_request origin_of self probe state = Ok (Some r) ->
  forall k v, In (k, v) (req_headers r) ->
    lower k <> "authorization" /\ lower k <> "cookie".
Proof.
  intros Hp. unfold _build_probe_request.
  destruct (List.find _ _) as [[|kv h]|]; try discriminate.
  destruct (String.eqb _ ""); [discriminate|].
  destruct (get_or "endpoint_pattern" _ _); try discriminate.
  destruct (is_write_method _);
    [destruct (_generate_test_body _); [|discriminate]|];
    cbn [mbind result_bind Py.bind]; rewrite Hp;
    intros [= <-] k v Hin; cbn [req_headers] in Hin;
    apply filter_In in Hin as [_ Hf]; cbn in Hf;
    apply negb_true_iff, orb_false_iff in Hf as [Ha Hc];
    apply orb_false_iff in Hc as [Hc _];
    apply String.eqb_neq in Ha, Hc; split; congruence.
Qed.

(** C7: for an [auth_variation] probe the request that is sent has no
    [Authorization] and no [Cookie] header, but it is sent with the
    verifier's stored cookies: [_execute_probe] passes [self.cookies] to the
    HTTP client for every probe type, and only the header dictionary is
    filtered. *)
Theorem auth_variation_sends_stored_cookies (self : VerifierAgent.t)
    (probe : dict) (state : AgentState.t) (call : http_call) :
  is_probe (get_or "probe_type" (PStr "") probe) ProbeType.AUTH_VARIATION
    = true ->
  sent_request origin_of self probe state = Ok (Some call) ->
  call_cookies call = cookies self /\
  forall k v, In (k, v) (call_headers call) ->
    lower k <> "authorization" /\ lower k <> "cookie".
Proof.
  intros Hp Hs.
  destruct (sent_request_cookies self probe state call Hs)
    as (Hc & r & Hr & Hh).
  split; [exact Hc|]. rewrite Hh.
  by apply (auth_variation_headers self probe state r).
Qed.

End AuthVariation.

(** The theorem at a verifier that holds a session cookie: the cookie goes
    out with the probe. *)
Lemma auth_variation_sends_stored_cookies_witness :
  VerifierAgent.is_probe (get_or "probe_type" (PStr "") Scenarios.auth_probe)
    ProbeType.AUTH_VARIATION = true /\
  VerifierAgent.sent_request Scenarios.shop_origin
    Scenarios.logged_in_verifier Scenarios.auth_probe Scenarios.probing_state
    = Ok (Some Scenarios.auth_probe_call) /\
  VerifierAgent.call_cookies Scenarios.auth_probe_call
    = [("session", "abc123")] /\
  VerifierAgent.call_cookies Scenarios.auth_probe_call
    = VerifierAgent.cookies Scenarios.logged_in_verifier /\
  forall k v,
    In (k, v) (VerifierAgent.call_headers Scenarios.auth_probe_call) ->
    lower k <> "authorization" /\ lower k <> "cookie".
Proof.
  split; [reflexivity|]. split; [reflexivity|]. split; [reflexivity|].
  apply (auth_variation_sends_stored_cookies Scenarios.shop_origin
           Scenarios.logged_in_verifier Scenarios.auth_probe
           Scenarios.probing_state Scenarios.auth_probe_call).
  - reflexivity.
  - reflexivity.
Defined.

(** ** Transitions and the state table (C8) *)

Section Transitions.
Import FSMStore.

(** No operation of the store changes the connection's [foreign_keys]
    setting, so it stays off from [initialize] on. *)
Lemma create_session_foreign_keys (self self' : FSMStore.t) (sid : string) :
  create_session self sid = Ok self' -> foreign_keys self' = foreign_keys self.
Proof.
  unfold create_session. case_bool_decide; [discriminate|].
  by intros [= <-].
Qed.

Lemma add_state_foreign_keys (self : FSMStore.t)
    (state_hash sid url title : string) :
  foreign_keys (add_state self state_hash sid url title).1 = foreign_keys self.
Proof. unfold add_state. by destruct (_ && _). Qed.

Lemma add_transition_foreign_keys (self self' : FSMStore.t)
    (sid from to atype target : string) (apis : option (list string))
    (ok : bool) (rowid : Z) :
  add_transition self sid from to atype target apis ok = Ok (self', rowid) ->
  foreign_keys self' = foreign_keys self.
Proof.
  unfold add_transition. destruct (_ || _); [|discriminate].
  by intros [= <- _].
Qed.

(** Had the connection switched foreign keys on, the [REFERENCES] clauses of
    the schema would refuse a transition between unknown states. *)
Lemma add_transition_checked_when_foreign_keys_on (self self' : FSMStore.t)
    (sid from to atype target : string) (apis : option (list string))
    (ok : bool) (rowid : Z) :
  foreign_keys self = true ->
  add_transition self sid from to atype target apis ok = Ok (self', rowid) ->
  is_Some (page_states self !! from) /\ is_Some (page_states self !! to).
Proof.
  intros Hfk. unfold add_transition. rewrite Hfk. cbn [negb orb].
  destruct (bool_decide (sid ∈ sessions self)); [|discriminate].
  cbn [andb].
  case_bool_decide; [|discriminate].
  case_bool_decide; [|discriminate].
  auto.
Qed.

(** C8: on the connection that [initialize] opens, [add_transition] is a
    plain insert. It makes no lookup in the state table: the row is stored
    under the next id with the given [from] and [to] hashes, whether or not
    they name known states, and the state table is left as it was. *)
Theorem add_transition_stores_unchecked (self : FSMStore.t)
    (sid from to atype target : string) (apis : option (list string))
    (ok : bool) :
  foreign_keys self = false ->
  exists self' row,
    add_transition self sid from to atype target apis ok
      = Ok (self', tr_id row) /\
    transitions self' = (transitions self ++ [row])%list /\
    from_state_hash row = from /\ to_state_hash row = to /\
    tr_id row = (last_transition_id self + 1)%Z /\
    page_states self' = page_states self.
Proof.
  intros Hfk. unfold add_transition. rewrite Hfk. cbn [negb orb].
  eexists _, (mk_transition _ _ _ _ _ _ _ _).
  split; [reflexivity|]. cbn. repeat split; reflexivity.
Qed.

(** The theorem at a new store, between two hashes that name no state. *)
Lemma add_transition_stores_unchecked_witness :
  foreign_keys initialize = false /\
  page_states initialize !! "state-a" = None /\
  page_states initialize !! "state-b" = None /\
  exists self' row,
    add_transition initialize "session-1" "state-a" "state-b" "click" "7"
      (Some []) true = Ok (self', tr_id row) /\
    transitions self' = (transitions initialize ++ [row])%list /\
    from_state_hash row = "state-a" /\ to_state_hash row = "state-b" /\
    tr_id row = (last_transition_id initialize + 1)%Z /\
    page_states self' = page_states initialize.
Proof.
  split; [reflexivity|]. split; [reflexivity|]. split; [reflexivity|].
  apply (add_transition_stores_unchecked initialize "session-1" "state-a"
           "state-b" "click" "7" (Some []) true).
  reflexivity.
Defined.

(** The same call, evaluated. *)
Example add_transition_unknown_states_evaluated :
  add_transition initialize "session-1" "state-a" "state-b" "click" "7"
    (Some []) true
  = Ok (mk false ∅ ∅
          [mk_transition 1 "session-1" "state-a" "state-b" "click" "7"
             None true] 1,
        1%Z).
Proof. reflexivity. Qed.

End Transitions.

(** ** The critic's fallback review (C9) *)

Section Fallback.
Local Open Scope Q_scope.
Import CriticAgent.
Variable py_str : pyval -> string.

(** C9 (amended): the fallback review recommends the minimum of the
    hypothesis's current confidence and a cap taken from the evidence count
    (at most 1 observation: 0.3, at most 3: 0.5, more: 0.7), so it equals the
    cap only when the current confidence is not below it; and it attaches
    exactly two generic alternative explanations. *)
Theorem fallback_review_recommendation (hypothesis : dict) (n : nat) (c : Q) :
  py_len (get_or "supporting_evidence" (PList []) hypothesis) = Ok n ->
  num_of (get_or "confidence" (PFloat 0.5) hypothesis) = Some c ->
  exists evaluation recommended,
    _fallback_evaluation py_str hypothesis = Ok evaluation /\
    dict_get "recommended_confidence" evaluation = Some recommended /\
    num_of recommended = Some (py_min c (Spec.fallback_confidence n)) /\
    (Spec.fallback_confidence n <= c ->
     py_min c (Spec.fallback_confidence n) == Spec.fallback_confidence n) /\
    (c < Spec.fallback_confidence n ->
     py_min c (Spec.fallback_confidence n) = c) /\
    dict_get "alternative_explanations" evaluation =
      Some (PList [PStr "Evidence may be coincidental";
                   PStr "Observed behavior may be context-dependent"]).
Proof.
  intros Hn Hc.
  assert (Hmin : forall cap : Q,
    exists r, num_min (get_or "confidence" (PFloat 0.5) hypothesis)
                (PFloat cap) = Ok r /\
              num_of r = Some (py_min c cap)).
  { intros cap. unfold num_min, py_min. rewrite Hc. cbn [num_of].
    destruct (Qltb cap c); eexists; split; try reflexivity. exact Hc. }
  unfold _fallback_evaluation. rewrite Hn.
  cbn [mbind result_bind Py.bind]. unfold Spec.fallback_confidence.
  destruct (n <=? 1)%nat; [|destruct (n <=? 3)%nat].
  - destruct (Hmin 0.3) as (r & -> & Hr).
    cbn [mbind result_bind Py.bind].
    eexists _, r. split; [reflexivity|]. split; [reflexivity|].
    split; [exact Hr|].
    destruct (py_min_spec c 0.3) as [[H ->]|[H ->]];
      repeat split; intros; try reflexivity; lra.
  - destruct (Hmin 0.5) as (r & -> & Hr).
    cbn [mbind result_bind Py.bind].
    eexists _, r. split; [reflexivity|]. split; [reflexivity|].
    split; [exact Hr|].
    destruct (py_min_spec c 0.5) as [[H ->]|[H ->]];
      repeat split; intros; try reflexivity; lra.
  - destruct (Hmin 0.7) as (r & -> & Hr).
    cbn [mbind result_bind Py.bind].
    eexists _, r. split; [reflexivity|]. split; [reflexivity|].
    split; [exact Hr|].
    destruct (py_min_spec c 0.7) as [[H ->]|[H ->]];
      repeat split; intros; try reflexivity; lra.
Qed.

(** Without a provider, or when its call fails, the review is the fallback
    one, completed by [_evaluate_hypothesis]. *)
Lemma evaluate_without_provider (chars : string -> list string)
    (json_dumps : option nat -> pyval -> string) (dict_slice_error : exn)
    (hypothesis : dict) (e : exn) :
  _evaluate_hypothesis py_str chars json_dumps dict_slice_error
    (Some (fun _ => Raise e)) hypothesis
    = _evaluate_hypothesis py_str chars json_dumps dict_slice_error
        None hypothesis.
Proof. reflexivity. Qed.

End Fallback.

(** C9, as stated, fails: a hypothesis with one supporting observation and
    confidence 0.2 gets the recommendation 0.2, not 0.3, from the fallback
    review, also after the completion by [_evaluate_hypothesis]. *)
Lemma fallback_recommends_current_confidence :
  (exists evaluation,
     CriticAgent._fallback_evaluation Scenarios.plain_str
       Scenarios.single_observation_hypothesis = Ok evaluation /\
     dict_get "recommended_confidence" evaluation = Some (PFloat 0.2)) /\
  (forall chars json_dumps dict_slice_error,
   exists evaluation,
     CriticAgent._evaluate_hypothesis Scenarios.plain_str
       chars json_dumps dict_slice_error None
       Scenarios.single_observation_hypothesis = Ok evaluation /\
     dict_get "recommended_confidence" evaluation = Some (PFloat 0.2)) /\
  CriticAgent.py_len
    (get_or "supporting_evidence" (PList [])
       Scenarios.single_observation_hypothesis) = Ok 1%nat /\
  Spec.fallback_confidence 1 = 0.3%Q /\
  ~ (0.2 == 0.3)%Q.
Proof.
  split; [eexists; split; reflexivity|].
  split; [intros chars json_dumps dict_slice_error;
          eexists; split; reflexivity|].
  split; [reflexivity|]. split; [reflexivity|].
  intros H. vm_compute in H. discriminate H.
Qed.

(** The theorem at the single-observation hypothesis of confidence 0.2. *)
Lemma fallback_review_recommendation_witness :
  CriticAgent.py_len
    (get_or "supporting_evidence" (PList [])
       Scenarios.single_observation_hypothesis) = Ok 1%nat /\
  num_of (get_or "confidence" (PFloat 0.5)
            Scenarios.single_observation_hypothesis) = Some 0.2%Q /\
  exists evaluation recommended,
    CriticAgent._fallback_evaluation Scenarios.plain_str
      Scenarios.single_observation_hypothesis = Ok evaluation /\
    dict_get "recommended_confidence" evaluation = Some recommended /\
    num_of recommended = Some (py_min 0.2 (Spec.fallback_confidence 1)) /\
    ((Spec.fallback_confidence 1 <= 0.2)%Q ->
     (py_min 0.2 (Spec.fallback_confidence 1)
        == Spec.fallback_confidence 1)%Q) /\
    ((0.2 < Spec.fallback_confidence 1)%Q ->
     py_min 0.2 (Spec.fallback_confidence 1) = 0.2%Q) /\
    dict_get "alternative_explanations" evaluation =
      Some (PList [PStr "Evidence may be coincidental";
                   PStr "Observed behavior may be context-dependent"]).
Proof.
  split; [reflexivity|]. split; [reflexivity|].
  apply (fallback_review_recommendation Scenarios.plain_str
           Scenarios.single_observation_hypothesis 1 0.2%Q).
  - reflexivity.
  - reflexivity.
Defined.

(** ** The confidence rules of the calculator and the store *)

Section ConfidenceRules.
Local Open Scope Q_scope.
Import ConfidenceCalculator HypothesisStore.

Lemma py_max_mono (a x y : Q) : x <= y -> py_max a x <= py_max a y.
Proof.
  intros H.
  destruct (py_max_spec a x) as [[? ->]|[? ->]];
    destruct (py_max_spec a y) as [[? ->]|[? ->]]; lra.
Qed.

Lemma py_min_mono (a x y : Q) : x <= y -> py_min a x <= py_min a y.
Proof.
  intros H.
  destruct (py_min_spec a x) as [[? ->]|[? ->]];
    destruct (py_min_spec a y) as [[? ->]|[? ->]]; lra.
Qed.

(** X1. The initial confidence is always between 0.1 and 1, whatever the
    three counts; and from one observation on it does not decrease with
    more evidence, and it does not increase with more competing
    explanations or untested assumptions. *)
Theorem initial_confidence_monotone (e e' c c' u u' : Z) :
  (0.1 <= initial_confidence e c u /\ initial_confidence e c u <= 1) /\
  ((1 <= e <= e')%Z -> (c' <= c)%Z -> (u' <= u)%Z ->
   initial_confidence e c u <= initial_confidence e' c' u').
Proof.
  split; [apply initial_confidence_bounds|].
  intros He Hc Hu.
  unfold initial_confidence.
  apply py_max_mono, py_min_mono.
  rewrite Zle_Qle in Hc, Hu.
  destruct (e =? 1)%Z eqn:E1, (e' =? 1)%Z eqn:E1',
           (e =? 2)%Z eqn:E2, (e' =? 2)%Z eqn:E2',
           (e <=? 5)%Z eqn:E5, (e' <=? 5)%Z eqn:E5';
    try lra; exfalso; lia.
Qed.

(** The theorem at one observation with a competing explanation against two
    observations without, and its bounds at counts of no real hypothesis. *)
Lemma initial_confidence_monotone_witness :
  ((1 <= 1 <= 2)%Z /\ (0 <= 1)%Z /\ (0 <= 0)%Z) /\
  (0.1 <= initial_confidence 1 1 0 /\ initial_confidence 1 1 0 <= 1) /\
  initial_confidence 1 1 0 <= initial_confidence 2 0 0 /\
  (0.1 <= initial_confidence (-3) 40 7 /\
   initial_confidence (-3) 40 7 <= 1).
Proof.
  split; [lia|].
  destruct (initial_confidence_monotone 1 2 1 0 0 0) as [Hb Hm].
  split; [exact Hb|]. split; [apply Hm; lia|].
  apply (initial_confidence_monotone (-3) (-3) 40 40 7 7).
Defined.

(** X2. With no observation at all the rule falls into its "up to five"
    branch: an evidence count of zero (or below) scores like five
    observations, never below the score of a single observation. *)
Theorem initial_confidence_without_evidence (e c u : Z) :
  (e <= 0)%Z ->
  initial_confidence e c u = initial_confidence 5 c u /\
  initial_confidence 1 c u <= initial_confidence e c u.
Proof.
  intros He.
  assert (E : initial_confidence e c u = initial_confidence 5 c u).
  { unfold initial_confidence.
    destruct (e =? 1)%Z eqn:E1; [exfalso; lia|].
    destruct (e =? 2)%Z eqn:E2; [exfalso; lia|].
    destruct (e <=? 5)%Z eqn:E5; [reflexivity|exfalso; lia]. }
  split; [exact E|]. rewrite E.
  unfold initial_confidence. apply py_max_mono, py_min_mono.
  cbn [Z.eqb Z.leb Z.compare Pos.compare Pos.compare_cont Pos.eqb]. lra.
Qed.

Lemma initial_confidence_without_evidence_witness :
  initial_confidence 0 0 0 = initial_confidence 5 0 0 /\
  initial_confidence 1 0 0 <= initial_confidence 0 0 0.
Proof. apply initial_confidence_without_evidence; lia. Defined.

(** X3. [add_evidence] on a stored hypothesis appends the evidence, never
    lowers the confidence, leaves it at 0.1 or more (and at most 1 when it
    was), keeps the status and logs one [evidence_added] event. *)
Theorem add_evidence_raises_confidence
    (self : gmap string Hypothesis_.t) (hid : string) (h : Hypothesis_.t)
    (evidence : EvidenceRef.t) (agent : string) :
  self !! hid = Some h ->
  exists h',
    add_evidence self hid evidence agent = (<[hid := h']> self, Some h') /\
    Hypothesis_.supporting_evidence h' =
      (Hypothesis_.supporting_evidence h ++ [evidence])%list /\
    Hypothesis_.confidence h <= Hypothesis_.confidence h' /\
    0.1 <= Hypothesis_.confidence h' /\
    (Hypothesis_.confidence h <= 1 -> Hypothesis_.confidence h' <= 1) /\
    Hypothesis_.status h' = Hypothesis_.status h /\
    Hypothesis_.confidence_history h' =
      (Hypothesis_.confidence_history h ++
       [ConfidenceEvent.mk ConfidenceEventType.EVIDENCE_ADDED
          (Hypothesis_.confidence h) (Hypothesis_.confidence h')
          ("Added evidence: " +:+ EvidenceRef.summary evidence) agent])%list.
Proof.
  intros Hget. exists (evidence_update h evidence agent).
  unfold add_evidence. rewrite Hget.
  split; [reflexivity|]. split; [reflexivity|].
  cbn [evidence_update Hypothesis_.confidence Hypothesis_.status
       Hypothesis_.confidence_history].
  set (ic := initial_confidence _ _ _).
  assert (Hic : 0.1 <= ic /\ ic <= 1) by apply initial_confidence_bounds.
  destruct (py_max_spec (Hypothesis_.confidence h) ic) as [[Hlt ->]|[Hle ->]];
    repeat split; try reflexivity; lra.
Qed.

Lemma add_evidence_raises_confidence_witness :
  exists h',
    add_evidence Scenarios.users_store "id-1" (EvidenceRef.mk "o-2" "again" "weak")
      "analyst" = (<["id-1" := h']> Scenarios.users_store, Some h') /\
    Hypothesis_.supporting_evidence h' =
      (Hypothesis_.supporting_evidence (Scenarios.users_hypothesis "id-1") ++
       [EvidenceRef.mk "o-2" "again" "weak"])%list /\
    Hypothesis_.confidence (Scenarios.users_hypothesis "id-1") <= Hypothesis_.confidence h' /\
    0.1 <= Hypothesis_.confidence h' /\
    (Hypothesis_.confidence (Scenarios.users_hypothesis "id-1") <= 1 ->
     Hypothesis_.confidence h' <= 1) /\
    Hypothesis_.status h' = Hypothesis_.status (Scenarios.users_hypothesis "id-1") /\
    Hypothesis_.confidence_history h' =
      (Hypothesis_.confidence_history (Scenarios.users_hypothesis "id-1") ++
       [ConfidenceEvent.mk ConfidenceEventType.EVIDENCE_ADDED
          (Hypothesis_.confidence (Scenarios.users_hypothesis "id-1"))
          (Hypothesis_.confidence h')
          ("Added evidence: " +:+
           EvidenceRef.summary (EvidenceRef.mk "o-2" "again" "weak"))
          "analyst"])%list.
Proof.
  apply (add_evidence_raises_confidence Scenarios.users_store "id-1"
           (Scenarios.users_hypothesis "id-1")).
  reflexivity.
Defined.

End ConfidenceRules.

(** ** A stored hypothesis under sequences of store operations *)

Section StoreTraces.
Local Open Scope Q_scope.
Import ConfidenceCalculator HypothesisStore.

Lemma apply_mutation_found
    (self : gmap string Hypothesis_.t) (hid : string) (h : Hypothesis_.t)
    (m : mutation) :
  self !! hid = Some h ->
  apply_mutation self hid m = (<[hid := mutate h m]> self, Some (mutate h m)).
Proof.
  intros H. destruct m; cbn [apply_mutation mutate];
    unfold add_evidence, apply_critic_evaluation, apply_probe_result,
      update_status; rewrite H; reflexivity.
Qed.

Lemma apply_mutations_found (ms : list mutation) :
  forall (self : gmap string Hypothesis_.t) (hid : string) (h : Hypothesis_.t),
    self !! hid = Some h ->
    apply_mutations self hid ms !! hid = Some (fold_left mutate ms h) /\
    forall j, j <> hid -> apply_mutations self hid ms !! j = self !! j.
Proof.
  induction ms as [|m ms IH]; intros self hid h H.
  - split; [exact H|reflexivity].
  - unfold apply_mutations. cbn [fold_left].
    rewrite (apply_mutation_found self hid h m H). cbn [fst].
    destruct (IH (<[hid := mutate h m]> self) hid (mutate h m)) as [IH1 IH2];
      [apply lookup_insert_eq|].
    split; [exact IH1|].
    intros j Hj. unfold apply_mutations in IH2. rewrite (IH2 j Hj).
    apply lookup_insert_ne. congruence.
Qed.

Lemma apply_mutations_missing (ms : list mutation) :
  forall (self : gmap string Hypothesis_.t) (hid : string),
    self !! hid = None -> apply_mutations self hid ms = self.
Proof.
  induction ms as [|m ms IH]; intros self hid H; [reflexivity|].
  unfold apply_mutations. cbn [fold_left].
  assert (E : apply_mutation self hid m = (self, None)).
  { destruct m; cbn [apply_mutation];
      unfold add_evidence, apply_critic_evaluation, apply_probe_result,
        update_status; rewrite H; reflexivity. }
  rewrite E. cbn [fst]. apply (IH self hid H).
Qed.

Lemma create_inv (self : gmap string Hypothesis_.t) (uuid : string)
    (type : HypothesisType.t + string) (description created_by : string)
    (evidence : option (list EvidenceRef.t)) (kw : kwargs)
    (s0 : gmap string Hypothesis_.t) (h0 : Hypothesis_.t) :
  create self uuid type description created_by evidence kw = Ok (s0, h0) ->
  s0 = <[uuid := h0]> self /\
  Hypothesis_.id h0 = uuid /\
  Hypothesis_.confidence h0 = created_confidence evidence kw /\
  (exists reason,
     Hypothesis_.confidence_history h0 =
       [ConfidenceEvent.mk ConfidenceEventType.INITIAL_INFERENCE
          0.0 (created_confidence evidence kw) reason created_by]) /\
  Hypothesis_.revision h0 = 1%Z /\
  Hypothesis_.created_by h0 = created_by /\
  Hypothesis_.endpoint_pattern h0 = kw_endpoint_pattern kw /\
  Hypothesis_.method h0 = kw_method kw /\
  Hypothesis_.confidence_in_bounds (Hypothesis_.confidence h0) = true.
Proof.
  unfold create.
  destruct (resolve_type type) as [ty|]; [|discriminate].
  destruct (resolve_status (kw_status kw)) as [st|]; [|discriminate].
  cbn [mbind result_bind Py.bind]. unfold new_hypothesis.
  destruct (negb (schemas_are_dicts kw)); [discriminate|].
  destruct (negb (Hypothesis_.confidence_in_bounds
                    (created_confidence evidence kw))) eqn:E; [discriminate|].
  cbn [mbind result_bind Py.bind Hypothesis_.id].
  intros [= <- <-]. cbn.
  apply negb_false_iff in E.
  repeat split; try reflexivity; try assumption.
  eexists. reflexivity.
Qed.

Lemma linked_from_snoc (hist : list ConfidenceEvent.t) :
  forall (c : Q) (e : ConfidenceEvent.t),
    linked_from c hist ->
    ConfidenceEvent.old_confidence e = last_new c hist ->
    linked_from c (hist ++ [e]).
Proof.
  induction hist as [|e0 hist IH]; intros c e Hl He; cbn in *.
  - split; [exact He|exact I].
  - destruct Hl as [H0 Hl]. split; [exact H0|]. apply IH; assumption.
Qed.

Lemma last_new_snoc (c : Q) (hist : list ConfidenceEvent.t)
    (e : ConfidenceEvent.t) :
  last_new c (hist ++ [e]) = ConfidenceEvent.new_confidence e.
Proof. unfold last_new. rewrite fold_left_app. reflexivity. Qed.

Lemma mutate_audit (h : Hypothesis_.t) (m : mutation) :
  audit_trail_ok h -> audit_trail_ok (mutate h m).
Proof.
  intros [Hl Hc]. destruct m;
    cbn [mutate evidence_update critic_update probe_update status_update];
    unfold audit_trail_ok;
    cbn [Hypothesis_.confidence Hypothesis_.confidence_history];
    try (split; assumption);
    (split; [apply linked_from_snoc; [exact Hl|symmetry; exact Hc]
            |apply last_new_snoc]).
Qed.

Lemma mutate_fields (h : Hypothesis_.t) (m : mutation) :
  Hypothesis_.revision (mutate h m) = (Hypothesis_.revision h + 1)%Z /\
  length (Hypothesis_.confidence_history (mutate h m)) =
    (length (Hypothesis_.confidence_history h) +
     (if logs_event m then 1 else 0))%nat /\
  Hypothesis_.id (mutate h m) = Hypothesis_.id h /\
  Hypothesis_.created_by (mutate h m) = Hypothesis_.created_by h.
Proof.
  destruct m; cbn; rewrite ?length_app; cbn; repeat split; lia.
Qed.

Lemma fold_mutate_fields (ms : list mutation) :
  forall h : Hypothesis_.t,
    audit_trail_ok h ->
    audit_trail_ok (fold_left mutate ms h) /\
    Hypothesis_.revision (fold_left mutate ms h) =
      (Hypothesis_.revision h + Z.of_nat (length ms))%Z /\
    length (Hypothesis_.confidence_history (fold_left mutate ms h)) =
      (length (Hypothesis_.confidence_history h) +
       length (List.filter logs_event ms))%nat /\
    Hypothesis_.id (fold_left mutate ms h) = Hypothesis_.id h /\
    Hypothesis_.created_by (fold_left mutate ms h) = Hypothesis_.created_by h.
Proof.
  induction ms as [|m ms IH]; intros h Ha.
  - cbn. repeat split; try apply Ha; lia.
  - cbn [fold_left List.filter].
    destruct (IH (mutate h m) (mutate_audit h m Ha)) as (A & R & L & I & C).
    destruct (mutate_fields h m) as (R' & L' & I' & C').
    split; [exact A|].
    rewrite R, L, I, C, R', L', I', C'.
    repeat split; [cbn [length]; lia|].
    destruct (logs_event m); cbn [length]; lia.
Qed.

Lemma mutate_in_range (h : Hypothesis_.t) (m : mutation) :
  recommends_in_range m ->
  0 <= Hypothesis_.confidence h <= 1 ->
  0 <= Hypothesis_.confidence (mutate h m) <= 1.
Proof.
  intros Hm [H0 H1]. destruct m as [ev ag|ev|r|st ag];
    cbn [mutate evidence_update critic_update probe_update status_update
         Hypothesis_.confidence].
  - set (ic := initial_confidence _ _ _).
    assert (Hic : 0.1 <= ic /\ ic <= 1) by apply initial_confidence_bounds.
    destruct (py_max_spec (Hypothesis_.confidence h) ic) as [[? ->]|[? ->]];
      lra.
  - unfold apply_critic_review. cbn [recommends_in_range] in Hm.
    destruct (CriticEvaluation.verdict ev).
    + destruct (py_min_spec 1.0 (Hypothesis_.confidence h * 1.1))
        as [[? ->]|[? ->]]; lra.
    + specialize (Hm eq_refl).
      destruct (py_min_spec (Hypothesis_.confidence h)
                  (CriticEvaluation.recommended_confidence ev))
        as [[? ->]|[? ->]]; lra.
    + lra.
  - unfold ConfidenceCalculator.apply_probe_result.
    destruct (ProbeResult.outcome r); lra.
  - lra.
Qed.

Lemma fold_mutate_in_range (ms : list mutation) :
  forall h : Hypothesis_.t,
    Forall recommends_in_range ms ->
    0 <= Hypothesis_.confidence h <= 1 ->
    0 <= Hypothesis_.confidence (fold_left mutate ms h) <= 1.
Proof.
  induction ms as [|m ms IH]; intros h Hms Hh; [exact Hh|].
  cbn [fold_left]. apply Forall_cons in Hms as [Hm Hms].
  apply IH; [exact Hms|]. apply mutate_in_range; assumption.
Qed.

(** X4. After [create], any sequence of [add_evidence],
    [apply_critic_evaluation], [apply_probe_result] and [update_status] on
    the new id leaves a hypothesis whose history is a chain of events from
    0.0 to its current confidence; every operation has bumped the revision
    by one and every operation but [update_status] has logged one event. *)
Theorem audit_trail_maintained
    (self : gmap string Hypothesis_.t) (uuid : string)
    (type : HypothesisType.t + string) (description created_by : string)
    (evidence : option (list EvidenceRef.t)) (kw : kwargs)
    (s0 : gmap string Hypothesis_.t) (h0 : Hypothesis_.t)
    (ms : list mutation) :
  create self uuid type description created_by evidence kw = Ok (s0, h0) ->
  exists h,
    apply_mutations s0 uuid ms !! uuid = Some h /\
    audit_trail_ok h /\
    Hypothesis_.revision h = (1 + Z.of_nat (length ms))%Z /\
    length (Hypothesis_.confidence_history h) =
      S (length (List.filter logs_event ms)) /\
    Hypothesis_.id h = uuid /\
    Hypothesis_.created_by h = created_by.
Proof.
  intros Hc.
  destruct (create_inv _ _ _ _ _ _ _ _ _ Hc)
    as (-> & Hid & Hconf & [reason Hhist] & Hrev & Hby & _).
  destruct (apply_mutations_found ms (<[uuid := h0]> self) uuid h0) as [Hl _];
    [apply lookup_insert_eq|].
  assert (Ha : audit_trail_ok h0).
  { unfold audit_trail_ok. rewrite Hhist, Hconf. cbn. auto. }
  destruct (fold_mutate_fields ms h0 Ha) as (A & R & L & I & C).
  exists (fold_left mutate ms h0).
  split; [exact Hl|]. split; [exact A|].
  rewrite R, L, I, C, Hrev, Hhist, Hid, Hby. cbn [length].
  repeat split; lia.
Qed.

Lemma audit_trail_maintained_witness :
  exists h,
    apply_mutations Scenarios.users_store "id-1" Scenarios.users_history
      !! "id-1" = Some h /\
    audit_trail_ok h /\
    Hypothesis_.revision h =
      (1 + Z.of_nat (length Scenarios.users_history))%Z /\
    length (Hypothesis_.confidence_history h) =
      S (length (List.filter logs_event Scenarios.users_history)) /\
    Hypothesis_.id h = "id-1" /\
    Hypothesis_.created_by h = "analyst".
Proof.
  apply (audit_trail_maintained ∅ "id-1" (inl HypothesisType.ENDPOINT_SCHEMA)
           "API endpoint discovered: GET /api/users/{id}" "analyst" None
           Scenarios.users_endpoint Scenarios.users_store
           (Scenarios.users_hypothesis "id-1")).
  reflexivity.
Defined.

(** X5. After [create], the confidence of the hypothesis stays between 0
    and 1 under any sequence of store operations in which no [challenge]
    review recommends a negative confidence. *)
Theorem confidence_stays_in_range
    (self : gmap string Hypothesis_.t) (uuid : string)
    (type : HypothesisType.t + string) (description created_by : string)
    (evidence : option (list EvidenceRef.t)) (kw : kwargs)
    (s0 : gmap string Hypothesis_.t) (h0 : Hypothesis_.t)
    (ms : list mutation) :
  create self uuid type description created_by evidence kw = Ok (s0, h0) ->
  Forall recommends_in_range ms ->
  exists h,
    apply_mutations s0 uuid ms !! uuid = Some h /\
    0 <= Hypothesis_.confidence h <= 1.
Proof.
  intros Hc Hms.
  destruct (create_inv _ _ _ _ _ _ _ _ _ Hc) as (-> & _ & _ & _ & _ & _ & _ & _ & Hb).
  destruct (apply_mutations_found ms (<[uuid := h0]> self) uuid h0) as [Hl _];
    [apply lookup_insert_eq|].
  exists (fold_left mutate ms h0). split; [exact Hl|].
  apply fold_mutate_in_range; [exact Hms|].
  unfold Hypothesis_.confidence_in_bounds in Hb.
  apply andb_true_iff in Hb as [Hb0 Hb1].
  apply Qle_bool_iff in Hb0, Hb1. split; assumption.
Qed.

Lemma confidence_stays_in_range_witness :
  exists h,
    apply_mutations Scenarios.users_store "id-1" Scenarios.users_history
      !! "id-1" = Some h /\
    0 <= Hypothesis_.confidence h <= 1.
Proof.
  apply (confidence_stays_in_range ∅ "id-1"
           (inl HypothesisType.ENDPOINT_SCHEMA)
           "API endpoint discovered: GET /api/users/{id}" "analyst" None
           Scenarios.users_endpoint Scenarios.users_store
           (Scenarios.users_hypothesis "id-1")).
  - reflexivity.
  - unfold Scenarios.users_history.
    repeat (apply Forall_cons; split); try apply Forall_nil;
      cbn; try exact I; discriminate.
Defined.

(** X6. The store does not re-check the bounds of [confidence]: a
    [challenge] review that recommends a negative value is written through,
    and the hypothesis is marked as needing revision. *)
Theorem challenge_below_zero_is_stored
    (self : gmap string Hypothesis_.t) (hid : string) (h : Hypothesis_.t)
    (evaluation : CriticEvaluation.t) :
  self !! hid = Some h ->
  CriticEvaluation.verdict evaluation = CriticVerdict.CHALLENGE ->
  0 <= Hypothesis_.confidence h ->
  CriticEvaluation.recommended_confidence evaluation < 0 ->
  exists h',
    apply_critic_evaluation self hid evaluation
      = (<[hid := h']> self, Some h') /\
    Hypothesis_.confidence h' =
      CriticEvaluation.recommended_confidence evaluation /\
    Hypothesis_.confidence_in_bounds (Hypothesis_.confidence h') = false /\
    Hypothesis_.status h' = HypothesisStatus.NEEDS_REVISION.
Proof.
  intros Hget Hv H0 Hr.
  exists (critic_update h evaluation).
  unfold apply_critic_evaluation. rewrite Hget.
  split; [reflexivity|].
  cbn [critic_update Hypothesis_.confidence Hypothesis_.status].
  unfold apply_critic_review. rewrite Hv.
  assert (E : py_min (Hypothesis_.confidence h)
                (CriticEvaluation.recommended_confidence evaluation)
              = CriticEvaluation.recommended_confidence evaluation).
  { unfold py_min.
    destruct (Qltb _ _) eqn:E; [reflexivity|].
    apply Qltb_false in E. lra. }
  rewrite E. split; [reflexivity|]. split.
  - unfold Hypothesis_.confidence_in_bounds.
    apply andb_false_iff. left.
    destruct (Qle_bool 0 _) eqn:E0; [|reflexivity].
    apply Qle_bool_iff in E0. lra.
  - assert (E2 : Qltb (CriticEvaluation.recommended_confidence evaluation)
                   REVISION_THRESHOLD = true).
    { apply Qltb_true. unfold REVISION_THRESHOLD. lra. }
    rewrite E2. reflexivity.
Qed.

Lemma challenge_below_zero_is_stored_witness :
  exists h',
    apply_critic_evaluation Scenarios.users_store "id-1"
      Scenarios.negative_challenge
      = (<["id-1" := h']> Scenarios.users_store, Some h') /\
    Hypothesis_.confidence h' =
      CriticEvaluation.recommended_confidence Scenarios.negative_challenge /\
    Hypothesis_.confidence_in_bounds (Hypothesis_.confidence h') = false /\
    Hypothesis_.status h' = HypothesisStatus.NEEDS_REVISION.
Proof.
  apply (challenge_below_zero_is_stored Scenarios.users_store "id-1"
           (Scenarios.users_hypothesis "id-1") Scenarios.negative_challenge).
  - reflexivity.
  - reflexivity.
  - cbn. lra.
  - cbn. lra.
Defined.

(** X7. The status after [apply_probe_result], in terms of the confidence
    [c >= 0] before it: a confirming probe sets [confirmed] exactly when
    [c >= 0.8125], a falsifying probe sets [falsified] exactly when
    [c < 0.4], an inconclusive probe sets [needs_revision] exactly when
    [c < 4/19]; in every other case the status is left as it was. *)
Theorem probe_status_thresholds
    (self : gmap string Hypothesis_.t) (hid : string) (h : Hypothesis_.t)
    (r : ProbeResult.t) :
  self !! hid = Some h ->
  0 <= Hypothesis_.confidence h ->
  exists h',
    apply_probe_result self hid r = (<[hid := h']> self, Some h') /\
    Hypothesis_.status h' =
      match ProbeResult.outcome r with
      | ProbeOutcome.CONFIRMED =>
          if Qle_bool 0.8125 (Hypothesis_.confidence h)
          then HypothesisStatus.CONFIRMED else Hypothesis_.status h
      | ProbeOutcome.FALSIFIED =>
          if Qltb (Hypothesis_.confidence h) 0.4
          then HypothesisStatus.FALSIFIED else Hypothesis_.status h
      | ProbeOutcome.INCONCLUSIVE =>
          if Qltb (Hypothesis_.confidence h) (4 # 19)
          then HypothesisStatus.NEEDS_REVISION else Hypothesis_.status h
      end.
Proof.
  intros Hget H0. exists (probe_update h r).
  unfold HypothesisStore.apply_probe_result. rewrite Hget.
  split; [reflexivity|].
  cbn [probe_update Hypothesis_.status].
  unfold ConfidenceCalculator.apply_probe_result, REVISION_THRESHOLD.
  set (c := Hypothesis_.confidence h) in *.
  destruct (ProbeResult.outcome r); cbn [bool_decide andb];
    rewrite ?bool_decide_eq_true_2 by reflexivity;
    rewrite ?bool_decide_eq_false_2 by discriminate;
    cbn [andb].
  - destruct (Qle_bool 0.8125 c) eqn:E.
    + apply Qle_bool_iff in E.
      assert (E' : Qle_bool 0.85 (c + (1.0 - c) * 0.2) = true)
        by (apply Qle_bool_iff; lra).
      rewrite E'. reflexivity.
    + assert (E' : Qle_bool 0.85 (c + (1.0 - c) * 0.2) = false).
      { destruct (Qle_bool 0.85 _) eqn:E'; [|reflexivity].
        apply Qle_bool_iff in E'.
        assert (Qle_bool 0.8125 c = true) by (apply Qle_bool_iff; lra).
        congruence. }
      rewrite E'.
      assert (E2 : Qltb (c + (1.0 - c) * 0.2) 0.2 = false)
        by (apply Qltb_false; lra).
      rewrite E2. reflexivity.
  - destruct (Qltb c 0.4) eqn:E.
    + apply Qltb_true in E.
      assert (E' : Qltb (c * 0.5) 0.2 = true) by (apply Qltb_true; lra).
      rewrite E'. reflexivity.
    + apply Qltb_false in E.
      assert (E' : Qltb (c * 0.5) 0.2 = false) by (apply Qltb_false; lra).
      rewrite E'. reflexivity.
  - destruct (Qltb c (4 # 19)) eqn:E.
    + apply Qltb_true in E.
      assert (E' : Qltb (c * 0.95) 0.2 = true) by (apply Qltb_true; lra).
      rewrite E'. reflexivity.
    + apply Qltb_false in E.
      assert (E' : Qltb (c * 0.95) 0.2 = false) by (apply Qltb_false; lra).
      rewrite E'. reflexivity.
Qed.

Lemma probe_status_thresholds_witness :
  exists h',
    apply_probe_result Scenarios.users_store "id-1" Scenarios.confirming_probe
      = (<["id-1" := h']> Scenarios.users_store, Some h') /\
    Hypothesis_.status h' =
      match ProbeResult.outcome Scenarios.confirming_probe with
      | ProbeOutcome.CONFIRMED =>
          if Qle_bool 0.8125
               (Hypothesis_.confidence (Scenarios.users_hypothesis "id-1"))
          then HypothesisStatus.CONFIRMED
          else Hypothesis_.status (Scenarios.users_hypothesis "id-1")
      | ProbeOutcome.FALSIFIED =>
          if Qltb (Hypothesis_.confidence (Scenarios.users_hypothesis "id-1"))
               0.4
          then HypothesisStatus.FALSIFIED
          else Hypothesis_.status (Scenarios.users_hypothesis "id-1")
      | ProbeOutcome.INCONCLUSIVE =>
          if Qltb (Hypothesis_.confidence (Scenarios.users_hypothesis "id-1"))
               (4 # 19)
          then HypothesisStatus.NEEDS_REVISION
          else Hypothesis_.status (Scenarios.users_hypothesis "id-1")
      end.
Proof.
  apply (probe_status_thresholds Scenarios.users_store "id-1"
           (Scenarios.users_hypothesis "id-1") Scenarios.confirming_probe).
  - reflexivity.
  - cbn. lra.
Defined.

(** X8. On an id that is not in the store every mutator is a no-op: any
    sequence of them leaves the store as it was, [get] finds nothing and
    [delete] reports [False]. *)
Theorem unknown_id_is_left_alone
    (self : gmap string Hypothesis_.t) (hid : string) (ms : list mutation) :
  get self hid = None ->
  apply_mutations self hid ms = self /\
  Forall (fun m => apply_mutation self hid m = (self, None)) ms /\
  delete self hid = (self, false).
Proof.
  unfold get. intros H. split; [apply apply_mutations_missing, H|]. split.
  - apply Forall_forall. intros m _.
    destruct m; cbn [apply_mutation];
      unfold add_evidence, apply_critic_evaluation,
        HypothesisStore.apply_probe_result, update_status;
      rewrite H; reflexivity.
  - unfold delete. rewrite H. reflexivity.
Qed.

Lemma unknown_id_is_left_alone_witness :
  apply_mutations Scenarios.users_store "id-9" Scenarios.users_history
    = Scenarios.users_store /\
  Forall (fun m => apply_mutation Scenarios.users_store "id-9" m
                   = (Scenarios.users_store, None)) Scenarios.users_history /\
  delete Scenarios.users_store "id-9" = (Scenarios.users_store, false).
Proof.
  apply (unknown_id_is_left_alone Scenarios.users_store "id-9").
  reflexivity.
Defined.

(** X9. Round trip: a hypothesis created under a fresh id is found by
    [get], and deleting it gives back the store as it was before; [delete]
    then finds nothing more to delete. *)
Theorem create_get_delete_round_trip
    (self : gmap string Hypothesis_.t) (uuid : string)
    (type : HypothesisType.t + string) (description created_by : string)
    (evidence : option (list EvidenceRef.t)) (kw : kwargs)
    (s0 : gmap string Hypothesis_.t) (h0 : Hypothesis_.t) :
  get self uuid = None ->
  create self uuid type description created_by evidence kw = Ok (s0, h0) ->
  get s0 uuid = Some h0 /\
  (forall j, j <> uuid -> get s0 j = get self j) /\
  delete s0 uuid = (self, true) /\
  delete (delete s0 uuid).1 uuid = (self, false).
Proof.
  unfold get. intros Hfresh Hc.
  destruct (create_inv _ _ _ _ _ _ _ _ _ Hc) as (-> & _).
  assert (E : delete (<[uuid := h0]> self) uuid = (self, true)).
  { unfold delete. rewrite lookup_insert_eq.
    rewrite delete_insert_eq, delete_id by exact Hfresh. reflexivity. }
  split; [apply lookup_insert_eq|]. split.
  - intros j Hj. apply lookup_insert_ne. congruence.
  - split; [exact E|]. rewrite E. cbn [fst].
    unfold delete. rewrite Hfresh. reflexivity.
Qed.

Lemma create_get_delete_round_trip_witness :
  get Scenarios.users_store "id-1" = Some (Scenarios.users_hypothesis "id-1") /\
  (forall j, j <> "id-1" -> get Scenarios.users_store j = get ∅ j) /\
  delete Scenarios.users_store "id-1" = (∅, true) /\
  delete (delete Scenarios.users_store "id-1").1 "id-1" = (∅, false).
Proof.
  apply (create_get_delete_round_trip ∅ "id-1"
           (inl HypothesisType.ENDPOINT_SCHEMA)
           "API endpoint discovered: GET /api/users/{id}" "analyst" None
           Scenarios.users_endpoint).
  - reflexivity.
  - reflexivity.
Defined.

End StoreTraces.

(** ** [HypothesisStore.get_confidence_summary] *)

Section Summary.
Local Open Scope Q_scope.
Import HypothesisStore.

Lemma filter_disjoint_length {A : Type} (p q : A -> bool) (l : list A) :
  (forall x, p x = true -> q x = false) ->
  (length (List.filter p l) + length (List.filter q l) <= length l)%nat.
Proof.
  intros Hpq. induction l as [|x l IH]; [reflexivity|].
  cbn [List.filter]. destruct (p x) eqn:Ep.
  - rewrite (Hpq x Ep). cbn [length]. lia.
  - destruct (q x); cbn [length]; lia.
Qed.

Lemma filter_length_le {A : Type} (p : A -> bool) (l : list A) :
  (length (List.filter p l) <= length l)%nat.
Proof.
  induction l as [|x l IH]; [reflexivity|].
  cbn [List.filter]. destruct (p x); cbn [length]; lia.
Qed.

Lemma count_types_total (l : list Hypothesis_.t) :
  list_sum (map (count_type l) all_types) = length l.
Proof.
  induction l as [|h l IH]; [reflexivity|].
  unfold all_types, count_type, list_sum in *.
  cbn [map fold_right List.filter] in *.
  destruct (Hypothesis_.type h);
    repeat case_bool_decide; try congruence; cbn [length]; lia.
Qed.

Lemma get_all_nil (self : gmap string Hypothesis_.t) :
  get_all self = [] <-> self = ∅.
Proof.
  unfold get_all. split; intros H.
  - apply map_to_list_empty_iff. exact (fmap_nil_inv _ _ H).
  - subst self. rewrite map_to_list_empty. reflexivity.
Qed.

(** X10. The summary counts every stored hypothesis once: [total] is the
    size of the store, the per-type counts add up to it, and the high
    (>= 0.7) and low (< 0.5) confidence groups do not overlap. Only the
    summary of an empty store lacks the per-type counts. *)
Theorem summary_counts_partition (float_mean : list Q -> Q)
    (self : gmap string Hypothesis_.t) :
  total (get_confidence_summary float_mean self) = size self /\
  (high_confidence (get_confidence_summary float_mean self) +
   low_confidence (get_confidence_summary float_mean self)
     <= total (get_confidence_summary float_mean self))%nat /\
  (needs_revision (get_confidence_summary float_mean self)
     <= total (get_confidence_summary float_mean self))%nat /\
  (by_type (get_confidence_summary float_mean self) = None <-> self = ∅) /\
  (forall counts,
     by_type (get_confidence_summary float_mean self) = Some counts ->
     map fst counts = map HypothesisType.value all_types /\
     list_sum (map snd counts)
       = total (get_confidence_summary float_mean self)).
Proof.
  unfold get_confidence_summary.
  assert (Hlen : length (get_all self) = size self).
  { unfold get_all. rewrite length_fmap. apply length_map_to_list. }
  pose proof (get_all_nil self) as Hnil.
  destruct (get_all self) as [|h l] eqn:E.
  - cbn [summary_of total high_confidence low_confidence needs_revision
         by_type].
    split; [exact Hlen|]. split; [reflexivity|]. split; [reflexivity|].
    split; [|discriminate].
    split; intros _; [apply Hnil|]; reflexivity.
  - rewrite <- Hlen.
    unfold summary_of.
    cbn [total high_confidence low_confidence needs_revision by_type].
    split; [reflexivity|]. split.
    { rewrite <- (length_map Hypothesis_.confidence (h :: l)).
      apply filter_disjoint_length.
      intros c Hc. apply Qle_bool_iff in Hc. apply Qltb_false. lra. }
    split; [apply filter_length_le|]. split.
    { split; [discriminate|]. intros H. apply Hnil in H. discriminate. }
    intros counts [= <-].
    split; [reflexivity|]. exact (count_types_total (h :: l)).
Qed.

End Summary.

(** ** Deduplication in the analyst phase of [api/routes/control.py] *)

Section Deduplication.
Import HypothesisStore Control.

Variable head_lower : string -> string.

Lemma is_duplicate_false (description : string) (kw : kwargs)
    (existing : list Hypothesis_.t) (h : Hypothesis_.t) :
  is_duplicate_hypothesis head_lower description kw existing = false ->
  In h existing ->
  field_is (Hypothesis_.endpoint_pattern h)
    (default "" (kw_endpoint_pattern kw)) &&
  field_is (Hypothesis_.method h) (default "" (kw_method kw)) = false.
Proof.
  unfold is_duplicate_hypothesis. intros Hd Hin.
  induction existing as [|x l IH]; [destruct Hin|].
  cbn [existsb] in Hd. apply orb_false_iff in Hd as [Hx Hl].
  destruct Hin as [->|Hin]; [|apply IH; assumption].
  apply orb_false_iff in Hx as [Hx _]. exact Hx.
Qed.

Lemma get_all_lookup (self : gmap string Hypothesis_.t) (i : string)
    (h : Hypothesis_.t) :
  self !! i = Some h -> In h (get_all self).
Proof.
  intros H. unfold get_all. apply list_elem_of_In.
  apply list_elem_of_fmap. exists (i, h). split; [reflexivity|].
  apply elem_of_map_to_list. exact H.
Qed.

Lemma field_is_same (s : string) : field_is (Some s) s = true.
Proof. cbn. apply String.eqb_refl. Qed.

Lemma store_hypothesis_unique (self : gmap string Hypothesis_.t)
    (uuid : string) (type : HypothesisType.t + string)
    (description created_by : string) (kw : kwargs) :
  unique_endpoints self ->
  unique_endpoints
    (store_hypothesis head_lower self uuid type description created_by kw).
Proof.
  intros Hu. unfold store_hypothesis.
  destruct (is_duplicate_hypothesis head_lower description kw (get_all self))
    eqn:D; [exact Hu|].
  destruct (create self uuid type description created_by None kw)
    as [[s' h0]|] eqn:C; [|exact Hu].
  destruct (create_inv _ _ _ _ _ _ _ _ _ C)
    as (-> & _ & _ & _ & _ & _ & Hp & Hm & _).
  assert (Hclash : forall j hj pattern method,
            self !! j = Some hj ->
            Hypothesis_.endpoint_pattern h0 = Some pattern ->
            Hypothesis_.method h0 = Some method ->
            Hypothesis_.endpoint_pattern hj = Some pattern ->
            Hypothesis_.method hj = Some method -> False).
  { intros j hj pattern method Hj Hp0 Hm0 Hpj Hmj.
    pose proof (is_duplicate_false _ _ _ hj D (get_all_lookup _ _ _ Hj)) as F.
    rewrite Hp in Hp0. rewrite Hm in Hm0.
    rewrite Hp0, Hm0, Hpj, Hmj in F. cbn [default from_option id] in F.
    rewrite !field_is_same in F. discriminate F. }
  intros i j hi hj pattern method Hi Hj Hpi Hmi Hpj Hmj.
  destruct (decide (i = uuid)) as [->|Hiu];
    destruct (decide (j = uuid)) as [->|Hju]; [reflexivity| | |].
  - rewrite lookup_insert_eq in Hi. injection Hi as <-.
    rewrite lookup_insert_ne in Hj by congruence.
    exfalso. exact (Hclash j hj pattern method Hj Hpi Hmi Hpj Hmj).
  - rewrite lookup_insert_eq in Hj. injection Hj as <-.
    rewrite lookup_insert_ne in Hi by congruence.
    exfalso. exact (Hclash i hi pattern method Hi Hpj Hmj Hpi Hmi).
  - rewrite lookup_insert_ne in Hi by congruence.
    rewrite lookup_insert_ne in Hj by congruence.
    exact (Hu i j hi hj pattern method Hi Hj Hpi Hmi Hpj Hmj).
Qed.

(** X12. The analyst phase keeps endpoints unique: if no two stored
    hypotheses share an endpoint pattern and a method, this still holds
    after the phase has offered any list of hypotheses to the store behind
    its duplicate check, whatever ids are drawn and whether or not [create]
    fails. *)
Theorem analyst_phase_keeps_endpoints_unique
    (self : gmap string Hypothesis_.t) (found : list inferred) :
  unique_endpoints self ->
  unique_endpoints (store_hypotheses head_lower self found).
Proof.
  revert self. induction found as [|i found IH]; intros self Hu; [exact Hu|].
  unfold store_hypotheses. cbn [fold_left].
  apply IH. apply store_hypothesis_unique. exact Hu.
Qed.

End Deduplication.

Lemma analyst_phase_keeps_endpoints_unique_witness :
  Control.unique_endpoints
    (Control.store_hypotheses Scenarios.ascii_head_lower ∅
       Scenarios.analyst_findings).
Proof.
  apply (analyst_phase_keeps_endpoints_unique Scenarios.ascii_head_lower).
  intros i j hi hj pattern method Hi. rewrite lookup_empty in Hi.
  discriminate Hi.
Defined.


(** ** The supervisor's routing and the compiled graph *)

Section Loop.
Import AgentState Supervisor.

Ltac split_eqb :=
  repeat match goal with
         | |- context [String.eqb ?a ?b] => destruct (String.eqb_spec a b)
         end.

(** X13. The supervisor only ever selects one of the six phases. It selects
    [probe] exactly when the critique phase ended with a review that
    requires probes, which is when [critic_routing] answers
    [probe_needed]; it selects [infer] only after an observe phase that left
    observations, [critique] only after an infer phase that left pending
    hypotheses, and [update] only after critique or probe. *)
Theorem next_phase_routes (state : AgentState.t) :
  In (next_phase state) phases /\
  (next_phase state = "probe" <->
   loop_phase state = "critique" /\ critic_routing state = "probe_needed") /\
  (next_phase state = "infer" ->
   loop_phase state = "observe" /\ new_observations state <> []) /\
  (next_phase state = "critique" ->
   loop_phase state = "infer" /\ pending_hypotheses state <> []) /\
  (next_phase state = "update" ->
   loop_phase state = "critique" \/ loop_phase state = "probe").
Proof.
  unfold next_phase, critic_routing, phases.
  destruct (any_truthy "required_probes" (critic_reviews state)) eqn:P;
    destruct (any_truthy "required_exploration" (critic_reviews state));
    destruct (new_observations state) as [|o os];
    destruct (pending_hypotheses state) as [|p ps];
    cbn [nonempty];
    split_eqb;
    repeat split; cbn [In];
    try (intros; discriminate); try tauto; try congruence;
    try (intros [? ?]; congruence).
Qed.







End Loop.

(** ** The state machine store *)

Section StateMachine.
Import FSMStore.

Lemma add_states_known (state_hash : string)
    (visits : list (string * string * string)) :
  forall (self : FSMStore.t) (p : page_state),
    page_states self !! state_hash = Some p ->
    page_states (add_states self state_hash visits) !! state_hash =
      Some (mk_page_state (ps_session_id p) (ps_url p) (ps_page_title p)
              (ps_visit_count p + Z.of_nat (length visits))
              (ps_is_dead_end p)) /\
    (forall other, other <> state_hash ->
       page_states (add_states self state_hash visits) !! other =
       page_states self !! other) /\
    transitions (add_states self state_hash visits) = transitions self.
Proof.
  induction visits as [|v visits IH]; intros self p Hp.
  - cbn [add_states fold_left length Z.of_nat]. rewrite Z.add_0_r.
    destruct p. split; [exact Hp|]. split; reflexivity.
  - unfold add_states. cbn [fold_left].
    assert (E : (add_state self state_hash v.1.1 v.1.2 v.2).1 =
                mk (foreign_keys self) (sessions self)
                   (alter bump_visit state_hash (page_states self))
                   (transitions self) (last_transition_id self)).
    { unfold add_state. rewrite Hp.
      rewrite bool_decide_eq_false_2 by discriminate. reflexivity. }
    rewrite E.
    destruct (IH (mk (foreign_keys self) (sessions self)
                    (alter bump_visit state_hash (page_states self))
                    (transitions self) (last_transition_id self))
                 (bump_visit p)) as (H1 & H2 & H3).
    { cbn [page_states]. rewrite lookup_alter_eq, Hp. reflexivity. }
    unfold add_states in H1, H2, H3.
    split; [|split].
    + rewrite H1. cbn [bump_visit ps_session_id ps_url ps_page_title
                       ps_visit_count ps_is_dead_end length].
      do 2 f_equal. lia.
    + intros other Ho. rewrite (H2 other Ho). cbn [page_states].
      apply lookup_alter_ne. congruence.
    + rewrite H3. reflexivity.
Qed.

(** X15. Visits are counted: on a connection that does not enforce foreign
    keys (the default), the first [add_state] for an unknown hash reports a
    new state and stores the row of that visit; any further [add_state]
    calls for the hash only raise [visit_count], so after [n] calls it is
    [n], the row still shows the first visit's session, URL and title, and
    no other row or transition has changed. *)
Theorem visits_are_counted (self : FSMStore.t) (state_hash : string)
    (session_id url page_title : string)
    (later : list (string * string * string)) :
  foreign_keys self = false ->
  page_states self !! state_hash = None ->
  (add_state self state_hash session_id url page_title).2 = true /\
  page_states
    (add_states self state_hash ((session_id, url, page_title) :: later))
    !! state_hash =
    Some (mk_page_state session_id url page_title
            (1 + Z.of_nat (length later)) false) /\
  (forall other, other <> state_hash ->
     page_states
       (add_states self state_hash ((session_id, url, page_title) :: later))
       !! other = page_states self !! other) /\
  transitions
    (add_states self state_hash ((session_id, url, page_title) :: later))
    = transitions self.
Proof.
  intros Hfk Hnew.
  assert (E : add_state self state_hash session_id url page_title =
              (mk (foreign_keys self) (sessions self)
                  (<[state_hash :=
                       mk_page_state session_id url page_title 1 false]>
                     (page_states self))
                  (transitions self) (last_transition_id self), true)).
  { unfold add_state. rewrite Hnew, Hfk.
    rewrite bool_decide_eq_true_2 by reflexivity. reflexivity. }
  split; [rewrite E; reflexivity|].
  unfold add_states. cbn [fold_left fst snd]. rewrite E. cbn [fst].
  destruct (add_states_known state_hash later
              (mk (foreign_keys self) (sessions self)
                  (<[state_hash :=
                       mk_page_state session_id url page_title 1 false]>
                     (page_states self))
                  (transitions self) (last_transition_id self))
              (mk_page_state session_id url page_title 1 false))
    as (H1 & H2 & H3).
  { cbn [page_states]. apply lookup_insert_eq. }
  unfold add_states in H1, H2, H3.
  split; [exact H1|]. split; [|exact H3].
  intros other Ho. rewrite (H2 other Ho). cbn [page_states].
  apply lookup_insert_ne. congruence.
Qed.

Lemma visits_are_counted_witness :
  (add_state initialize "s-home" "session-1" "https://shop.example/" "Home").2
    = true /\
  page_states
    (add_states initialize "s-home"
       [("session-1", "https://shop.example/", "Home");
        ("session-1", "https://shop.example/?ref=nav", "Home - Shop")])
    !! "s-home" =
    Some (mk_page_state "session-1" "https://shop.example/" "Home"
            (1 + Z.of_nat
                   (length [("session-1", "https://shop.example/?ref=nav",
                             "Home - Shop")]))
            false) /\
  (forall other, other <> "s-home" ->
     page_states
       (add_states initialize "s-home"
          [("session-1", "https://shop.example/", "Home");
           ("session-1", "https://shop.example/?ref=nav", "Home - Shop")])
       !! other = page_states initialize !! other) /\
  transitions
    (add_states initialize "s-home"
       [("session-1", "https://shop.example/", "Home");
        ("session-1", "https://shop.example/?ref=nav", "Home - Shop")])
    = transitions initialize.
Proof.
  apply (visits_are_counted initialize "s-home" "session-1"
           "https://shop.example/" "Home").
  - reflexivity.
  - reflexivity.
Defined.

Lemma add_transition_inv (self : FSMStore.t)
    (session_id from_hash to_hash type target : string)
    (apis : option (list string)) (ok : bool)
    (self' : FSMStore.t) (rowid : Z) :
  add_transition self session_id from_hash to_hash type target apis ok
    = Ok (self', rowid) ->
  rowid = (last_transition_id self + 1)%Z /\
  last_transition_id self' = rowid /\
  page_states self' = page_states self /\
  exists tr,
    transitions self' = (transitions self ++ [tr])%list /\
    tr_id tr = rowid /\ tr_session_id tr = session_id /\
    from_state_hash tr = from_hash /\ to_state_hash tr = to_hash /\
    action_type tr = type /\ action_target tr = target /\
    success tr = ok.
Proof.
  unfold add_transition.
  destruct (negb (foreign_keys self) || _); [|discriminate].
  intros [= <- <-]. cbn. repeat split; try reflexivity.
  eexists. repeat split; reflexivity.
Qed.

Lemma has_transition_after (self self' : FSMStore.t)
    (session_id from_hash to_hash type target : string)
    (apis : option (list string)) (ok : bool) (rowid : Z) :
  add_transition self session_id from_hash to_hash type target apis ok
    = Ok (self', rowid) ->
  forall h a b : string,
    has_transition self' h a b =
      has_transition self h a b ||
      (String.eqb from_hash h && String.eqb type a && String.eqb target b).
Proof.
  intros Hadd h a b.
  destruct (add_transition_inv _ _ _ _ _ _ _ _ _ _ Hadd)
    as (_ & _ & _ & tr & Htr & _ & _ & Hf & _ & Hty & Htg & _).
  unfold has_transition. rewrite Htr, existsb_app. cbn [existsb].
  rewrite Hf, Hty, Htg, orb_false_r. reflexivity.
Qed.

(** X17. An action that has been tried is not offered again: after a
    successful [add_transition] from a state, with whatever [success] flag,
    [has_transition] finds the action and [get_unexplored_actions] for that
    state no longer lists it; every other action, and every other state,
    is offered exactly as before. *)
Theorem tried_action_is_not_offered_again (self self' : FSMStore.t)
    (session_id from_hash to_hash type target : string)
    (apis : option (list string)) (ok : bool) (rowid : Z)
    (available : list (string * string)) :
  add_transition self session_id from_hash to_hash type target apis ok
    = Ok (self', rowid) ->
  has_transition self' from_hash type target = true /\
  ~ In (type, target) (get_unexplored_actions self' from_hash available) /\
  (forall h action,
     (h, action) <> (from_hash, (type, target)) ->
     In action (get_unexplored_actions self' h available) <->
     In action (get_unexplored_actions self h available)).
Proof.
  intros Hadd.
  pose proof (has_transition_after _ _ _ _ _ _ _ _ _ _ Hadd) as Hh.
  assert (H1 : has_transition self' from_hash type target = true).
  { rewrite Hh, !String.eqb_refl. apply orb_true_r. }
  split; [exact H1|]. split.
  - unfold get_unexplored_actions. intros Hin.
    apply filter_In in Hin as [_ Hin]. cbn [fst snd] in Hin.
    rewrite H1 in Hin. discriminate Hin.
  - intros h [a b] Hne. unfold get_unexplored_actions.
    rewrite !filter_In. cbn [fst snd]. rewrite Hh.
    destruct (String.eqb_spec from_hash h) as [->|];
      destruct (String.eqb_spec type a) as [->|];
      destruct (String.eqb_spec target b) as [->|];
      cbn [andb]; rewrite ?orb_false_r; try reflexivity.
    congruence.
Qed.

Lemma tried_action_is_not_offered_again_witness :
  has_transition
    (mk false ∅ ∅
       [mk_transition 1 "session-1" "s-home" "s-home" "click" "#broken"
          None false] 1)
    "s-home" "click" "#broken" = true /\
  ~ In ("click", "#broken")
      (get_unexplored_actions
         (mk false ∅ ∅
            [mk_transition 1 "session-1" "s-home" "s-home" "click" "#broken"
               None false] 1)
         "s-home" [("click", "#broken"); ("click", "#cart")]) /\
  (forall h action,
     (h, action) <> ("s-home", ("click", "#broken")) ->
     In action
       (get_unexplored_actions
          (mk false ∅ ∅
             [mk_transition 1 "session-1" "s-home" "s-home" "click" "#broken"
                None false] 1)
          h [("click", "#broken"); ("click", "#cart")]) <->
     In action
       (get_unexplored_actions initialize h
          [("click", "#broken"); ("click", "#cart")])).
Proof.
  apply (tried_action_is_not_offered_again initialize _ "session-1" "s-home"
           "s-home" "click" "#broken" None false 1).
  reflexivity.
Defined.

End StateMachine.

(** ** The verifier *)

Section Verifier.
Local Open Scope Q_scope.
Import VerifierAgent.

Variable origin_of : string -> string.
Variable exn_text : exn -> string.

(** X18. The verdict of [_evaluate_outcome] is one of the three outcome
    names and its confidence delta lies between -0.3 and 0.15. A confirmed
    probe always has a delta of at least 0.1, an inconclusive one never a
    positive delta, and the only falsifying case is a [sequence_break]
    probe answered with a 2xx status. *)
Theorem evaluate_outcome_range (probe_type : pyval) (status : Z) :
  In (_evaluate_outcome probe_type status).1.1
     ["confirmed"; "falsified"; "inconclusive"] /\
  -0.3 <= (_evaluate_outcome probe_type status).1.2 <= 0.15 /\
  ((_evaluate_outcome probe_type status).1.1 = "confirmed" ->
   0.1 <= (_evaluate_outcome probe_type status).1.2) /\
  ((_evaluate_outcome probe_type status).1.1 = "inconclusive" ->
   (_evaluate_outcome probe_type status).1.2 <= 0) /\
  ((_evaluate_outcome probe_type status).1.1 = "falsified" ->
   is_probe probe_type ProbeType.SEQUENCE_BREAK = true /\
   (200 <= status < 300)%Z /\
   (_evaluate_outcome probe_type status).1.2 = -0.3).
Proof.
  unfold _evaluate_outcome.
  destruct (is_probe probe_type ProbeType.REPLAY_EXACT);
    [|destruct (is_probe probe_type ProbeType.AUTH_VARIATION);
      [|destruct (is_probe probe_type ProbeType.OMIT_FIELD);
        [|destruct (is_probe probe_type ProbeType.SEQUENCE_BREAK) eqn:SB;
          [|destruct (is_probe probe_type ProbeType.BOUNDARY_VALUE)]]]];
    destruct (200 <=? status)%Z eqn:E1; destruct (status <? 300)%Z eqn:E2;
    destruct (400 <=? status)%Z eqn:E3; destruct (status =? 401)%Z eqn:E4;
    destruct (status =? 403)%Z eqn:E5; destruct (status =? 400)%Z eqn:E6;
    cbn [andb fst snd ProbeOutcome.value In];
    (split; [tauto|]); (split; [split; lra|]);
    (split; [intros; try discriminate; lra|]);
    (split; [intros; try discriminate; lra|]);
    intros; try discriminate;
    (split; [reflexivity|split; [lia|reflexivity]]).
Qed.

Lemma execute_probe_fields (peer : http_call -> string + response)
    (self : VerifierAgent.t) (probe : dict) (state : AgentState.t)
    (r : probe_result) :
  _execute_probe origin_of peer self probe state = Ok r ->
  pr_hypothesis_id r = get_or "hypothesis_id" (PStr "") probe /\
  pr_probe_type r = get_or "probe_type" (PStr "") probe.
Proof.
  unfold _execute_probe.
  destruct (_build_probe_request origin_of self probe state) as [[rq|]|];
    cbn [mbind result_bind Py.bind]; [| |discriminate].
  - destruct (peer (http_call_of self rq)) as [e|resp].
    + intros [= <-]. split; reflexivity.
    + destruct (_evaluate_outcome _ _) as [[outcome delta] notes].
      intros [= <-]. split; reflexivity.
  - intros [= <-]. split; reflexivity.
Qed.

Lemma execute_probe_peer (peer peer' : http_call -> string + response)
    (self : VerifierAgent.t) (probe : dict) (state : AgentState.t) :
  (forall call,
     sent_request origin_of self probe state = Ok (Some call) ->
     peer' call = peer call) ->
  _execute_probe origin_of peer' self probe state
  = _execute_probe origin_of peer self probe state.
Proof.
  unfold _execute_probe, sent_request.
  destruct (_build_probe_request origin_of self probe state) as [[rq|]|];
    cbn [mbind result_bind Py.bind]; intros H; try reflexivity.
  rewrite (H _ eq_refl). reflexivity.
Qed.

(** X19. One run of the verifier executes the first ten collected probes
    and no more: it returns one result per executed probe, in order, each
    carrying the hypothesis id and the type of its probe; and the only HTTP
    calls it makes are those of these probes, at most one each: a peer that
    answers these calls alike gives the same results, whatever it would
    answer to any other call. *)
Theorem execute_runs_at_most_ten_probes
    (peer : http_call -> string + response) (self : VerifierAgent.t)
    (state : AgentState.t) (results : list probe_result) :
  execute origin_of exn_text peer self state = Ok results ->
  exists probes,
    collect_probes (AgentState.critic_reviews state) = Ok probes /\
    length results = Nat.min 10 (length probes) /\
    Forall2
      (fun probe r =>
         pr_hypothesis_id r = get_or "hypothesis_id" (PStr "") probe /\
         pr_probe_type r = get_or "probe_type" (PStr "") probe)
      (firstn 10 probes) results /\
    (forall peer' : http_call -> string + response,
       (forall probe call,
          In probe (firstn 10 probes) ->
          sent_request origin_of self probe state = Ok (Some call) ->
          peer' call = peer call) ->
       execute origin_of exn_text peer' self state = Ok results).
Proof.
  unfold execute.
  destruct (collect_probes (AgentState.critic_reviews state)) as [probes|];
    [|discriminate].
  cbn [mbind result_bind Py.bind]. intros [= <-].
  exists probes. split; [reflexivity|].
  unfold max_requests_per_run.
  split; [rewrite length_map, length_firstn; reflexivity|]. split.
  - induction (firstn 10 probes) as [|probe l IH]; cbn [map]; constructor;
      [|exact IH].
    destruct (_execute_probe origin_of peer self probe state) as [r|e] eqn:E.
    + exact (execute_probe_fields _ _ _ _ _ E).
    + split; reflexivity.
  - intros peer' Hpeer. f_equal. apply map_ext_in. intros probe Hin.
    rewrite (execute_probe_peer peer peer' self probe state
               (fun call => Hpeer probe call Hin)).
    reflexivity.
Qed.

Lemma build_request_headers (self : VerifierAgent.t) (probe : dict)
    (state : AgentState.t) (r : request) :
  auth_headers self = [] ->
  _build_probe_request origin_of self probe state = Ok (Some r) ->
  incl (req_headers r)
    [("Content-Type", "application/json"); ("Accept", "application/json")].
Proof.
  intros Hauth. unfold _build_probe_request. rewrite Hauth.
  cbn [header_update fold_left].
  destruct (List.find _ _) as [[|kv h]|]; try discriminate.
  destruct (String.eqb (AgentState.current_url state) ""); try discriminate.
  destruct (get_or "endpoint_pattern" (PStr "") (kv :: h));
    try discriminate.
  destruct (if is_write_method _ then _ else _) as [body|];
    cbn [mbind result_bind Py.bind]; try discriminate.
  destruct (is_probe _ ProbeType.AUTH_VARIATION).
  { intros [= <-]. cbn [req_headers]. intros x Hx.
    exact Hx. }
  destruct (is_probe _ ProbeType.OMIT_FIELD);
    [intros [= <-]; apply incl_refl|].
  destruct (is_probe _ ProbeType.BOUNDARY_VALUE);
    [intros [= <-]; apply incl_refl|].
  destruct (is_probe _ ProbeType.CHANGE_TYPE);
    intros [= <-]; apply incl_refl.
Qed.

(** X20. After [clear_auth] the verifier holds no credentials: whatever
    probe it then sends carries no cookie and no header besides the
    [Content-Type] and [Accept] defaults. *)
Theorem cleared_verifier_sends_no_credentials
    (self : VerifierAgent.t) (probe : dict) (state : AgentState.t)
    (call : http_call) :
  sent_request origin_of (clear_auth self) probe state = Ok (Some call) ->
  call_cookies call = [] /\
  incl (call_headers call)
    [("Content-Type", "application/json"); ("Accept", "application/json")].
Proof.
  unfold sent_request.
  destruct (_build_probe_request origin_of (clear_auth self) probe state)
    as [[r|]|] eqn:B; cbn [mbind result_bind Py.bind]; try discriminate.
  intros [= <-]. split; [reflexivity|].
  cbn [http_call_of call_headers].
  exact (build_request_headers (clear_auth self) probe state r eq_refl B).
Qed.

Lemma app_cons (c : ascii) (p t : string) :
  String c p +:+ t = String c (p +:+ t).
Proof. reflexivity. Qed.

Lemma app_nil (s : string) : "" +:+ s = s.
Proof. reflexivity. Qed.

Lemma replace_from_cons (pat rep : string) (c : ascii) (r : string) :
  replace_from pat rep 0 (String c r) =
  if is_prefix pat (String c r)
  then rep +:+ replace_from pat rep (String.length pat - 1) r
  else String c (replace_from pat rep 0 r).
Proof. reflexivity. Qed.

Lemma is_prefix_cons (a b : ascii) (p s : string) :
  is_prefix (String a p) (String b s) = Ascii.eqb a b && is_prefix p s.
Proof. reflexivity. Qed.

Lemma no_brace_cons (c : ascii) (r : string) :
  str_in "{" (String c r) = false ->
  Ascii.eqb "{" c = false /\ str_in "{" r = false.
Proof.
  cbn [str_in is_prefix]. rewrite andb_true_r. apply orb_false_iff.
Qed.

Lemma replace_id_app (p t : string) :
  str_in "{" p = false ->
  replace_from "{id}" "1" 0 (p +:+ t) = p +:+ replace_from "{id}" "1" 0 t.
Proof.
  induction p as [|c p IH]; intros H; [reflexivity|].
  apply no_brace_cons in H as [Hc Hp].
  rewrite !app_cons. cbn [replace_from is_prefix]. rewrite Hc. cbn [andb].
  rewrite (IH Hp). reflexivity.
Qed.

Lemma sub_placeholders_app (p t : string) :
  str_in "{" p = false ->
  sub_placeholders None (p +:+ t) = p +:+ sub_placeholders None t.
Proof.
  induction p as [|c p IH]; intros H; [reflexivity|].
  apply no_brace_cons in H as [Hc Hp].
  rewrite !app_cons. cbn [sub_placeholders]. rewrite eqb_sym, Hc.
  rewrite (IH Hp). reflexivity.
Qed.

Lemma append_empty (s : string) : s +:+ "" = s.
Proof.
  induction s as [|c s IH]; [reflexivity|]. rewrite app_cons, IH. reflexivity.
Qed.

Lemma append_assoc (a b c : string) : (a +:+ b) +:+ c = a +:+ (b +:+ c).
Proof.
  induction a as [|x a IH]; [reflexivity|]. rewrite !app_cons, IH.
  reflexivity.
Qed.

Lemma replace_id_none (s : string) :
  str_in "{" s = false -> replace_from "{id}" "1" 0 s = s.
Proof.
  intros H. rewrite <- (append_empty s) at 1.
  rewrite (replace_id_app s "" H). apply append_empty.
Qed.

Lemma sub_placeholders_none (s : string) :
  str_in "{" s = false -> sub_placeholders None s = s.
Proof.
  intros H. rewrite <- (append_empty s) at 1.
  rewrite (sub_placeholders_app s "" H). apply append_empty.
Qed.

Lemma sub_placeholders_close (name : string) :
  str_in "}" name = false ->
  forall buf t : string,
    sub_placeholders (Some buf) (name +:+ "}" +:+ t) =
    (if String.eqb (buf +:+ name) "" then "{}" else "test") +:+
    sub_placeholders None t.
Proof.
  induction name as [|c name IH]; intros H buf t.
  - rewrite app_nil, app_cons, app_nil. cbn [sub_placeholders].
    rewrite Ascii.eqb_refl, append_empty. reflexivity.
  - cbn [str_in is_prefix] in H. rewrite andb_true_r in H.
    apply orb_false_iff in H as [Hc Hn].
    rewrite app_cons. cbn [sub_placeholders].
    rewrite eqb_sym, Hc.
    rewrite (IH Hn). rewrite append_assoc, app_cons, app_nil. reflexivity.
Qed.

Lemma not_id_prefix (name t : string) :
  name <> "" -> name <> "id" -> str_in "}" name = false ->
  is_prefix "id}" (name +:+ "}" +:+ t) = false.
Proof.
  intros H0 Hid Hb.
  destruct name as [|a [|b [|c n]]]; [congruence| | |].
  - rewrite !app_cons, !app_nil. cbn [is_prefix].
    destruct (Ascii.eqb "i" a); reflexivity.
  - rewrite !app_cons, !app_nil. cbn [is_prefix].
    destruct (Ascii.eqb_spec "i" a) as [<-|]; [|reflexivity].
    destruct (Ascii.eqb_spec "d" b) as [<-|]; [|reflexivity].
    congruence.
  - rewrite !app_cons. cbn [is_prefix].
    destruct (Ascii.eqb "i" a); [|reflexivity].
    destruct (Ascii.eqb "d" b); [|reflexivity].
    cbn [andb].
    cbn [str_in is_prefix] in Hb. rewrite !andb_true_r in Hb.
    apply orb_false_iff in Hb as [_ Hb].
    apply orb_false_iff in Hb as [_ Hb].
    apply orb_false_iff in Hb as [Hc _].
    rewrite Hc. reflexivity.
Qed.

(** X21. [_fill_path_params] on a path whose only placeholder is the one
    shown: a path without an opening brace is returned as it is, [{id}]
    becomes [1], and any other non-empty placeholder name becomes [test]. *)
Theorem fill_path_params_placeholders (prefix suffix : string) :
  str_in "{" prefix = false ->
  str_in "{" suffix = false ->
  _fill_path_params prefix = prefix /\
  _fill_path_params (prefix +:+ "{id}" +:+ suffix)
    = prefix +:+ "1" +:+ suffix /\
  (forall name : string,
     name <> "" -> name <> "id" ->
     str_in "{" name = false -> str_in "}" name = false ->
     _fill_path_params (prefix +:+ "{" +:+ name +:+ "}" +:+ suffix)
       = prefix +:+ "test" +:+ suffix).
Proof.
  intros Hp Hs. unfold _fill_path_params, replace. split; [|split].
  - rewrite (replace_id_none _ Hp). apply sub_placeholders_none, Hp.
  - rewrite (replace_id_app _ _ Hp).
    assert (E : replace_from "{id}" "1" 0 ("{id}" +:+ suffix)
                = "1" +:+ suffix).
    { rewrite !app_cons, app_nil.
      cbn [replace_from is_prefix String.length Nat.sub].
      rewrite !Ascii.eqb_refl. cbn [andb].
      rewrite (replace_id_none _ Hs). reflexivity. }
    rewrite E, (sub_placeholders_app _ _ Hp).
    rewrite !app_cons, app_nil. cbn [sub_placeholders].
    change (Ascii.eqb "1" "{") with false. cbn iota.
    rewrite (sub_placeholders_none _ Hs). reflexivity.
  - intros name H0 Hid Hn Hc.
    rewrite (replace_id_app _ _ Hp).
    assert (E : replace_from "{id}" "1" 0 ("{" +:+ name +:+ "}" +:+ suffix)
                = "{" +:+ name +:+ "}" +:+ suffix).
    { rewrite app_cons, app_nil.
      rewrite replace_from_cons, is_prefix_cons.
      rewrite Ascii.eqb_refl. cbn [andb].
      rewrite (not_id_prefix name suffix H0 Hid Hc).
      rewrite (replace_id_app _ _ Hn).
      rewrite app_cons, app_nil. cbn [replace_from is_prefix].
      change (Ascii.eqb "{" "}") with false. cbn [andb].
      rewrite (replace_id_none _ Hs). reflexivity. }
    rewrite E, (sub_placeholders_app _ _ Hp).
    rewrite app_cons, app_nil. cbn [sub_placeholders].
    rewrite Ascii.eqb_refl.
    rewrite (sub_placeholders_close name Hc "" suffix).
    rewrite app_nil, (sub_placeholders_none _ Hs).
    destruct (String.eqb_spec name "") as [->|_]; [congruence|].
    reflexivity.
Qed.

End Verifier.

(** The theorem at four reviews with twelve probes: ten are executed. *)
Lemma execute_runs_at_most_ten_probes_witness :
  match VerifierAgent.collect_probes
          (AgentState.critic_reviews Scenarios.crowded_state) with
  | Ok probes => length probes = 12%nat
  | Raise _ => False
  end /\
  exists results,
    VerifierAgent.execute Scenarios.shop_origin Scenarios.exn_name
      Scenarios.unauthorized_peer Scenarios.logged_in_verifier
      Scenarios.crowded_state = Ok results /\
    length results = 10%nat /\
    exists probes,
      VerifierAgent.collect_probes
        (AgentState.critic_reviews Scenarios.crowded_state) = Ok probes /\
      length results = Nat.min 10 (length probes) /\
      Forall2
        (fun probe r =>
           VerifierAgent.pr_hypothesis_id r
             = get_or "hypothesis_id" (PStr "") probe /\
           VerifierAgent.pr_probe_type r
             = get_or "probe_type" (PStr "") probe)
        (firstn 10 probes) results /\
      (forall peer' : VerifierAgent.http_call
                      -> string + VerifierAgent.response,
         (forall probe call,
            In probe (firstn 10 probes) ->
            VerifierAgent.sent_request Scenarios.shop_origin
              Scenarios.logged_in_verifier probe Scenarios.crowded_state
              = Ok (Some call) ->
            peer' call = Scenarios.unauthorized_peer call) ->
         VerifierAgent.execute Scenarios.shop_origin Scenarios.exn_name
           peer' Scenarios.logged_in_verifier Scenarios.crowded_state
           = Ok results).
Proof.
  split; [reflexivity|].
  eexists. split; [reflexivity|]. split; [reflexivity|].
  apply (execute_runs_at_most_ten_probes Scenarios.shop_origin
           Scenarios.exn_name Scenarios.unauthorized_peer
           Scenarios.logged_in_verifier Scenarios.crowded_state).
  reflexivity.
Defined.

Lemma cleared_verifier_sends_no_credentials_witness :
  VerifierAgent.call_cookies Scenarios.anonymous_probe_call = [] /\
  incl (VerifierAgent.call_headers Scenarios.anonymous_probe_call)
    [("Content-Type", "application/json"); ("Accept", "application/json")].
Proof.
  apply (cleared_verifier_sends_no_credentials Scenarios.shop_origin
           Scenarios.logged_in_verifier Scenarios.auth_probe
           Scenarios.probing_state).
  reflexivity.
Defined.

Lemma fill_path_params_placeholders_witness :
  VerifierAgent._fill_path_params "/api/orders" = "/api/orders" /\
  VerifierAgent._fill_path_params ("/api/orders/" +:+ "{id}" +:+ "/items")
    = "/api/orders/" +:+ "1" +:+ "/items" /\
  (forall name : string,
     name <> "" -> name <> "id" ->
     str_in "{" name = false -> str_in "}" name = false ->
     VerifierAgent._fill_path_params
       ("/api/orders/" +:+ "{" +:+ name +:+ "}" +:+ "/items")
       = "/api/orders/" +:+ "test" +:+ "/items").
Proof.
  assert (H := fill_path_params_placeholders "/api/orders" "").
  destruct (fill_path_params_placeholders "/api/orders/" "/items")
    as (_ & H2 & H3); [reflexivity|reflexivity|].
  destruct H as (H1 & _); [reflexivity|reflexivity|].
  split; [exact H1|]. split; [exact H2|exact H3].
Defined.

(** ** Dictionaries *)

Section Dictionaries.

Lemma dict_get_set_eq (k : string) (v : pyval) (d : dict) :
  dict_get k (dict_set k v d) = Some v.
Proof.
  induction d as [|[k0 w] d IH]; cbn [dict_set dict_get].
  - rewrite String.eqb_refl. reflexivity.
  - destruct (String.eqb k k0) eqn:E; cbn [dict_get]; rewrite E;
      [reflexivity|exact IH].
Qed.

Lemma dict_get_set_ne (k k' : string) (v : pyval) (d : dict) :
  k <> k' -> dict_get k (dict_set k' v d) = dict_get k d.
Proof.
  intros Hne. induction d as [|[k0 w] d IH]; cbn [dict_set dict_get].
  - destruct (String.eqb_spec k k'); [contradiction|reflexivity].
  - destruct (String.eqb_spec k' k0) as [->|]; cbn [dict_get].
    + destruct (String.eqb_spec k k0); [contradiction|reflexivity].
    + rewrite IH. reflexivity.
Qed.


End Dictionaries.

(** ** Merging object schemas and inferred schemas *)

Section Merging.
Import SchemaMerger.



















Section Inferred.
Variable string_format : string -> option string.

Lemma infer_schema_type (data : pyval) :
  exists rest,
    _infer_schema string_format data
    = PDict (("type", PStr (type_name data)) :: rest).
Proof.
  destruct data as [| | | |s|l|d]; cbn [_infer_schema type_name];
    try (eexists; reflexivity).
  destruct l; eexists; reflexivity.
Qed.

Lemma type_name_truthy (data : pyval) :
  truthy (PStr (type_name data)) = true.
Proof. destruct data; reflexivity. Qed.





















(** X24. Merging the schemas inferred from two values, the first of which
    is not a list or a dictionary: when the two values are of the same JSON
    kind the result is the first value's schema (format included, whatever
    the second string looks like); otherwise it is the [anyOf] of the two
    schemas in argument order: also when one of the values is [None]. *)
Theorem merge_of_inferred_scalars (depth : nat) (a b : pyval) :
  type_name a <> "array" ->
  type_name a <> "object" ->
  _merge_schemas (S depth) (_infer_schema string_format a)
    (_infer_schema string_format b)
  = Ok (if String.eqb (type_name a) (type_name b)
        then _infer_schema string_format a
        else PDict [("anyOf", PList [_infer_schema string_format a;
                                      _infer_schema string_format b])]).
Proof.
  intros Ha Ho.
  destruct (infer_schema_type a) as [ra Ea].
  destruct (infer_schema_type b) as [rb Eb].
  rewrite Ea, Eb. cbn [_merge_schemas dict_get String.eqb Ascii.eqb
                       Bool.eqb].
  unfold opt_eq. cbn [of_opt py_eq truthy_opt].
  rewrite !type_name_truthy. cbn [andb].
  destruct (String.eqb_spec (type_name a) (type_name b)) as [E|E].
  - destruct (String.eqb_spec (type_name a) "object"); [contradiction|].
    destruct (String.eqb_spec (type_name a) "array"); [contradiction|].
    reflexivity.
  - reflexivity.
Qed.

End Inferred.

End Merging.



Lemma merge_of_inferred_scalars_witness :
  SchemaMerger._merge_schemas 1
    (SchemaMerger._infer_schema Scenarios.no_format PNone)
    (SchemaMerger._infer_schema Scenarios.no_format (PStr "alice"))
  = Ok (if String.eqb (SchemaMerger.type_name PNone)
             (SchemaMerger.type_name (PStr "alice"))
        then SchemaMerger._infer_schema Scenarios.no_format PNone
        else PDict [("anyOf",
                     PList [SchemaMerger._infer_schema Scenarios.no_format
                              PNone;
                            SchemaMerger._infer_schema Scenarios.no_format
                              (PStr "alice")])]).
Proof.
  apply (merge_of_inferred_scalars Scenarios.no_format 0 PNone (PStr "alice"));
    discriminate.
Defined.

(** ** The critic's reviews *)

Section Critic.
Local Open Scope Q_scope.
Import CriticAgent.

Variable py_str : pyval -> string.
Variable exn_text : exn -> string.
Variable chars : string -> list string.
Variable json_dumps : option nat -> pyval -> string.
Variable dict_slice_error : exn.

Lemma opt_eq_str (x : option pyval) (s : string) :
  opt_eq x (Some (PStr s)) = true -> x = Some (PStr s).
Proof.
  unfold opt_eq. cbn [of_opt]. intros H. apply py_eq_str_r in H.
  destruct x as [v|]; cbn [of_opt] in H; [congruence|discriminate].
Qed.

Lemma valid_verdict (x : option pyval) :
  existsb (opt_eq x)
    [Some (PStr "accept"); Some (PStr "challenge"); Some (PStr "reject")]
    = true ->
  exists v, x = Some (PStr v) /\ In v ["accept"; "challenge"; "reject"].
Proof.
  cbn [existsb]. rewrite orb_false_r. intros H.
  apply orb_true_iff in H as [H|H]; [|apply orb_true_iff in H as [H|H]];
    apply opt_eq_str in H; eexists; (split; [exact H|]); cbn; tauto.
Qed.

Lemma num_min_cap (x capped : pyval) :
  num_min (PFloat 1.0) x = Ok capped ->
  exists q, num_of capped = Some q /\ q <= 1.
Proof.
  unfold num_min. cbn [num_of].
  destruct (num_of x) as [q|] eqn:E; [|discriminate].
  destruct (Qltb q 1.0) eqn:L; intros [= <-].
  - exists q. split; [exact E|]. apply Qltb_true in L. lra.
  - exists 1.0. split; [reflexivity|]. lra.
Qed.

Lemma num_max_floor (capped : pyval) (q : Q) :
  num_of capped = Some q -> q <= 1 ->
  exists bounded q',
    num_max (PFloat 0.0) capped = Ok bounded /\
    num_of bounded = Some q' /\ 0 <= q' <= 1.
Proof.
  intros E Hq. unfold num_max. cbn [num_of]. rewrite E.
  destruct (Qltb 0.0 q) eqn:L.
  - exists capped, q. split; [reflexivity|]. split; [exact E|].
    apply Qltb_true in L. lra.
  - exists (PFloat 0.0), 0.0. split; [reflexivity|].
    split; [reflexivity|]. lra.
Qed.

Lemma evaluate_hypothesis_review (llm : option (string -> result dict))
    (hypothesis review : dict) :
  _evaluate_hypothesis py_str chars json_dumps
      dict_slice_error llm hypothesis = Ok review ->
  review_of hypothesis review.
Proof.
  unfold _evaluate_hypothesis.
  destruct (_build_evaluation_prompt py_str chars json_dumps
      dict_slice_error hypothesis) as [prompt|];
    cbn [mbind result_bind Py.bind]; [|discriminate].
  match goal with
  | |- mbind _ ?c = Ok _ -> _ => destruct c as [e0|]
  end; cbn [mbind result_bind Py.bind]; [|discriminate].
  set (id := get_or "id" (PStr "unknown") hypothesis).
  set (e2 := dict_set "original_confidence" _ (dict_set "hypothesis_id" id e0)).
  set (e3 := if existsb (opt_eq (dict_get "verdict" e2)) _
             then e2 else dict_set "verdict" (PStr "challenge") e2).
  assert (Hid : dict_get "hypothesis_id" e3 = Some id).
  { unfold e3, e2. destruct (existsb _ _);
      rewrite ?dict_get_set_ne by discriminate; apply dict_get_set_eq. }
  assert (Hv : exists v, dict_get "verdict" e3 = Some (PStr v) /\
                         In v ["accept"; "challenge"; "reject"]).
  { unfold e3. destruct (existsb _ _) eqn:V.
    - apply valid_verdict in V. exact V.
    - exists "challenge". rewrite dict_get_set_eq.
      split; [reflexivity|]. cbn. tauto. }
  clearbody e3. clear e2.
  destruct (num_min (PFloat 1.0)
              (get_or "recommended_confidence" (PFloat 0.3) e3))
    as [capped|] eqn:C; cbn [mbind result_bind Py.bind]; [|discriminate].
  destruct (num_min_cap _ _ C) as (q & Hq & Hq1).
  destruct (num_max_floor capped q Hq Hq1) as (bounded & q' & B & Hb & Hr).
  rewrite B. cbn [mbind result_bind Py.bind].
  destruct (_ && _); intros [= <-]; unfold review_of;
    rewrite ?dict_get_set_ne by discriminate;
    rewrite dict_get_set_eq;
    (split; [exact Hid|]); (split; [exact Hv|]);
    exists bounded, q'; auto.
Qed.

Lemma error_review_of (hypothesis : dict) (error : string) :
  review_of hypothesis (_create_error_review hypothesis error).
Proof.
  unfold review_of, _create_error_review. cbn [dict_get String.eqb Ascii.eqb
    Bool.eqb]. split; [reflexivity|]. split.
  - exists "challenge". split; [reflexivity|]. cbn. tauto.
  - exists (PFloat 0.3), 0.3. split; [reflexivity|]. split; [reflexivity|].
    lra.
Qed.

(** X25. The critic returns exactly one review per pending hypothesis, in
    order, and every review names its hypothesis, carries one of the three
    verdicts and recommends a number between 0 and 1: whatever the language
    model answered, and also when the evaluation of a hypothesis raised. *)
Theorem critic_reviews_are_well_formed
    (llm : option (string -> result dict)) (state : AgentState.t) :
  Forall2 review_of (AgentState.pending_hypotheses state)
    (execute py_str chars json_dumps dict_slice_error exn_text llm state).
Proof.
  unfold execute.
  induction (AgentState.pending_hypotheses state) as [|h l IH];
    cbn [map]; constructor; [|exact IH].
  destruct (_evaluate_hypothesis py_str chars json_dumps
      dict_slice_error llm h) as [review|e] eqn:E.
  - exact (evaluate_hypothesis_review _ _ _ E).
  - apply error_review_of.
Qed.

Lemma default_probes_nonempty (hypothesis : dict) :
  _generate_default_probes py_str hypothesis <> [] <->
  exists t, dict_get "type" hypothesis = Some (PStr t) /\
            In t ["endpoint_schema"; "business_rule"; "state_transition";
                  "permission_gate"].
Proof.
  unfold _generate_default_probes, get_or.
  destruct (dict_get "type" hypothesis) as [v|].
  - destruct (py_eq v (PStr "endpoint_schema")) eqn:E1.
    { apply py_eq_str_r in E1. subst v. split; [|discriminate].
      intros _. eexists. split; [reflexivity|]. cbn. tauto. }
    cbn [existsb]. rewrite orb_false_r.
    destruct (py_eq v (PStr "business_rule")) eqn:E2.
    { apply py_eq_str_r in E2. subst v. split; [|discriminate].
      intros _. eexists. split; [reflexivity|]. cbn. tauto. }
    destruct (py_eq v (PStr "state_transition")) eqn:E3.
    { apply py_eq_str_r in E3. subst v. split; [|discriminate].
      intros _. eexists. split; [reflexivity|]. cbn. tauto. }
    cbn [orb].
    destruct (py_eq v (PStr "permission_gate")) eqn:E4.
    { apply py_eq_str_r in E4. subst v. split; [|discriminate].
      intros _. eexists. split; [reflexivity|]. cbn. tauto. }
    split; [congruence|]. intros (t & [= ->] & Ht). exfalso.
    cbn [py_eq] in E1, E2, E3, E4. cbn [In] in Ht.
    destruct Ht as [<-|[<-|[<-|[<-|[]]]]]; discriminate.
  - cbn. split; [congruence|]. intros (t & [=] & _).
Qed.

(** X26. The default probes of a hypothesis: at most three, each a
    dictionary whose [probe_type] is one of [replay_exact], [omit_field],
    [auth_variation] and [sequence_break]; there is at least one exactly for
    the hypothesis types [endpoint_schema], [business_rule],
    [state_transition] and [permission_gate]. *)
Theorem default_probes_are_known (hypothesis : dict) :
  (length (_generate_default_probes py_str hypothesis) <= 3)%nat /\
  Forall (fun probe =>
            exists d t,
              probe = PDict d /\
              dict_get "probe_type" d = Some (PStr (ProbeType.value t)) /\
              In t [ProbeType.REPLAY_EXACT; ProbeType.OMIT_FIELD;
                    ProbeType.AUTH_VARIATION; ProbeType.SEQUENCE_BREAK])
    (_generate_default_probes py_str hypothesis) /\
  (_generate_default_probes py_str hypothesis <> [] <->
   exists t, dict_get "type" hypothesis = Some (PStr t) /\
             In t ["endpoint_schema"; "business_rule"; "state_transition";
                   "permission_gate"]).
Proof.
  split; [|split; [|apply default_probes_nonempty]].
  - unfold _generate_default_probes.
    destruct (py_eq _ (PStr "endpoint_schema"));
      [destruct (existsb _ _); cbn; lia|].
    destruct (existsb _ _); [cbn; lia|].
    destruct (py_eq _ _); cbn; lia.
  - unfold _generate_default_probes.
    destruct (py_eq _ (PStr "endpoint_schema")).
    + destruct (existsb _ _); cbn [app];
        repeat (apply List.Forall_cons || apply List.Forall_nil);
        eexists; eexists; (split; [reflexivity|]);
        (split; [reflexivity|]); cbn; tauto.
    + destruct (existsb _ _).
      * repeat (apply List.Forall_cons || apply List.Forall_nil).
        eexists; eexists; (split; [reflexivity|]);
        (split; [reflexivity|]); cbn; tauto.
      * destruct (py_eq _ _);
          repeat (apply List.Forall_cons || apply List.Forall_nil).
        eexists; eexists; (split; [reflexivity|]);
        (split; [reflexivity|]); cbn; tauto.
Qed.

Lemma fallback_inv (hypothesis e0 : dict) :
  _fallback_evaluation py_str hypothesis = Ok e0 ->
  exists n q rc q' v,
    py_len (get_or "supporting_evidence" (PList []) hypothesis) = Ok n /\
    num_of (get_or "confidence" (PFloat 0.5) hypothesis) = Some q /\
    dict_get "recommended_confidence" e0 = Some rc /\
    num_of rc = Some q' /\
    dict_get "required_probes" e0
      = Some (PList (_generate_default_probes py_str hypothesis)) /\
    dict_get "verdict" e0 = Some (PStr v) /\
    (v = "challenge" \/ (v = "accept" /\ (3 < n)%nat /\ 0.6 <= q)).
Proof.
  unfold _fallback_evaluation.
  destruct (py_len _) as [n|]; cbn [mbind result_bind Py.bind];
    [|discriminate].
  destruct (num_of (get_or "confidence" (PFloat 0.5) hypothesis))
    as [q|] eqn:Hq.
  2:{ unfold num_min. rewrite Hq.
      destruct (n <=? 1)%nat; [|destruct (n <=? 3)%nat];
        cbn [mbind result_bind Py.bind]; discriminate. }
  assert (Hmin : forall cap : Q,
            exists r q', num_min (get_or "confidence" (PFloat 0.5) hypothesis)
                           (PFloat cap) = Ok r /\ num_of r = Some q').
  { intros cap. unfold num_min. rewrite Hq. cbn [num_of].
    destruct (Qltb cap q); eexists; eexists; split; try reflexivity.
    exact Hq. }
  destruct (n <=? 1)%nat eqn:N1; [|destruct (n <=? 3)%nat eqn:N3].
  - destruct (Hmin 0.3) as (r & q' & -> & Hr).
    cbn [mbind result_bind Py.bind]. intros [= <-].
    exists n, q, r, q', "challenge".
    repeat split; try reflexivity; try assumption. left. reflexivity.
  - destruct (Hmin 0.5) as (r & q' & -> & Hr).
    cbn [mbind result_bind Py.bind]. intros [= <-].
    exists n, q, r, q', "challenge".
    repeat split; try reflexivity; try assumption. left. reflexivity.
  - destruct (Hmin 0.7) as (r & q' & -> & Hr).
    cbn [mbind result_bind Py.bind]. intros [= <-].
    destruct (Qle_bool 0.6 q) eqn:A.
    + exists n, q, r, q', "accept".
      repeat split; try reflexivity; try assumption. right.
      split; [reflexivity|]. split.
      * apply Nat.leb_gt in N3. exact N3.
      * apply Qle_bool_iff in A. exact A.
    + exists n, q, r, q', "challenge".
      repeat split; try reflexivity; try assumption. left. reflexivity.
Qed.

Lemma fallback_total (hypothesis : dict) (n : nat) (q : Q) :
  py_len (get_or "supporting_evidence" (PList []) hypothesis) = Ok n ->
  num_of (get_or "confidence" (PFloat 0.5) hypothesis) = Some q ->
  exists e0, _fallback_evaluation py_str hypothesis = Ok e0.
Proof.
  intros Hn Hq. unfold _fallback_evaluation. rewrite Hn.
  cbn [mbind result_bind Py.bind]. unfold num_min. rewrite Hq. cbn [num_of].
  destruct (n <=? 1)%nat; [|destruct (n <=? 3)%nat];
    cbn [mbind result_bind Py.bind]; eexists; reflexivity.
Qed.

Lemma prompt_of_listed_evidence (hypothesis : dict)
    (evidence : list pyval) :
  get_or "supporting_evidence" (PList []) hypothesis = PList evidence ->
  exists prompt, _build_evaluation_prompt py_str chars json_dumps
      dict_slice_error hypothesis = Ok prompt.
Proof.
  intros He. unfold _build_evaluation_prompt. rewrite He.
  cbn [slice_head]. destruct (truthy (PList evidence));
    cbn [mbind result_bind Py.bind]; eexists; reflexivity.
Qed.

Lemma completion_keeps_fallback (hypothesis e0 : dict) (prompt : string)
    (rc : pyval) (q' : Q) (v : string) :
  _build_evaluation_prompt py_str chars json_dumps
      dict_slice_error hypothesis = Ok prompt ->
  dict_get "recommended_confidence" e0 = Some rc ->
  num_of rc = Some q' ->
  dict_get "required_probes" e0
    = Some (PList (_generate_default_probes py_str hypothesis)) ->
  dict_get "verdict" e0 = Some (PStr v) ->
  In v ["accept"; "challenge"; "reject"] ->
  exists review,
    _evaluate_hypothesis py_str chars json_dumps
        dict_slice_error (Some (fun _ => Ok e0)) hypothesis = Ok review /\
    dict_get "required_probes" review
      = Some (PList (_generate_default_probes py_str hypothesis)) /\
    dict_get "verdict" review = Some (PStr v).
Proof.
  intros Hprompt Hrc Hq Hp Hv Hin. unfold _evaluate_hypothesis.
  rewrite Hprompt. cbn [mbind result_bind Py.bind].
  set (id := get_or "id" (PStr "unknown") hypothesis).
  set (e2 := dict_set "original_confidence" _ (dict_set "hypothesis_id" id e0)).
  assert (Hv2 : dict_get "verdict" e2 = Some (PStr v)).
  { unfold e2. rewrite !dict_get_set_ne by discriminate. exact Hv. }
  assert (Hvalid : existsb (opt_eq (dict_get "verdict" e2))
                     [Some (PStr "accept"); Some (PStr "challenge");
                      Some (PStr "reject")] = true).
  { rewrite Hv2. cbn [In] in Hin.
    destruct Hin as [<-|[<-|[<-|[]]]]; reflexivity. }
  rewrite Hvalid.
  assert (Hrc2 : get_or "recommended_confidence" (PFloat 0.3) e2 = rc).
  { unfold get_or, e2. rewrite !dict_get_set_ne by discriminate.
    rewrite Hrc. reflexivity. }
  assert (Hp2 : dict_get "required_probes" e2
                = Some (PList (_generate_default_probes py_str hypothesis))).
  { unfold e2. rewrite !dict_get_set_ne by discriminate. exact Hp. }
  clearbody e2. rewrite Hrc2.
  assert (Hcap : exists capped q1,
            num_min (PFloat 1.0) rc = Ok capped /\
            num_of capped = Some q1 /\ (q1 <= 1)%Q).
  { unfold num_min. cbn [num_of]. rewrite Hq.
    destruct (Qltb q' 1.0) eqn:L.
    - exists rc, q'. split; [reflexivity|]. split; [exact Hq|].
      apply Qltb_true in L. lra.
    - exists (PFloat 1.0), 1.0. split; [reflexivity|].
      split; [reflexivity|]. lra. }
  destruct Hcap as (capped & q1 & -> & Hq1 & Hle).
  cbn [mbind result_bind Py.bind].
  destruct (num_max_floor capped q1 Hq1 Hle) as (bounded & q2 & -> & _ & _).
  cbn [mbind result_bind Py.bind].
  destruct (_ && _); eexists; (split; [reflexivity|]);
    rewrite ?dict_get_set_eq; rewrite ?dict_get_set_ne by discriminate;
    split; try reflexivity; assumption.
Qed.

Lemma evaluate_fallback_ok (hypothesis e0 : dict) :
  _fallback_evaluation py_str hypothesis = Ok e0 ->
  _evaluate_hypothesis py_str chars json_dumps
      dict_slice_error None hypothesis
    = _evaluate_hypothesis py_str chars json_dumps
      dict_slice_error (Some (fun _ => Ok e0)) hypothesis.
Proof. intros F. unfold _evaluate_hypothesis. rewrite F. reflexivity. Qed.

Lemma evaluate_fallback_raise (hypothesis : dict) (prompt : string)
    (e : exn) :
  _build_evaluation_prompt py_str chars json_dumps
      dict_slice_error hypothesis = Ok prompt ->
  _fallback_evaluation py_str hypothesis = Raise e ->
  _evaluate_hypothesis py_str chars json_dumps
      dict_slice_error None hypothesis = Raise e.
Proof.
  intros P F. unfold _evaluate_hypothesis. rewrite P, F. reflexivity.
Qed.

Lemma evaluate_prompt_raise (llm : option (string -> result dict))
    (hypothesis : dict) (e : exn) :
  _build_evaluation_prompt py_str chars json_dumps
      dict_slice_error hypothesis = Raise e ->
  _evaluate_hypothesis py_str chars json_dumps
      dict_slice_error llm hypothesis = Raise e.
Proof. intros P. unfold _evaluate_hypothesis. rewrite P. reflexivity. Qed.

(** X27. The critic without a language model and the supervisor: if the
    critique phase runs on a state with a pending hypothesis of type
    [endpoint_schema], [business_rule], [state_transition] or
    [permission_gate] whose supporting evidence is a list and whose
    confidence is a number, the fallback review asks for probes,
    [critic_routing] answers [probe_needed] and the supervisor moves on to
    the probe phase. *)
Theorem fallback_critique_leads_to_probe (state : AgentState.t)
    (hypothesis : dict) (evidence : list pyval) (q : Q) (t : string) :
  AgentState.loop_phase state = "critique" ->
  In hypothesis (AgentState.pending_hypotheses state) ->
  get_or "supporting_evidence" (PList []) hypothesis = PList evidence ->
  num_of (get_or "confidence" (PFloat 0.5) hypothesis) = Some q ->
  dict_get "type" hypothesis = Some (PStr t) ->
  In t ["endpoint_schema"; "business_rule"; "state_transition";
        "permission_gate"] ->
  Supervisor.critic_routing
    (critique_node py_str chars json_dumps dict_slice_error exn_text None
       state) = "probe_needed" /\
  Supervisor.next_phase
    (critique_node py_str chars json_dumps dict_slice_error exn_text None
       state) = "probe".
Proof.
  intros Hphase Hin He Hq Ht Htin.
  assert (Hn : py_len (get_or "supporting_evidence" (PList []) hypothesis)
               = Ok (length evidence)) by (by rewrite He).
  assert (Hany : Supervisor.any_truthy "required_probes"
                   (execute py_str chars json_dumps dict_slice_error
                      exn_text None state) = true).
  { unfold Supervisor.any_truthy, execute. apply existsb_exists.
    destruct (prompt_of_listed_evidence hypothesis evidence He)
      as [prompt Hprompt].
    destruct (fallback_total hypothesis _ q Hn Hq) as [e0 He0].
    destruct (fallback_inv hypothesis e0 He0)
      as (n' & q0 & rc & q' & v & _ & _ & Hrc & Hq' & Hp & Hv & Hcase).
    assert (Hvin : In v ["accept"; "challenge"; "reject"]).
    { cbn. destruct Hcase as [->|[-> _]]; tauto. }
    destruct (completion_keeps_fallback hypothesis e0 prompt rc q' v
                Hprompt Hrc Hq' Hp Hv Hvin)
      as (review & Hreview & Hprobes & _).
    exists review. split.
    - apply in_map_iff. exists hypothesis. split; [|exact Hin].
      rewrite (evaluate_fallback_ok _ _ He0), Hreview. reflexivity.
    - rewrite Hprobes. cbn [truthy_opt truthy].
      destruct (_generate_default_probes py_str hypothesis) eqn:E;
        [|reflexivity].
      exfalso. revert E. apply default_probes_nonempty.
      exists t. split; assumption. }
  unfold Supervisor.critic_routing, Supervisor.next_phase.
  cbn [critique_node AgentState.critic_reviews AgentState.loop_phase].
  rewrite Hany, Hphase. split; reflexivity.
Qed.

(** X28. Without a language model the critic accepts a hypothesis only on
    more than three observations and a confidence of at least 0.6; every
    other hypothesis, also one it cannot evaluate, is challenged. *)
Theorem fallback_accepts_only_on_evidence (state : AgentState.t) :
  Forall2
    (fun hypothesis review =>
       (dict_get "verdict" review = Some (PStr "challenge") \/
        dict_get "verdict" review = Some (PStr "accept")) /\
       (dict_get "verdict" review = Some (PStr "accept") ->
        exists n q,
          py_len (get_or "supporting_evidence" (PList []) hypothesis)
            = Ok n /\
          num_of (get_or "confidence" (PFloat 0.5) hypothesis) = Some q /\
          (3 < n)%nat /\ 0.6 <= q))
    (AgentState.pending_hypotheses state)
    (execute py_str chars json_dumps dict_slice_error exn_text None state).
Proof.
  unfold execute.
  induction (AgentState.pending_hypotheses state) as [|h l IH];
    cbn [map]; constructor; [|exact IH].
  destruct (_build_evaluation_prompt py_str chars json_dumps
      dict_slice_error h) as [prompt|e] eqn:P.
  2:{ rewrite (evaluate_prompt_raise _ _ _ P).
      cbn [_create_error_review dict_get String.eqb Ascii.eqb Bool.eqb].
      split; [left; reflexivity|]. discriminate. }
  destruct (_fallback_evaluation py_str h) as [e0|e] eqn:F.
  - destruct (fallback_inv h e0 F)
      as (n & q & rc & q' & v & Hn & Hq & Hrc & Hq' & Hp & Hv & Hcase).
    assert (Hvin : In v ["accept"; "challenge"; "reject"]).
    { cbn. destruct Hcase as [->|[-> _]]; tauto. }
    destruct (completion_keeps_fallback h e0 prompt rc q' v
                P Hrc Hq' Hp Hv Hvin)
      as (review & Hreview & _ & Hverdict).
    rewrite (evaluate_fallback_ok _ _ F), Hreview, Hverdict.
    destruct Hcase as [->|(-> & Hn3 & Hq6)].
    + split; [left; reflexivity|]. discriminate.
    + split; [right; reflexivity|]. intros _. exists n, q. auto.
  - rewrite (evaluate_fallback_raise _ _ _ P F).
    cbn [_create_error_review dict_get String.eqb Ascii.eqb
                    Bool.eqb].
    split; [left; reflexivity|]. discriminate.
Qed.

End Critic.
Lemma fallback_critique_leads_to_probe_witness :
  AgentState.loop_phase Scenarios.critique_state = "critique" /\
  In Scenarios.single_observation_hypothesis
    (AgentState.pending_hypotheses Scenarios.critique_state) /\
  Supervisor.critic_routing
    (CriticAgent.critique_node Scenarios.plain_str Scenarios.ascii_chars
       Scenarios.plain_json TypeError Scenarios.exn_name None
       Scenarios.critique_state) = "probe_needed" /\
  Supervisor.next_phase
    (CriticAgent.critique_node Scenarios.plain_str Scenarios.ascii_chars
       Scenarios.plain_json TypeError Scenarios.exn_name None
       Scenarios.critique_state) = "probe".
Proof.
  split; [reflexivity|]. split; [left; reflexivity|].
  apply (fallback_critique_leads_to_probe Scenarios.plain_str
           Scenarios.exn_name Scenarios.ascii_chars Scenarios.plain_json
           TypeError Scenarios.critique_state
           Scenarios.single_observation_hypothesis
           [PDict [("observation_id", PStr "obs-1");
                   ("summary", PStr "GET /api/users/42 -> 200");
                   ("strength", PStr "moderate")]]
           0.2%Q "endpoint_schema").
  - reflexivity.
  - left. reflexivity.
  - reflexivity.
  - reflexivity.
  - reflexivity.
  - left. reflexivity.
Defined.

(** ** Names of enumeration members in [create] *)

Section Names.
Import HypothesisStore.

Lemma type_of_value_value (t : HypothesisType.t) :
  HypothesisType.of_value (HypothesisType.value t) = Ok t.
Proof. destruct t; reflexivity. Qed.

Lemma status_of_value_value (st : HypothesisStatus.t) :
  HypothesisStatus.of_value (HypothesisStatus.value st) = Ok st.
Proof. destruct st; reflexivity. Qed.

Lemma type_of_value_unknown (s : string) :
  (forall t, s <> HypothesisType.value t) ->
  HypothesisType.of_value s = Raise ValueError.
Proof.
  intros H. unfold HypothesisType.of_value.
  repeat match goal with
         | |- context [String.eqb s ?v] =>
             destruct (String.eqb_spec s v) as [E|_]
         end; try reflexivity; exfalso;
    [apply (H HypothesisType.ENDPOINT_SCHEMA)
    |apply (H HypothesisType.BUSINESS_RULE)
    |apply (H HypothesisType.STATE_TRANSITION)
    |apply (H HypothesisType.PERMISSION_GATE)
    |apply (H HypothesisType.RATE_LIMIT)
    |apply (H HypothesisType.FIELD_CONSTRAINT)]; exact E.
Qed.

(** X29. [create] accepts the type and the status by name: passing the
    string value of a [HypothesisType] or [HypothesisStatus] member gives
    the same result as passing the member, and a type name that no member
    has raises [ValueError], so nothing is stored. *)
Theorem create_resolves_names (self : gmap string Hypothesis_.t)
    (uuid description created_by : string)
    (evidence : option (list EvidenceRef.t))
    (t : HypothesisType.t) (st : HypothesisStatus.t)
    (confidence : option Q) (supporting : list evidence_item)
    (competing : option (list CompetingExplanation.t))
    (untested : option (list string)) (pattern method : option string)
    (request response : option pyval)
    (rule : option EnforcementRuleType.t) :
  create self uuid (inr (HypothesisType.value t)) description created_by
    evidence
    (mk_kwargs (Some (inr (HypothesisStatus.value st))) confidence supporting
       competing untested pattern method request response rule)
  = create self uuid (inl t) description created_by evidence
      (mk_kwargs (Some (inl st)) confidence supporting competing untested
         pattern method request response rule) /\
  (forall (name : string) (kw : kwargs),
     (forall t', name <> HypothesisType.value t') ->
     create self uuid (inr name) description created_by evidence kw
     = Raise ValueError).
Proof.
  split.
  - unfold create. cbn [resolve_type resolve_status kw_status].
    rewrite type_of_value_value, status_of_value_value. reflexivity.
  - intros name kw H. unfold create. cbn [resolve_type].
    rewrite (type_of_value_unknown name H). reflexivity.
Qed.

End Names.

(** ** Probes that fail *)

Section ProbeErrors.
Local Open Scope Q_scope.
Import VerifierAgent.
Variable origin_of : string -> string.

(** X30. A probe that cannot be sent is inconclusive: when no request can
    be built for it (unknown hypothesis, no current URL) no HTTP call is
    made, and when the call fails with a request error the error is
    caught; in both cases the result is [inconclusive] with status 0, no
    body and a confidence delta of -0.05. When the peer answers, the result
    records its status code and the verdict of [_evaluate_outcome] on it. *)
Theorem unsent_probe_is_inconclusive
    (peer : http_call -> string + response) (self : VerifierAgent.t)
    (probe : dict) (state : AgentState.t) (sent : option http_call) :
  sent_request origin_of self probe state = Ok sent ->
  exists r,
    _execute_probe origin_of peer self probe state = Ok r /\
    match sent with
    | None =>
        r = _create_error_result probe "Could not build request"
    | Some call =>
        match peer call with
        | inl message =>
            r = _create_error_result probe ("Request failed: " +:+ message)
        | inr answer =>
            pr_response_status r = resp_status_code answer /\
            (pr_outcome r, pr_confidence_delta r, pr_notes r) =
              _evaluate_outcome (get_or "probe_type" (PStr "") probe)
                (resp_status_code answer)
        end
    end /\
    ((sent = None \/
      exists call message, sent = Some call /\ peer call = inl message) ->
     pr_outcome r = "inconclusive" /\ pr_confidence_delta r = -0.05 /\
     pr_response_status r = 0%Z /\ pr_response_body r = None).
Proof.
  unfold sent_request, _execute_probe.
  destruct (_build_probe_request origin_of self probe state) as [[req|]|];
    cbn [mbind result_bind Py.bind]; [| |discriminate].
  - intros [= <-].
    destruct (peer (http_call_of self req)) as [message|answer] eqn:P.
    + eexists. split; [reflexivity|]. split; [reflexivity|].
      intros _. repeat split.
    + destruct (_evaluate_outcome _ _) as [[outcome delta] notes] eqn:O.
      eexists. split; [reflexivity|]. split; [split; reflexivity|].
      intros [[=]|(call & message & [= <-] & Hp)]. congruence.
  - intros [= <-]. eexists. split; [reflexivity|]. split; [reflexivity|].
    intros _. repeat split.
Qed.

End ProbeErrors.

Lemma unsent_probe_is_inconclusive_witness :
  exists r,
    VerifierAgent._execute_probe Scenarios.shop_origin
      Scenarios.unauthorized_peer Scenarios.logged_in_verifier
      Scenarios.auth_probe Scenarios.probing_state = Ok r /\
    match Some Scenarios.auth_probe_call with
    | None =>
        r = VerifierAgent._create_error_result Scenarios.auth_probe
              "Could not build request"
    | Some call =>
        match Scenarios.unauthorized_peer call with
        | inl message =>
            r = VerifierAgent._create_error_result Scenarios.auth_probe
                  ("Request failed: " +:+ message)
        | inr answer =>
            VerifierAgent.pr_response_status r
            = VerifierAgent.resp_status_code answer /\
            (VerifierAgent.pr_outcome r, VerifierAgent.pr_confidence_delta r,
             VerifierAgent.pr_notes r) =
              VerifierAgent._evaluate_outcome
                (get_or "probe_type" (PStr "") Scenarios.auth_probe)
                (VerifierAgent.resp_status_code answer)
        end
    end /\
    ((Some Scenarios.auth_probe_call = None \/
      exists call message,
        Some Scenarios.auth_probe_call = Some call /\
        Scenarios.unauthorized_peer call = inl message) ->
     VerifierAgent.pr_outcome r = "inconclusive" /\
     VerifierAgent.pr_confidence_delta r = (-0.05)%Q /\
     VerifierAgent.pr_response_status r = 0%Z /\
     VerifierAgent.pr_response_body r = None).
Proof.
  apply (unsent_probe_is_inconclusive Scenarios.shop_origin
           Scenarios.unauthorized_peer Scenarios.logged_in_verifier
           Scenarios.auth_probe Scenarios.probing_state
           (Some Scenarios.auth_probe_call)).
  reflexivity.
Defined.
